(** * DtCyber peripheral devices: 6612 console, 1612 and 3000-series printers

    A shallow embedding of [console.c], [lp1612.c] and [lp3000.c].  Every C
    function becomes a function on an explicit device state; calls into
    code outside these files (the window layer, the 6681 converter, the C
    library's file and clock calls) are recorded in the state or supplied
    by an environment record. *)

From Stdlib Require Import ZArith Lia Bool String.
From stdpp Require Import base numbers list.

Local Open Scope Z_scope.

(** ** Machine integers *)

(** Conversion to an unsigned [w]-bit integer. *)
Definition wrap (w : Z) (x : Z) : Z := x mod 2 ^ w.

Definition to_u8 : Z -> Z := wrap 8.
Definition to_u16 : Z -> Z := wrap 16.
Definition to_u32 : Z -> Z := wrap 32.
Definition to_u64 : Z -> Z := wrap 64.

(** Conversion of an unsigned 32-bit pattern to [int]. *)
Definition to_int (x : Z) : Z :=
  let u := to_u32 x in if u <? 2 ^ 31 then u else u - 2 ^ 32.

(** Widening of a [char], kept as its 8-bit pattern, to a 16-bit [PpWord];
    [char] is signed on the hosts this source is written for. *)
Definition char_to_PpWord (c : Z) : Z :=
  to_u16 (if to_u8 c <? 128 then to_u8 c else to_u8 c - 256).

(** The C notation [0ddd]: the decimal digits of [n] read in base eight. *)
Fixpoint oct_digits (n : nat) (d : Z) : Z :=
  match n with
  | O => 0
  | S n' => d mod 10 + 8 * oct_digits n' (d / 10)
  end.

Definition oct (d : Z) : Z := oct_digits 8 d.

(** [flags & m] used as a C condition. *)
Definition has_flag (flags m : Z) : bool := negb (Z.land flags m =? 0).

(** ** Declarations shared by the devices ([types.h], [const.h], [proto.h]) *)

(** Modelled from the spec: [types.h] is not among the sources; a function
    call is answered Accepted, Processed or Declined. *)
Inductive FcStatus : Set := FcDeclined | FcAccepted | FcProcessed.

(** Modelled from the spec: the channel carries a data word, a full flag, a
    status word and its number ([ChSlot] of [types.h]). *)
Record ChSlot : Set := mkChSlot {
  chId : Z;
  chData : Z;
  chFull : bool;
  chStatus : Z
}.

Definition set_chFull (b : bool) (c : ChSlot) : ChSlot :=
  mkChSlot (chId c) (chData c) b (chStatus c).
Definition set_chData (d : Z) (c : ChSlot) : ChSlot :=
  mkChSlot (chId c) d (chFull c) (chStatus c).
Definition set_chStatus (st : Z) (c : ChSlot) : ChSlot :=
  mkChSlot (chId c) (chData c) (chFull c) st.

(** Modelled from the spec: the bit masks of [const.h], the low six and the
    low nine bits of a word. *)
Definition Mask6 : Z := Eval cbv in oct 77.
Definition Mask9 : Z := Eval cbv in oct 777.

(** The character tables of [charset.c], which is not among the sources:
    they are parameters of the development. *)
Class Charset : Type := {
  bcdToAscii : Z -> Z;
  extBcdToAscii : Z -> Z;
  consoleToAscii : Z -> Z;
  asciiToCdc : Z -> Z;
  asciiToConsole : Z -> Z
}.

(** The broken-down local time that [localtime] returns. *)
Record Tm : Set := mkTm {
  tm_year : Z;
  tm_mon : Z;
  tm_mday : Z;
  tm_hour : Z;
  tm_min : Z;
  tm_sec : Z
}.

(** A C string held in a zero-filled [char] array: reading past the stored
    text yields NUL. Characters are kept as their 8-bit patterns. *)
Definition strAt (s : list Z) (i : Z) : Z := nth (Z.to_nat i) s 0.

(** The text of a C string: the characters before the first NUL. *)
Fixpoint cstring (s : list Z) : list Z :=
  match s with
  | [] => []
  | c :: s' => if c =? 0 then [] else c :: cstring s'
  end.

(** ** The 6612 console ([console.c]) *)

Module Console.

Definition Fc6612Sel64CharLeft : Z := Eval cbv in oct 7000.
Definition Fc6612Sel32CharLeft : Z := Eval cbv in oct 7001.
Definition Fc6612Sel16CharLeft : Z := Eval cbv in oct 7002.
Definition Fc6612Sel512DotsLeft : Z := Eval cbv in oct 7010.
Definition Fc6612Sel512DotsRight : Z := Eval cbv in oct 7110.
Definition Fc6612SelKeyIn : Z := Eval cbv in oct 7020.
Definition Fc6612Sel64CharRight : Z := Eval cbv in oct 7100.
Definition Fc6612Sel32CharRight : Z := Eval cbv in oct 7101.
Definition Fc6612Sel16CharRight : Z := Eval cbv in oct 7102.

Definition KeyBufSize : Z := 50.

(** The font and screen-offset constants of [const.h], which is not among
    the sources. *)
Class Fonts : Type := {
  FontDot : Z;
  FontSmall : Z;
  FontMedium : Z;
  FontLarge : Z;
  OffLeftScreen : Z;
  OffRightScreen : Z
}.

(** Calls into the window layer, in the order they are made. *)
Inductive WinCall : Set :=
| windowSetFont (font : Z)
| windowSetX (x : Z)
| windowSetY (y : Z)
| windowQueue (ch : Z)
| windowUpdate
| windowGetChar.

(** The keyboard ring: [keyRing], [keyIn], [keyOut] and the call counter
    [keyloops] of [consoleGetKey]. *)
Record KeyBuf : Set := mkKeyBuf {
  keyRing : list Z;
  keyIn : Z;
  keyOut : Z;
  keyloops : Z
}.

(** [autoDate], [autoDateString], [autoYearString] and [autoPos]. *)
Record AutoDate : Set := mkAutoDate {
  autoDate : bool;
  autoDateString : list Z;
  autoYearString : list Z;
  autoPos : Z
}.

Record State : Set := mkState {
  activeChannel : ChSlot;
  fcode : Z;
  currentFont : Z;
  currentOffset : Z;
  emptyDrop : bool;
  keys : KeyBuf;
  auto : AutoDate;
  ppKeyIn : Z;
  window : list WinCall
}.

Definition set_activeChannel (c : ChSlot) (s : State) : State :=
  mkState c (fcode s) (currentFont s) (currentOffset s) (emptyDrop s)
          (keys s) (auto s) (ppKeyIn s) (window s).
Definition set_fcode (f : Z) (s : State) : State :=
  mkState (activeChannel s) f (currentFont s) (currentOffset s) (emptyDrop s)
          (keys s) (auto s) (ppKeyIn s) (window s).
Definition set_font (font off : Z) (s : State) : State :=
  mkState (activeChannel s) (fcode s) font off (emptyDrop s)
          (keys s) (auto s) (ppKeyIn s) (window s).
Definition set_emptyDrop (b : bool) (s : State) : State :=
  mkState (activeChannel s) (fcode s) (currentFont s) (currentOffset s) b
          (keys s) (auto s) (ppKeyIn s) (window s).
Definition set_keys (k : KeyBuf) (s : State) : State :=
  mkState (activeChannel s) (fcode s) (currentFont s) (currentOffset s)
          (emptyDrop s) k (auto s) (ppKeyIn s) (window s).
Definition set_auto (a : AutoDate) (s : State) : State :=
  mkState (activeChannel s) (fcode s) (currentFont s) (currentOffset s)
          (emptyDrop s) (keys s) a (ppKeyIn s) (window s).
Definition set_ppKeyIn (k : Z) (s : State) : State :=
  mkState (activeChannel s) (fcode s) (currentFont s) (currentOffset s)
          (emptyDrop s) (keys s) (auto s) k (window s).
Definition call (w : WinCall) (s : State) : State :=
  mkState (activeChannel s) (fcode s) (currentFont s) (currentOffset s)
          (emptyDrop s) (keys s) (auto s) (ppKeyIn s) (window s ++ [w]).

Definition set_autoDate (b : bool) (a : AutoDate) : AutoDate :=
  mkAutoDate b (autoDateString a) (autoYearString a) (autoPos a).
Definition set_autoPos (p : Z) (a : AutoDate) : AutoDate :=
  mkAutoDate (autoDate a) (autoDateString a) (autoYearString a) p.

(** The statics as the loader leaves them: all zero. *)
Definition keys0 : KeyBuf := mkKeyBuf (replicate 50 0) 0 0 0.

(** [consoleFunc]: the channel is emptied, then the code is decoded. *)
Definition select {F : Fonts} (font off funcCode : Z) (s : State)
  : FcStatus * State :=
  (FcAccepted, set_fcode funcCode (call (windowSetFont font) (set_font font off s))).

Definition consoleFunc {F : Fonts} (funcCode : Z) (s0 : State) : FcStatus * State :=
  let s := set_activeChannel (set_chFull false (activeChannel s0)) s0 in
  if funcCode =? Fc6612Sel512DotsLeft then select FontDot OffLeftScreen funcCode s
  else if funcCode =? Fc6612Sel512DotsRight then select FontDot OffRightScreen funcCode s
  else if funcCode =? Fc6612Sel64CharLeft then select FontSmall OffLeftScreen funcCode s
  else if funcCode =? Fc6612Sel32CharLeft then select FontMedium OffLeftScreen funcCode s
  else if funcCode =? Fc6612Sel16CharLeft then select FontLarge OffLeftScreen funcCode s
  else if funcCode =? Fc6612Sel64CharRight then select FontSmall OffRightScreen funcCode s
  else if funcCode =? Fc6612Sel32CharRight then select FontMedium OffRightScreen funcCode s
  else if funcCode =? Fc6612Sel16CharRight then select FontLarge OffRightScreen funcCode s
  else if funcCode =? Fc6612SelKeyIn then (FcAccepted, set_fcode funcCode s)
  else (FcDeclined, s).

(** [consoleQueueKey]: [nextin] is an [int], the indices are [u32]. *)
Definition consoleQueueKey (ch : Z) (k : KeyBuf) : KeyBuf :=
  let nextin := to_int (keyIn k + 1) in
  let nextin := if nextin =? KeyBufSize then 0 else nextin in
  if negb (to_u32 nextin =? keyOut k)
  then mkKeyBuf (<[Z.to_nat (keyIn k) := to_u8 ch]> (keyRing k))
                (to_u32 nextin) (keyOut k) (keyloops k)
  else k.

(** [consoleGetKey]: the returned [char] and the ring afterwards. *)
Definition consoleGetKey (k : KeyBuf) : Z * KeyBuf :=
  if keyIn k =? keyOut k then (0, k)
  else
    let loops := to_u64 (keyloops k + 1) in
    if negb (loops mod 3 =? 1)
    then (0, mkKeyBuf (keyRing k) (keyIn k) (keyOut k) loops)
    else
      let nextout := to_int (keyOut k + 1) in
      let nextout := if nextout =? KeyBufSize then 0 else nextout in
      let key := nth (Z.to_nat (keyOut k)) (keyRing k) 0 in
      (key, mkKeyBuf (keyRing k) (keyIn k) (to_u32 nextout) loops).

(** [strftime(ts, sizeof(ts) - 1, "%y%m%d\n%H%M%S\n", localtime(&t))]. *)
Definition two_digits (n : Z) : list Z := [48 + (n / 10) mod 10; 48 + n mod 10].

Definition strftime (t : Tm) : list Z :=
  two_digits (tm_year t mod 100) ++ two_digits (tm_mon t + 1)
  ++ two_digits (tm_mday t) ++ [10]
  ++ two_digits (tm_hour t) ++ two_digits (tm_min t)
  ++ two_digits (tm_sec t) ++ [10].

(** The typed-ahead answer: [ts] with its first two characters replaced by
    those of [autoYearString], fed to [consoleQueueKey] up to the first NUL. *)
Definition autoDateText (year : list Z) (t : Tm) : list Z :=
  cstring (<[1%nat := strAt year 1]> (<[0%nat := strAt year 0]> (strftime t))).

Definition queueText {C : Charset} (text : list Z) (k : KeyBuf) : KeyBuf :=
  fold_left (fun k c => consoleQueueKey (asciiToConsole c) k) text k.

(** The "check for auto date entry" block of [consoleIo], entered with
    [autoDate] set; [t] is the wall clock read by [time] and [localtime]. *)
Definition autoDateCheck {C : Charset} (t : Tm) (s : State) : State :=
  let a := auto s in
  let d := chData (activeChannel s) in
  if ((fcode s =? Fc6612Sel32CharLeft) || (fcode s =? Fc6612Sel32CharRight))
       && (Z.land (Z.shiftr d 6) Mask6 =? asciiToCdc (to_u8 (strAt (autoDateString a) (autoPos a))))
       && (Z.land d Mask6 =? asciiToCdc (to_u8 (strAt (autoDateString a) (autoPos a + 1))))
  then
    if (strAt (autoDateString a) (autoPos a + 1) =? 0)
       || (strAt (autoDateString a) (autoPos a + 2) =? 0)
    then
      let s := set_auto (set_autoDate false a) s in
      if keyOut (keys s) =? keyIn (keys s)
      then set_keys (queueText (autoDateText (autoYearString a) t) (keys s)) s
      else s
    else set_auto (set_autoPos (autoPos a + 2) a) s
  else set_auto (set_autoPos 0 a) s.

Definition isCharSelect (fc : Z) : bool :=
  (fc =? Fc6612Sel64CharLeft) || (fc =? Fc6612Sel32CharLeft)
  || (fc =? Fc6612Sel16CharLeft) || (fc =? Fc6612Sel64CharRight)
  || (fc =? Fc6612Sel32CharRight) || (fc =? Fc6612Sel16CharRight).

Definition isDotSelect (fc : Z) : bool :=
  (fc =? Fc6612Sel512DotsLeft) || (fc =? Fc6612Sel512DotsRight).

(** [consoleIo].  [t] is the wall clock; [typed] is the key the window layer
    has left in [ppKeyIn] when [windowGetChar] returns, if any. *)
Definition consoleIo {C : Charset} (t : Tm) (typed : option Z) (s : State) : State :=
  let d := chData (activeChannel s) in
  if isCharSelect (fcode s) then
    if chFull (activeChannel s) then
      let s := set_emptyDrop false s in
      let ch := to_u8 (Z.land (Z.shiftr d 6) Mask6) in
      let s :=
        if oct 60 <=? ch then
          if oct 70 <=? ch
          then call (windowSetY (to_u16 (Z.land d Mask9))) s
          else call (windowSetX (to_u16 (Z.land d Mask9 + currentOffset s))) s
        else
          call (windowQueue (consoleToAscii (Z.land (Z.shiftr d 0) Mask6)))
               (call (windowQueue (consoleToAscii (Z.land (Z.shiftr d 6) Mask6))) s) in
      let s := if autoDate (auto s) then autoDateCheck t s else s in
      set_activeChannel (set_chFull false (activeChannel s)) s
    else s
  else if isDotSelect (fcode s) then
    if chFull (activeChannel s) then
      let s := set_emptyDrop false s in
      let ch := to_u8 (Z.land (Z.shiftr d 6) Mask6) in
      let s :=
        if oct 60 <=? ch then
          if oct 70 <=? ch
          then call (windowQueue 46) (call (windowSetY (to_u16 (Z.land d Mask9))) s)
          else call (windowSetX (to_u16 (Z.land d Mask9 + currentOffset s))) s
        else s in
      set_activeChannel (set_chFull false (activeChannel s)) s
    else s
  else if fcode s =? Fc6612SelKeyIn then
    let s := call windowGetChar s in
    let s := match typed with Some k => set_ppKeyIn k s | None => s end in
    let d1 := to_u16 (asciiToConsole (ppKeyIn s)) in
    let '(d2, s) :=
      if d1 =? 0
      then let '(key, k) := consoleGetKey (keys s) in
           (char_to_PpWord key, set_keys k s)
      else (d1, s) in
    let c := activeChannel s in
    set_ppKeyIn 0
      (set_fcode 0 (set_activeChannel (mkChSlot (chId c) d2 true 0) s))
  else s.

Definition consoleActivate (s : State) : State := set_emptyDrop true s.

Definition consoleDisconnect (s : State) : State :=
  if emptyDrop s then set_emptyDrop false (call windowUpdate s) else s.

End Console.

(** ** Host files and the operator log *)

(** An open [FILE]: the bytes the host file already holds and the bytes
    still in the stdio buffer.  The printers only append, so the file
    position is the number of bytes written through the stream. *)
Record Stream : Set := mkStream {
  flushed : list Z;
  buffered : list Z
}.

Definition fopen_w : Stream := mkStream [] [].
Definition fputs (text : list Z) (f : Stream) : Stream :=
  mkStream (flushed f) (buffered f ++ text).
Definition fputc (c : Z) (f : Stream) : Stream := fputs [c] f.
Definition fflush (f : Stream) : Stream :=
  mkStream (flushed f ++ buffered f) [].
Definition ftell (f : Stream) : Z :=
  Z.of_nat (length (flushed f)) + Z.of_nat (length (buffered f)).

(** What the capture file holds once the stream is flushed. *)
Definition contents (f : Stream) : list Z := flushed f ++ buffered f.

(** File names, by the [sprintf_s] format that builds them. *)
Inductive FileName : Set :=
| nameLP1612 (path : string) (channelNo : Z)
    (* "%sLP1612_C%02o" *)
| nameLP5xx (path : string) (channelNo equipmentNo : Z)
    (* "%sLP5xx_C%02o_E%o" *)
| nameArchive (path : string) (t : Tm) (isuffix : Z) (txt : bool)
    (* "%sLP5xx_%04d%02d%02d_%02d%02d%02d_%02d", with ".txt" when [txt] *).

Inductive Printer : Set := lp1612 | lp3000.
Inductive Routine : Set := inFunc | inIo | inDisconnect | inRemovePaper.

(** Lines printed on the operator's terminal, by the [printf] that writes
    them. *)
Inductive LogMsg : Set :=
| msgBadParams (p : Printer)
| msgBadChannel (p : Printer)
| msgBadEquipment (p : Printer)
| msgFcbNull (p : Printer) (r : Routine) (channel equipment : Z)
| msgNoOutput (p : Printer) (channelNo equipmentNo : Z)
| msgRenameRetry (p : Printer) (fname fnameNew : FileName)
| msgOpenFailed (p : Printer) (fname : FileName)
| msgPaperRemoved (p : Printer) (fnameNew : option FileName)
| msgUnknownFunc (is3555 : bool) (funcCode : Z)
| msgNewline.

(** The host outside the device: archived printouts, the operator log and
    the print applications started. *)
Record Host : Set := mkHost {
  archived : list (FileName * list Z);
  oplog : list LogMsg;
  spawned : list FileName
}.

Definition printf (m : LogMsg) (h : Host) : Host :=
  mkHost (archived h) (oplog h ++ [m]) (spawned h).
Definition archive (n : FileName) (bytes : list Z) (h : Host) : Host :=
  mkHost (archived h ++ [(n, bytes)]) (oplog h) (spawned h).
Definition spawn (n : FileName) (h : Host) : Host :=
  mkHost (archived h) (oplog h) (spawned h ++ [n]).

Definition host0 : Host := mkHost [] [] [].

(** What the host answers during one paper removal: the clock read before
    each rename attempt, whether that attempt succeeds, and whether the
    capture file can be opened again. *)
Record PaperEnv : Set := mkPaperEnv {
  clock : Z -> Tm;
  renameOk : Z -> bool;
  reopenOk : bool
}.

(** The result of [sscanf(params, "%o,%o", &channelNo, &equipmentNo)]. *)
Record Scanned : Set := mkScanned {
  numParam : Z;
  channelNo : Z;
  equipmentNo : Z
}.

(** The limits of [const.h], which is not among the sources. *)
Class Limits : Type := {
  MaxChannels : Z;
  MaxEquipment : Z
}.

(** The rename loop of both [RemovePaper] routines, [todo] iterations from
    [isuffix] on: the name last tried and the host afterwards.  [bytes] is
    what the closed capture file holds. *)
Fixpoint renameLoop (p : Printer) (env : PaperEnv) (fname : FileName)
    (mk : Tm -> Z -> FileName) (bytes : list Z)
    (todo : nat) (isuffix : Z) (fnameNew : option FileName) (h : Host)
  : option FileName * Host :=
  match todo with
  | O => (fnameNew, h)
  | S todo' =>
      let new := mk (clock env isuffix) isuffix in
      if renameOk env isuffix
      then (Some new, archive new bytes h)
      else renameLoop p env fname mk bytes todo' (isuffix + 1) (Some new)
                      (printf (msgRenameRetry p fname new) h)
  end.

(** ** The 1612 line printer ([lp1612.c]) *)

Module Lp1612.

Definition FcPrintSelect : Z := Eval cbv in oct 600.
Definition FcPrintSingleSpace : Z := Eval cbv in oct 601.
Definition FcPrintDoubleSpace : Z := Eval cbv in oct 602.
Definition FcPrintMoveChannel7 : Z := Eval cbv in oct 603.
Definition FcPrintMoveTOF : Z := Eval cbv in oct 604.
Definition FcPrintPrint : Z := Eval cbv in oct 605.
Definition FcPrintSuppressLF : Z := Eval cbv in oct 606.
Definition FcPrintStatusReq : Z := Eval cbv in oct 607.
Definition FcPrintClearFormat : Z := Eval cbv in oct 610.
Definition FcPrintFormat1 : Z := Eval cbv in oct 611.
Definition FcPrintFormat2 : Z := Eval cbv in oct 612.
Definition FcPrintFormat3 : Z := Eval cbv in oct 613.
Definition FcPrintFormat4 : Z := Eval cbv in oct 614.
Definition FcPrintFormat5 : Z := Eval cbv in oct 615.
Definition FcPrintFormat6 : Z := Eval cbv in oct 616.

Definition StPrintReady : Z := Eval cbv in oct 4000.
Definition StPrintNotReady : Z := 0.

Record LpContext1612 : Set := mkLpContext1612 {
  extuseANSI : bool;
  extPath : string
}.

(** The device slot with its channel, and the host around it. *)
Record State : Set := mkState {
  activeChannel : ChSlot;
  eqNo : Z;
  fcode : Z;
  fcb : option Stream;
  lc : LpContext1612;
  host : Host
}.

Definition set_activeChannel (c : ChSlot) (s : State) : State :=
  mkState c (eqNo s) (fcode s) (fcb s) (lc s) (host s).
Definition set_fcode (f : Z) (s : State) : State :=
  mkState (activeChannel s) (eqNo s) f (fcb s) (lc s) (host s).
Definition set_fcb (f : option Stream) (s : State) : State :=
  mkState (activeChannel s) (eqNo s) (fcode s) f (lc s) (host s).
Definition set_host (h : Host) (s : State) : State :=
  mkState (activeChannel s) (eqNo s) (fcode s) (fcb s) (lc s) h.

Definition log (r : Routine) (s : State) : State :=
  set_host (printf (msgFcbNull lp1612 r (chId (activeChannel s)) (eqNo s)) (host s)) s.

(** [lp1612Init], after the parameter string is split: [useANSI] is the
    parsed mode, [devicePath] the first token.  [None] is [exit(1)]. *)
Definition lp1612Init (eqNo unitNo channelNo : Z) (devicePath : option string)
    (useANSI : bool) (openOk : bool) : option State :=
  if negb (eqNo =? 0) then None
  else if negb (unitNo =? 0) then None
  else
    let path :=
      match devicePath with
      | None => EmptyString
      | Some p => if String.eqb p EmptyString then p else (p ++ "/")%string
      end in
    if openOk
    then Some (mkState (mkChSlot channelNo 0 false 0) eqNo 0 (Some fopen_w)
                       (mkLpContext1612 useANSI path) host0)
    else None.

(** Modelled from the spec: [channelFindDevice] is not among the sources.
    The slot table is keyed by channel and device type; this state holds one
    1612 slot, found on its own channel. *)
Definition channelFindDevice (channelNo : Z) (s : State) : bool :=
  to_u8 channelNo =? chId (activeChannel s).

Definition lp1612RemovePaper {L : Limits} (env : PaperEnv) (params : Scanned)
    (s : State) : State :=
  if negb (numParam params =? 2)
  then set_host (printf (msgBadParams lp1612) (host s)) s
  else if (channelNo params <? 0) || (MaxChannels <=? channelNo params)
  then set_host (printf (msgBadChannel lp1612) (host s)) s
  else if (equipmentNo params <? 0) || (MaxEquipment <=? equipmentNo params)
  then set_host (printf (msgBadEquipment lp1612) (host s)) s
  else if negb (channelFindDevice (channelNo params) s) then s
  else
    let fname := nameLP1612 (extPath (lc s)) (channelNo params) in
    match fcb s with
    | None => log inRemovePaper s
    | Some f =>
        let f := fflush f in
        let s := set_fcb (Some f) s in
        if ftell f =? 0
        then set_host (printf (msgNoOutput lp1612 (channelNo params) (equipmentNo params))
                              (host s)) s
        else
          let s := set_fcb None s in
          let '(fnameNew, h) :=
            renameLoop lp1612 env fname
              (fun t i => nameArchive (extPath (lc s)) t i false)
              (contents f) 100 0 None (host s) in
          if reopenOk env
          then set_host (printf (msgPaperRemoved lp1612 fnameNew) h)
                        (set_fcb (Some fopen_w) s)
          else set_host (printf (msgOpenFailed lp1612 fname) h) s
    end.

Definition emit (text : list Z) (s : State) : State :=
  match fcb s with
  | Some f => set_fcb (Some (fputs text f)) s
  | None => s
  end.

Definition lp1612Func (funcCode : Z) (s : State) : FcStatus * State :=
  let ansi := extuseANSI (lc s) in
  let accept s := (FcAccepted, set_fcode funcCode s) in
  match fcb s with
  | None => (FcProcessed, log inFunc s)
  | Some _ =>
      if funcCode =? FcPrintSelect then accept s
      else if funcCode =? FcPrintSingleSpace
      then accept (emit (if ansi then [10; 32] else [10]) s)
      else if funcCode =? FcPrintDoubleSpace
      then accept (emit (if ansi then [10; 48] else [10; 10]) s)
      else if funcCode =? FcPrintMoveChannel7
      then accept (emit (if ansi then [10; 32] else [10]) s)
      else if funcCode =? FcPrintMoveTOF
      then accept (emit (if ansi then [10; 49] else [12]) s)
      else if funcCode =? FcPrintPrint
      then accept (emit (if ansi then [10; 32] else [10]) s)
      else if funcCode =? FcPrintSuppressLF
      then (FcProcessed, emit (if ansi then [10; 43] else [13]) s)
      else if funcCode =? FcPrintStatusReq
      then accept (set_activeChannel (set_chStatus StPrintReady (activeChannel s)) s)
      else if (funcCode =? FcPrintClearFormat) || (funcCode =? FcPrintFormat1)
              || (funcCode =? FcPrintFormat2) || (funcCode =? FcPrintFormat3)
              || (funcCode =? FcPrintFormat4) || (funcCode =? FcPrintFormat5)
              || (funcCode =? FcPrintFormat6)
      then accept s
      else (FcDeclined, s)
  end.

Definition lp1612Io {C : Charset} (s : State) : State :=
  match fcb s with
  | None => log inIo s
  | Some _ =>
      let c := activeChannel s in
      if fcode s =? FcPrintStatusReq
      then set_fcode 0 (set_activeChannel (mkChSlot (chId c) (chStatus c) true 0) s)
      else
        if chFull c
        then set_activeChannel (set_chFull false c)
               (emit [to_u8 (extBcdToAscii (Z.land (chData c) (oct 77)))] s)
        else s
  end.

Definition lp1612Activate (s : State) : State := s.

Definition lp1612Disconnect (s : State) : State :=
  match fcb s with
  | None => log inDisconnect s
  | Some _ => emit (if extuseANSI (lc s) then [10; 32] else [10]) s
  end.

End Lp1612.

(** ** The 3000-series line printers ([lp3000.c]) *)

(** The function codes that [dcc6681.h] gives the 6681 converter; the header
    is not among the sources, so the codes are parameters. *)
Class Dcc6681 : Type := {
  Fc6681Output : Z;
  Fc6681DevStatusReq : Z;
  Fc6681MasterClear : Z
}.

Module Lp3000.

Definition Lp3000Type501 : Z := Eval cbv in oct 1.
Definition Lp3000Type512 : Z := Eval cbv in oct 2.
Definition Lp3000Type3152 : Z := Eval cbv in oct 10.
Definition Lp3000Type3555 : Z := Eval cbv in oct 20.
Definition Lp3555FillImageMem : Z := Eval cbv in oct 100.
Definition Lp3000IntReady : Z := Eval cbv in oct 200.
Definition Lp3000IntEnd : Z := Eval cbv in oct 400.
Definition Lp3000IntReadyEna : Z := Eval cbv in oct 2000.
Definition Lp3000IntEndEna : Z := Eval cbv in oct 4000.

Definition FcPrintRelease : Z := 0.
Definition FcPrintSingle : Z := 1.
Definition FcPrintDouble : Z := 2.
Definition FcPrintLastLine : Z := 3.
Definition FcPrintEject : Z := 4.
Definition FcPrintAutoEject : Z := 5.
Definition FcPrintNoSpace : Z := 6.

Definition Fc3152ClearFormat : Z := Eval cbv in oct 10.
Definition Fc3152PostVFU1 : Z := Eval cbv in oct 11.
Definition Fc3152PostVFU2 : Z := Eval cbv in oct 12.
Definition Fc3152PostVFU3 : Z := Eval cbv in oct 13.
Definition Fc3152PostVFU4 : Z := Eval cbv in oct 14.
Definition Fc3152PostVFU5 : Z := Eval cbv in oct 15.
Definition Fc3152PostVFU6 : Z := Eval cbv in oct 16.
Definition Fc3152SelectPreprint : Z := Eval cbv in oct 20.
Definition Fc3152PreVFU1 : Z := Eval cbv in oct 21.
Definition Fc3152PreVFU2 : Z := Eval cbv in oct 22.
Definition Fc3152PreVFU3 : Z := Eval cbv in oct 23.
Definition Fc3152PreVFU4 : Z := Eval cbv in oct 24.
Definition Fc3152PreVFU5 : Z := Eval cbv in oct 25.
Definition Fc3152PreVFU6 : Z := Eval cbv in oct 26.
Definition Fc3152SelIntReady : Z := Eval cbv in oct 30.
Definition Fc3152RelIntReady : Z := Eval cbv in oct 31.
Definition Fc3152SelIntEnd : Z := Eval cbv in oct 32.
Definition Fc3152RelIntEnd : Z := Eval cbv in oct 33.
Definition Fc3152SelIntError : Z := Eval cbv in oct 34.
Definition Fc3152RelIntError : Z := Eval cbv in oct 35.
Definition Fc3152Release2 : Z := Eval cbv in oct 40.

Definition Fc3555CondClearFormat : Z := Eval cbv in oct 7.
Definition Fc3555Sel8Lpi : Z := Eval cbv in oct 10.
Definition Fc3555Sel6Lpi : Z := Eval cbv in oct 11.
Definition Fc3555FillMemory : Z := Eval cbv in oct 12.
Definition Fc3555SelExtArray : Z := Eval cbv in oct 13.
Definition Fc3555ClearExtArray : Z := Eval cbv in oct 14.
Definition Fc3555SelIntReady : Z := Eval cbv in oct 20.
Definition Fc3555RelIntReady : Z := Eval cbv in oct 21.
Definition Fc3555SelIntEnd : Z := Eval cbv in oct 22.
Definition Fc3555RelIntEnd : Z := Eval cbv in oct 23.
Definition Fc3555SelIntError : Z := Eval cbv in oct 24.
Definition Fc3555RelIntError : Z := Eval cbv in oct 25.
Definition Fc3555ReloadMemEnable : Z := Eval cbv in oct 26.
Definition Fc3555ClearFormat : Z := Eval cbv in oct 30.
Definition Fc3555PostVFU1 : Z := Eval cbv in oct 31.
Definition Fc3555PostVFU2 : Z := Eval cbv in oct 32.
Definition Fc3555PostVFU3 : Z := Eval cbv in oct 33.
Definition Fc3555PostVFU4 : Z := Eval cbv in oct 34.
Definition Fc3555PostVFU5 : Z := Eval cbv in oct 35.
Definition Fc3555PostVFU6 : Z := Eval cbv in oct 36.
Definition Fc3555PostVFU7 : Z := Eval cbv in oct 37.
Definition Fc3555PostVFU8 : Z := Eval cbv in oct 40.
Definition Fc3555PostVFU9 : Z := Eval cbv in oct 41.
Definition Fc3555PostVFU10 : Z := Eval cbv in oct 42.
Definition Fc3555PostVFU11 : Z := Eval cbv in oct 43.
Definition Fc3555PostVFU12 : Z := Eval cbv in oct 44.
Definition Fc3555SelectPreprint : Z := Eval cbv in oct 50.
Definition Fc3555PreVFU1 : Z := Eval cbv in oct 51.
Definition Fc3555PreVFU2 : Z := Eval cbv in oct 52.
Definition Fc3555PreVFU3 : Z := Eval cbv in oct 53.
Definition Fc3555PreVFU4 : Z := Eval cbv in oct 54.
Definition Fc3555PreVFU5 : Z := Eval cbv in oct 55.
Definition Fc3555PreVFU6 : Z := Eval cbv in oct 56.
Definition Fc3555PreVFU7 : Z := Eval cbv in oct 57.
Definition Fc3555PreVFU8 : Z := Eval cbv in oct 60.
Definition Fc3555PreVFU9 : Z := Eval cbv in oct 61.
Definition Fc3555PreVFU10 : Z := Eval cbv in oct 62.
Definition Fc3555PreVFU11 : Z := Eval cbv in oct 63.
Definition Fc3555PreVFU12 : Z := Eval cbv in oct 64.
Definition Fc3555MaintStatus : Z := Eval cbv in oct 65.
Definition Fc3555ClearMaint : Z := Eval cbv in oct 66.

Definition LpInchesPerPage : Z := Eval cbv in oct 11.

Definition StPrintReady : Z := Eval cbv in oct 1.
Definition StPrintIntReady : Z := Eval cbv in oct 200.
Definition StPrintIntEnd : Z := Eval cbv in oct 400.

Record LpContext : Set := mkLpContext {
  flags : Z;
  printed : bool;
  keepInt : bool;
  extspaceopt : Z;
  extlpi : Z;
  extlpp : Z;
  extcurline : Z;
  extuseANSI : bool;
  extsuppress : bool;
  extpostprint : bool;
  extPath : string
}.

Definition set_flags (v : Z) (c : LpContext) : LpContext :=
  mkLpContext v (printed c) (keepInt c) (extspaceopt c) (extlpi c) (extlpp c)
    (extcurline c) (extuseANSI c) (extsuppress c) (extpostprint c) (extPath c).
Definition set_printed (v : bool) (c : LpContext) : LpContext :=
  mkLpContext (flags c) v (keepInt c) (extspaceopt c) (extlpi c) (extlpp c)
    (extcurline c) (extuseANSI c) (extsuppress c) (extpostprint c) (extPath c).
Definition set_keepInt (v : bool) (c : LpContext) : LpContext :=
  mkLpContext (flags c) (printed c) v (extspaceopt c) (extlpi c) (extlpp c)
    (extcurline c) (extuseANSI c) (extsuppress c) (extpostprint c) (extPath c).
Definition set_extspaceopt (v : Z) (c : LpContext) : LpContext :=
  mkLpContext (flags c) (printed c) (keepInt c) v (extlpi c) (extlpp c)
    (extcurline c) (extuseANSI c) (extsuppress c) (extpostprint c) (extPath c).
Definition set_extlpi (v : Z) (c : LpContext) : LpContext :=
  mkLpContext (flags c) (printed c) (keepInt c) (extspaceopt c) v (extlpp c)
    (extcurline c) (extuseANSI c) (extsuppress c) (extpostprint c) (extPath c).
Definition set_extlpp (v : Z) (c : LpContext) : LpContext :=
  mkLpContext (flags c) (printed c) (keepInt c) (extspaceopt c) (extlpi c) v
    (extcurline c) (extuseANSI c) (extsuppress c) (extpostprint c) (extPath c).
Definition set_extcurline (v : Z) (c : LpContext) : LpContext :=
  mkLpContext (flags c) (printed c) (keepInt c) (extspaceopt c) (extlpi c)
    (extlpp c) v (extuseANSI c) (extsuppress c) (extpostprint c) (extPath c).
Definition set_extsuppress (v : bool) (c : LpContext) : LpContext :=
  mkLpContext (flags c) (printed c) (keepInt c) (extspaceopt c) (extlpi c)
    (extlpp c) (extcurline c) (extuseANSI c) v (extpostprint c) (extPath c).
Definition set_extpostprint (v : bool) (c : LpContext) : LpContext :=
  mkLpContext (flags c) (printed c) (keepInt c) (extspaceopt c) (extlpi c)
    (extlpp c) (extcurline c) (extuseANSI c) (extsuppress c) v (extPath c).

(** The device slot with its channel, the host around it, and the
    arguments of the calls made to [dcc6681Interrupt], oldest first. *)
Record State : Set := mkState {
  activeChannel : ChSlot;
  eqNo : Z;
  fcode : Z;
  fcb : option Stream;
  lc : LpContext;
  host : Host;
  interrupts : list bool
}.

Definition set_activeChannel (c : ChSlot) (s : State) : State :=
  mkState c (eqNo s) (fcode s) (fcb s) (lc s) (host s) (interrupts s).
Definition set_fcode (f : Z) (s : State) : State :=
  mkState (activeChannel s) (eqNo s) f (fcb s) (lc s) (host s) (interrupts s).
Definition set_fcb (f : option Stream) (s : State) : State :=
  mkState (activeChannel s) (eqNo s) (fcode s) f (lc s) (host s) (interrupts s).
Definition set_lc (c : LpContext) (s : State) : State :=
  mkState (activeChannel s) (eqNo s) (fcode s) (fcb s) c (host s) (interrupts s).
Definition set_host (h : Host) (s : State) : State :=
  mkState (activeChannel s) (eqNo s) (fcode s) (fcb s) (lc s) h (interrupts s).

(** Modelled from the spec: [dcc6681Interrupt], whose code is not among
    the sources, takes the device-interrupt summary; the summaries handed
    over are kept, oldest first. *)
Definition dcc6681Interrupt (status : bool) (s : State) : State :=
  mkState (activeChannel s) (eqNo s) (fcode s) (fcb s) (lc s) (host s)
          (interrupts s ++ [status]).

Definition log (r : Routine) (s : State) : State :=
  set_host (printf (msgFcbNull lp3000 r (chId (activeChannel s)) (eqNo s)) (host s)) s.

Definition emit (text : list Z) (s : State) : State :=
  match fcb s with
  | Some f => set_fcb (Some (fputs text f)) s
  | None => s
  end.

(** [lp3000Init]; [None] is [exit(1)]. *)
Definition lp3000Init (unitNo eqNo channelNo : Z) (flags : Z) (useANSI : bool)
    (devicePath : option string) (openOk : bool) : option State :=
  let path :=
    match devicePath with
    | None => EmptyString
    | Some p => if String.eqb p EmptyString then p else (p ++ "/")%string
    end in
  let c := mkLpContext flags false false FcPrintSingle 6
             (to_u8 (LpInchesPerPage * 6)) 1 useANSI false true path in
  if openOk
  then Some (mkState (mkChSlot channelNo 0 false 0) eqNo 0 (Some fopen_w) c host0 [])
  else None.

(** The controller named by the second token of the parameter string. *)
Definition controllerFlag (deviceType : option string) : option Z :=
  match deviceType with
  | None => Some Lp3000Type3555
  | Some t =>
      if String.eqb t "3555" then Some Lp3000Type3555
      else if String.eqb t "3152" then Some Lp3000Type3152
      else None
  end.

Definition lp501Init (eqNo unitNo channelNo : Z) (devicePath deviceType : option string)
    (useANSI : bool) (openOk : bool) : option State :=
  match controllerFlag deviceType with
  | Some ctl => lp3000Init unitNo eqNo channelNo (Z.lor Lp3000Type501 ctl)
                           useANSI devicePath openOk
  | None => None
  end.

Definition lp512Init (eqNo unitNo channelNo : Z) (devicePath deviceType : option string)
    (useANSI : bool) (openOk : bool) : option State :=
  match controllerFlag deviceType with
  | Some ctl => lp3000Init unitNo eqNo channelNo (Z.lor Lp3000Type512 ctl)
                           useANSI devicePath openOk
  | None => None
  end.

(** Modelled from the spec: [dcc6681FindDevice] is not among the sources.
    The slot table is keyed by channel, equipment and device type; this
    state holds one printer slot, found under its own channel and
    equipment. *)
Definition dcc6681FindDevice (channelNo equipmentNo : Z) (s : State) : bool :=
  (to_u8 channelNo =? chId (activeChannel s)) && (to_u8 equipmentNo =? eqNo s).

(** [lp3000RemovePaper].  [spawnApp] tells whether this build and
    configuration hand the archive to a print application ([_WIN32],
    [autoRemovePaper != 0] and [strlen(printApp) > 5]). *)
Definition lp3000RemovePaper {L : Limits} (spawnApp : bool) (env : PaperEnv)
    (params : Scanned) (s : State) : State :=
  if negb (numParam params =? 2)
  then set_host (printf (msgBadParams lp3000) (host s)) s
  else if (channelNo params <? 0) || (MaxChannels <=? channelNo params)
  then set_host (printf (msgBadChannel lp3000) (host s)) s
  else if (equipmentNo params <? 0) || (MaxEquipment <=? equipmentNo params)
  then set_host (printf (msgBadEquipment lp3000) (host s)) s
  else if negb (dcc6681FindDevice (channelNo params) (equipmentNo params) s) then s
  else
    let fname := nameLP5xx (extPath (lc s)) (channelNo params) (equipmentNo params) in
    match fcb s with
    | None => log inRemovePaper s
    | Some f =>
        let f := fflush f in
        let s := set_fcb (Some f) s in
        if ftell f =? 0
        then set_host (printf (msgNoOutput lp3000 (channelNo params) (equipmentNo params))
                              (host s)) s
        else
          let s := set_fcb None s in
          let '(fnameNew, h) :=
            renameLoop lp3000 env fname
              (fun t i => nameArchive (extPath (lc s)) t i true)
              (contents f) 100 0 None (host s) in
          if reopenOk env
          then
            let h := printf (msgPaperRemoved lp3000 fnameNew) h in
            let h :=
              if spawnApp
              then match fnameNew with
                   | Some n => printf msgNewline (spawn n h)
                   | None => h
                   end
              else h in
            set_host h (set_fcb (Some fopen_w) s)
          else set_host (printf (msgOpenFailed lp3000 fname) h) s
    end.

(** The interrupt summary handed to the converter. *)
Definition summary (c : LpContext) : bool :=
  has_flag (flags c) (Z.lor Lp3000IntReady Lp3000IntEnd).

(** The defaults restored by master clear. *)
Definition masterClear (c : LpContext) : LpContext :=
  set_extpostprint true
    (set_extsuppress false
       (set_extcurline 1
          (set_extlpp (to_u8 (LpInchesPerPage * 6))
             (set_extlpi 6 (set_extspaceopt FcPrintSingle c))))).

(** The body shared by the select-interrupt codes of both controllers. *)
Definition selInt (int ena : Z) (s : State) : FcStatus * State :=
  let c := set_flags (Z.lor (flags (lc s)) (Z.lor int ena)) (lc s) in
  let c :=
    if keepInt c
    then set_keepInt false c
    else set_flags (Z.land (flags c) (Z.lnot int)) c in
  (FcProcessed, dcc6681Interrupt (summary c) (set_lc c s)).

(** The body shared by the release-interrupt codes of both controllers. *)
Definition relInt (int ena : Z) (s : State) : FcStatus * State :=
  let c := set_flags (Z.land (flags (lc s)) (Z.lnot (Z.lor ena int))) (lc s) in
  (FcProcessed, dcc6681Interrupt (summary c) (set_lc c s)).

(** The second [switch] of [lp3000Func], for the 3555 controller. *)
Definition func3555 (funcCode : Z) (s : State) : FcStatus * State :=
  let c := lc s in
  if funcCode =? Fc3555CondClearFormat then (FcProcessed, s)
  else if funcCode =? Fc3555Sel8Lpi
  then (FcProcessed, set_lc (set_extlpp (to_u8 (LpInchesPerPage * 8)) (set_extlpi 8 c)) s)
  else if funcCode =? Fc3555Sel6Lpi
  then (FcProcessed, set_lc (set_extlpp (to_u8 (LpInchesPerPage * 6)) (set_extlpi 6 c)) s)
  else if (funcCode =? Fc3555SelExtArray) || (funcCode =? Fc3555ClearExtArray)
          || (funcCode =? Fc3555SelIntError) || (funcCode =? Fc3555RelIntError)
          || (funcCode =? Fc3555ReloadMemEnable)
  then (FcProcessed, s)
  else if funcCode =? Fc3555ClearFormat
  then (FcProcessed,
        set_lc (set_extpostprint true
                  (set_extspaceopt FcPrintSingle
                     (set_extsuppress false
                        (set_extlpp (to_u8 (LpInchesPerPage * 6))
                           (set_extlpi 6 (set_extspaceopt FcPrintSingle c)))))) s)
  else if (funcCode =? Fc3555PostVFU1) || (funcCode =? Fc3555PostVFU2)
          || (funcCode =? Fc3555PostVFU3) || (funcCode =? Fc3555PostVFU4)
          || (funcCode =? Fc3555PostVFU5) || (funcCode =? Fc3555PostVFU6)
          || (funcCode =? Fc3555PostVFU7) || (funcCode =? Fc3555PostVFU8)
          || (funcCode =? Fc3555PostVFU9) || (funcCode =? Fc3555PostVFU10)
          || (funcCode =? Fc3555PostVFU11) || (funcCode =? Fc3555PostVFU12)
  then (FcProcessed, s)
  else if funcCode =? Fc3555SelectPreprint
  then (FcProcessed, set_lc (set_extpostprint false c) s)
  else if (funcCode =? Fc3555PreVFU1) || (funcCode =? Fc3555PreVFU2)
          || (funcCode =? Fc3555PreVFU3) || (funcCode =? Fc3555PreVFU4)
          || (funcCode =? Fc3555PreVFU5) || (funcCode =? Fc3555PreVFU6)
          || (funcCode =? Fc3555PreVFU7) || (funcCode =? Fc3555PreVFU8)
          || (funcCode =? Fc3555PreVFU9) || (funcCode =? Fc3555PreVFU10)
          || (funcCode =? Fc3555PreVFU11) || (funcCode =? Fc3555PreVFU12)
          || (funcCode =? Fc3555MaintStatus) || (funcCode =? Fc3555ClearMaint)
  then (FcProcessed, s)
  else if funcCode =? Fc3555FillMemory
  then (FcProcessed, set_lc (set_flags (Z.lor (flags c) Lp3555FillImageMem) c) s)
  else if funcCode =? Fc3555SelIntReady then selInt Lp3000IntReady Lp3000IntReadyEna s
  else if funcCode =? Fc3555RelIntReady then relInt Lp3000IntReady Lp3000IntReadyEna s
  else if funcCode =? Fc3555SelIntEnd then selInt Lp3000IntEnd Lp3000IntEndEna s
  else if funcCode =? Fc3555RelIntEnd then relInt Lp3000IntEnd Lp3000IntEndEna s
  else (FcProcessed, set_host (printf (msgUnknownFunc true funcCode) (host s)) s).

(** The second [switch] of [lp3000Func], for the 3152 controller. *)
Definition func3152 (funcCode : Z) (s : State) : FcStatus * State :=
  let c := lc s in
  if funcCode =? Fc3152ClearFormat
  then (FcProcessed, set_lc (set_extpostprint true c) s)
  else if (funcCode =? Fc3152PostVFU1) || (funcCode =? Fc3152PostVFU2)
          || (funcCode =? Fc3152PostVFU3) || (funcCode =? Fc3152PostVFU4)
          || (funcCode =? Fc3152PostVFU5) || (funcCode =? Fc3152PostVFU6)
  then (FcProcessed, s)
  else if funcCode =? Fc3152SelectPreprint
  then (FcProcessed, set_lc (set_extpostprint false c) s)
  else if (funcCode =? Fc3152PreVFU1) || (funcCode =? Fc3152PreVFU2)
          || (funcCode =? Fc3152PreVFU3) || (funcCode =? Fc3152PreVFU4)
          || (funcCode =? Fc3152PreVFU5) || (funcCode =? Fc3152PreVFU6)
          || (funcCode =? Fc3152SelIntError) || (funcCode =? Fc3152RelIntError)
          || (funcCode =? Fc3152Release2)
  then (FcProcessed, s)
  else if funcCode =? Fc3152SelIntReady then selInt Lp3000IntReady Lp3000IntReadyEna s
  else if funcCode =? Fc3152RelIntReady then relInt Lp3000IntReady Lp3000IntReadyEna s
  else if funcCode =? Fc3152SelIntEnd then selInt Lp3000IntEnd Lp3000IntEndEna s
  else if funcCode =? Fc3152RelIntEnd then relInt Lp3000IntEnd Lp3000IntEndEna s
  else (FcProcessed, set_host (printf (msgUnknownFunc false funcCode) (host s)) s).

(** A spacing code: [space] lines are advanced by writing [text]. *)
Definition advance (text : list Z) (space : Z) (s : State) : State :=
  set_lc (set_extcurline (to_u8 (extcurline (lc s) + space)) (lc s)) (emit text s).

(** [FcPrintSingle] and [FcPrintDouble]: the option is remembered; in ANSI
    mode the paper moves only in pre-print mode, otherwise it always moves. *)
Definition space (opt : Z) (ansiText asciiText : list Z) (n : Z) (s : State)
  : FcStatus * State :=
  let s := set_lc (set_extspaceopt opt (lc s)) s in
  if extuseANSI (lc s)
  then if negb (extpostprint (lc s))
       then (FcProcessed, advance ansiText n s)
       else (FcProcessed, s)
  else (FcProcessed, advance asciiText n s).

(** [Fc6681Output]. *)
Definition output (funcCode : Z) (s : State) : FcStatus * State :=
  let c := lc s in
  let '(funcCode, c) :=
    if has_flag (flags c) Lp3555FillImageMem
    then (to_u16 (funcCode + 1),
          set_flags (Z.land (flags c) (Z.lnot Lp3555FillImageMem)) c)
    else (funcCode, c) in
  let c := set_flags (Z.land (flags c) (Z.lnot (Z.lor StPrintIntReady StPrintIntEnd))) c in
  let c := if has_flag (flags c) Lp3000IntReadyEna
           then set_flags (Z.lor (flags c) Lp3000IntReady) c else c in
  let c := if has_flag (flags c) Lp3000IntEndEna
           then set_flags (Z.lor (flags c) Lp3000IntEnd) c else c in
  (FcAccepted, set_fcode funcCode (dcc6681Interrupt (summary c) (set_lc c s))).

(** [FcPrintRelease].  The channel and equipment numbers are printed with
    ["%o,%o"] and read back by [lp3000RemovePaper] with the same format. *)
Definition release {L : Limits} (spawnApp : bool) (env : PaperEnv) (s : State)
  : FcStatus * State :=
  let c := lc s in
  let s := set_lc (set_flags (Z.land (flags c) (Z.lnot (Z.lor StPrintIntReady StPrintIntEnd))) c) s in
  if printed c
  then
    let s := set_fcb (option_map fflush (fcb s)) s in
    let s := lp3000RemovePaper spawnApp env
               (mkScanned 2 (chId (activeChannel s)) (eqNo s)) s in
    (FcProcessed, set_lc (set_printed false (lc s)) s)
  else (FcProcessed, s).

(** [lp3000Func].  Every case of the three [switch] statements returns, so
    the latch of [fcode] after them is never reached. *)
Definition lp3000Func {D : Dcc6681} {L : Limits} (spawnApp : bool) (env : PaperEnv)
    (funcCode : Z) (s : State) : FcStatus * State :=
  match fcb s with
  | None => (FcProcessed, log inFunc s)
  | Some _ =>
      let ansi := extuseANSI (lc s) in
      if funcCode =? FcPrintNoSpace
      then (FcProcessed, set_lc (set_extsuppress true (lc s)) s)
      else if funcCode =? FcPrintAutoEject then (FcProcessed, s)
      else if funcCode =? Fc6681MasterClear
      then (FcProcessed, emit (if ansi then [49] else [12]) (set_lc (masterClear (lc s)) s))
      else if funcCode =? FcPrintRelease then release spawnApp env s
      else if funcCode =? FcPrintSingle then space FcPrintSingle [10; 32] [10] 1 s
      else if funcCode =? FcPrintLastLine
      then (FcProcessed, advance (if ansi then [10; 32] else [10]) 1 s)
      else if funcCode =? FcPrintEject
      then (FcProcessed,
            emit (if ansi then [10; 49] else [12]) (set_lc (set_extcurline 1 (lc s)) s))
      else if funcCode =? FcPrintDouble then space FcPrintDouble [10; 48] [10; 10] 2 s
      else if funcCode =? Fc6681Output then output funcCode s
      else if funcCode =? Fc6681DevStatusReq then (FcAccepted, set_fcode funcCode s)
      else if has_flag (flags (lc s)) Lp3000Type3555
      then func3555 funcCode s
      else func3152 funcCode s
  end.

Definition lp3000Io {D : Dcc6681} {C : Charset} (s : State) : State :=
  match fcb s with
  | None => log inIo s
  | Some _ =>
      let ch := activeChannel s in
      if fcode s =? Fc6681Output then
        if chFull ch
        then
          let s :=
            if has_flag (flags (lc s)) Lp3000Type501
            then emit [to_u8 (bcdToAscii (Z.land (chData ch) Mask6))]
                   (emit [to_u8 (bcdToAscii (Z.land (Z.shiftr (chData ch) 6) Mask6))] s)
            else emit [to_u8 (Z.land (chData ch) (oct 377))] s in
          set_lc (set_keepInt true (set_printed true (lc s)))
                 (set_activeChannel (set_chFull false ch) s)
        else s
      else if fcode s =? Fc6681Output + 1
      then set_activeChannel (set_chFull false ch) s
      else if fcode s =? Fc6681DevStatusReq
      then set_fcode 0
             (set_activeChannel
                (mkChSlot (chId ch)
                   (Z.lor StPrintReady
                      (Z.land (flags (lc s)) (Z.lor StPrintIntReady StPrintIntEnd)))
                   true (chStatus ch)) s)
      else set_activeChannel (set_chFull false ch) s
  end.

Definition lp3000Activate (s : State) : State := s.

Definition lp3000Disconnect {D : Dcc6681} (s : State) : State :=
  match fcb s with
  | None => log inDisconnect s
  | Some _ =>
      let c := lc s in
      let ansi := extuseANSI c in
      if fcode s =? Fc6681Output then
        let s :=
          if extsuppress c
          then set_lc (set_extsuppress false c) (emit (if ansi then [10; 43] else [13]) s)
          else if extpostprint c
          then
            let s :=
              if extspaceopt c =? FcPrintDouble
              then advance (if ansi then [10; 48] else [10; 10]) 2 s
              else advance (if ansi then [10; 32] else [10]) 1 s in
            set_lc (set_extspaceopt FcPrintSingle (lc s)) s
          else emit [9] s in
        set_fcode 0 s
      else s
  end.

End Lp3000.

(** ** Notions used to state the properties *)

Module KeyRing.
Import Console.

(** The index after [i] in the ring. *)
Definition next (i : Z) : Z := if i + 1 =? KeyBufSize then 0 else i + 1.

(** [n] ring cells read in order from index [out]. *)
Fixpoint ringFrom (ring : list Z) (out : Z) (n : nat) : list Z :=
  match n with
  | O => []
  | S n' => nth (Z.to_nat out) ring 0 :: ringFrom ring (next out) n'
  end.

Definition occupancy (k : KeyBuf) : Z := (keyIn k - keyOut k) mod KeyBufSize.

(** The keys queued and not yet delivered, oldest first. *)
Definition pending (k : KeyBuf) : list Z :=
  ringFrom (keyRing k) (keyOut k) (Z.to_nat (occupancy k)).

(** Both indices address the 50 cells of the ring. *)
Definition wf (k : KeyBuf) : Prop :=
  0 <= keyIn k < KeyBufSize /\ 0 <= keyOut k < KeyBufSize
  /\ length (keyRing k) = 50%nat.

(** Calls made by the producer and the consumer. *)
Inductive KeyOp : Set := opQueue (ch : Z) | opGet.

Definition step (k : KeyBuf) (o : KeyOp) : KeyBuf :=
  match o with
  | opQueue ch => consoleQueueKey ch k
  | opGet => snd (consoleGetKey k)
  end.

Definition run (ops : list KeyOp) : KeyBuf := fold_left step ops keys0.

(** The ring as the specification words it: a FIFO of at most 49 keys in
    which an overflowing key is dropped, drained by a consumer that
    delivers on the calls its counter selects. *)
Record Fifo : Set := mkFifo { queued : list Z; counter : Z }.

Definition fifoStep (q : Fifo) (o : KeyOp) : Fifo :=
  match o with
  | opQueue ch =>
      if (length (queued q) <? 49)%nat
      then mkFifo (queued q ++ [to_u8 ch]) (counter q)
      else q
  | opGet =>
      match queued q with
      | [] => q
      | _ :: rest =>
          let c := to_u64 (counter q + 1) in
          if c mod 3 =? 1 then mkFifo rest c else mkFifo (queued q) c
      end
  end.

Definition fifoRun (ops : list KeyOp) : Fifo := fold_left fifoStep ops (mkFifo [] 0).

End KeyRing.

Module ConsoleSpec.
Import Console.

(** The function codes [consoleFunc] knows. *)
Definition functionCodes : list Z :=
  [Fc6612Sel512DotsLeft; Fc6612Sel512DotsRight; Fc6612Sel64CharLeft;
   Fc6612Sel32CharLeft; Fc6612Sel16CharLeft; Fc6612Sel64CharRight;
   Fc6612Sel32CharRight; Fc6612Sel16CharRight; Fc6612SelKeyIn].

(** The word on the channel carries the two pattern characters at
    [autoPos], in display code. *)
Definition wordMatches {C : Charset} (s : State) : bool :=
  let a := auto s in
  let d := chData (activeChannel s) in
  (Z.land (Z.shiftr d 6) Mask6 =? asciiToCdc (to_u8 (strAt (autoDateString a) (autoPos a))))
  && (Z.land d Mask6 =? asciiToCdc (to_u8 (strAt (autoDateString a) (autoPos a + 1)))).

(** The pattern ends with these two characters. *)
Definition patternEnds (s : State) : bool :=
  let a := auto s in
  (strAt (autoDateString a) (autoPos a + 1) =? 0)
  || (strAt (autoDateString a) (autoPos a + 2) =? 0).

Definition mediumFont (s : State) : bool :=
  (fcode s =? Fc6612Sel32CharLeft) || (fcode s =? Fc6612Sel32CharRight).

End ConsoleSpec.

Module Lp1612Spec.
Import Lp1612.

(** The PP puts a word on the channel. *)
Definition load (word : Z) (s : State) : State :=
  set_activeChannel (set_chFull true (set_chData word (activeChannel s))) s.

(** What the capture file holds. *)
Definition paper (s : State) : option (list Z) := option_map contents (fcb s).

(** The first scenario of the specification: an ASCII printer is selected,
    the word 3031 is written, single space is requested and the channel is
    disconnected. *)
Definition printHI {C : Charset} (channelNo : Z) (path : option string)
  : option (list Z) :=
  match lp1612Init 0 0 channelNo path false true with
  | None => None
  | Some s =>
      let s := snd (lp1612Func FcPrintSelect s) in
      let s := lp1612Io (load (oct 3031) s) in
      let s := snd (lp1612Func FcPrintSingleSpace s) in
      paper (lp1612Disconnect s)
  end.

End Lp1612Spec.

Module Lp3000Spec.
Import Lp3000.

(** What the capture file holds. *)
Definition paper (s : State) : option (list Z) := option_map contents (fcb s).

(** A latched interrupt bit implies its enable bit. *)
Definition latchedOnlyEnabled (flags : Z) : bool :=
  implb (has_flag flags Lp3000IntReady) (has_flag flags Lp3000IntReadyEna)
  && implb (has_flag flags Lp3000IntEnd) (has_flag flags Lp3000IntEndEna).

(** The invariant on a device state. *)
Abbreviation inv s := (latchedOnlyEnabled (flags (lc s)) = true).

(** The device codes occupy the low six bits of the function word; the
    converter's three codes lie above them and label distinct cases. *)
Definition codesApart {D : Dcc6681} : bool :=
  (oct 77 <? Fc6681Output) && (oct 77 <? Fc6681DevStatusReq)
  && (oct 77 <? Fc6681MasterClear)
  && negb (Fc6681Output =? Fc6681DevStatusReq)
  && negb (Fc6681Output + 1 =? Fc6681DevStatusReq)
  && negb (Fc6681Output =? Fc6681MasterClear)
  && negb (Fc6681DevStatusReq =? Fc6681MasterClear).

(** What can happen to the printer between two observations: a callback of
    the device, the PP loading or draining the channel, or the operator
    removing the paper. *)
Inductive Op : Set :=
| opFunc (spawnApp : bool) (env : PaperEnv) (funcCode : Z)
| opIo
| opActivate
| opDisconnect
| opChannel (data : Z) (full : bool)
| opRemovePaper (spawnApp : bool) (env : PaperEnv) (params : Scanned).

Definition step {D : Dcc6681} {L : Limits} {C : Charset} (s : State) (o : Op) : State :=
  match o with
  | opFunc spawnApp env funcCode => snd (lp3000Func spawnApp env funcCode s)
  | opIo => lp3000Io s
  | opActivate => lp3000Activate s
  | opDisconnect => lp3000Disconnect s
  | opChannel d b =>
      set_activeChannel (set_chFull b (set_chData (to_u16 d) (activeChannel s))) s
  | opRemovePaper spawnApp env params => lp3000RemovePaper spawnApp env params s
  end.

Definition run {D : Dcc6681} {L : Limits} {C : Charset} (ops : list Op) (s : State) : State :=
  fold_left step ops s.

(** The select and release codes of the interrupt [int], by controller. *)
Definition selCode (is3555 : bool) (int : Z) : Z :=
  if is3555
  then if int =? Lp3000IntReady then Fc3555SelIntReady else Fc3555SelIntEnd
  else if int =? Lp3000IntReady then Fc3152SelIntReady else Fc3152SelIntEnd.

Definition relCode (is3555 : bool) (int : Z) : Z :=
  if is3555
  then if int =? Lp3000IntReady then Fc3555RelIntReady else Fc3555RelIntEnd
  else if int =? Lp3000IntReady then Fc3152RelIntReady else Fc3152RelIntEnd.

(** The enable bit paired with the latched bit [int]. *)
Definition enaOf (int : Z) : Z :=
  if int =? Lp3000IntReady then Lp3000IntReadyEna else Lp3000IntEndEna.

End Lp3000Spec.

(** ** Sample parameters for the concrete runs *)

Module Sample.

(** The converter codes 1600, 1300 and 1700 (octal). *)
Definition dcc6681 : Dcc6681 :=
  Eval cbv in Build_Dcc6681 (oct 1600) (oct 1300) (oct 1700).

Definition limits : Limits := Eval cbv in Build_Limits (oct 40) (oct 10).

(** Display code of a letter or a digit ([A] is 01, [0] is 033); the
    console additionally codes the newline as 060. *)
Definition displayCode (c : Z) : Z :=
  if (65 <=? c) && (c <=? 90) then c - 64
  else if (48 <=? c) && (c <=? 57) then c - 48 + 27
  else 0.

Definition keyCode (c : Z) : Z := if c =? 10 then 48 else displayCode c.

(** The inverse on letters and digits; blank elsewhere. *)
Definition toAscii (c : Z) : Z :=
  if (1 <=? c) && (c <=? 26) then c + 64
  else if (27 <=? c) && (c <=? 36) then c - 27 + 48
  else 32.

(** External BCD as the first scenario of the specification codes it:
    ['H'] is 030 and ['I'] is 031. *)
Definition extBcd (c : Z) : Z :=
  if c =? oct 30 then 72 else if c =? oct 31 then 73 else 32.

Definition charset : Charset :=
  Build_Charset toAscii extBcd toAscii displayCode keyCode.

Definition noon : Tm := mkTm 126 10 2 12 34 56.

(** A console selected for medium characters on the left screen, a word
    waiting on the channel, auto date switched on and nothing typed. *)
Definition console (pattern year : list Z) (word : Z) : Console.State :=
  Console.mkState (mkChSlot 8 word true 0) Console.Fc6612Sel32CharLeft 16 0 false
    Console.keys0 (Console.mkAutoDate true pattern year 0) 0 [].

Definition env : PaperEnv := mkPaperEnv (fun _ => noon) (fun _ => true) true.

(** A 501 printer on a 3555 controller, channel 010, equipment 0. *)
Definition lp501 (useANSI : bool) : option Lp3000.State :=
  Lp3000.lp501Init 0 0 8 None None useANSI true.

(** A 1612 printer on channel 011. *)
Definition lp1612 (useANSI : bool) : option Lp1612.State :=
  Lp1612.lp1612Init 0 0 9 None useANSI true.

End Sample.

(** ** Runs, traces and further models *)

Module KeyTrace.
Import Console KeyRing.

(** [n] successive calls of [consoleGetKey]. *)
Fixpoint gets (n : nat) (k : KeyBuf) : KeyBuf :=
  match n with
  | O => k
  | S n' => gets n' (snd (consoleGetKey k))
  end.

(** The keys the ring took in and the keys it handed out, oldest first. *)
Record Trace : Set := mkTrace { accepted : list Z; delivered : list Z }.

(** One call observed from outside: a queue call is accepted when it moves
    [keyIn], a get call delivers when it moves [keyOut]. *)
Definition observe (kt : KeyBuf * Trace) (o : KeyOp) : KeyBuf * Trace :=
  let '(k, t) := kt in
  match o with
  | opQueue ch =>
      let k' := consoleQueueKey ch k in
      (k', if keyIn k' =? keyIn k then t
           else mkTrace (accepted t ++ [to_u8 ch]) (delivered t))
  | opGet =>
      let '(key, k') := consoleGetKey k in
      (k', if keyOut k' =? keyOut k then t
           else mkTrace (accepted t) (delivered t ++ [key]))
  end.

Definition runTrace (ops : list KeyOp) : KeyBuf * Trace :=
  fold_left observe ops (keys0, mkTrace [] []).

End KeyTrace.

Module ConsoleRun.
Import Console.

(** What can happen to the console between two observations: a callback of
    the device, the PP loading or draining the channel, or the window layer
    queueing a key. *)
Inductive Op : Set :=
| opFunc (funcCode : Z)
| opIo (t : Tm) (typed : option Z)
| opActivate
| opDisconnect
| opChannel (data : Z) (full : bool)
| opKey (ch : Z).

Definition step {F : Fonts} {C : Charset} (s : State) (o : Op) : State :=
  match o with
  | opFunc funcCode => snd (consoleFunc funcCode s)
  | opIo t typed => consoleIo t typed s
  | opActivate => consoleActivate s
  | opDisconnect => consoleDisconnect s
  | opChannel d b =>
      set_activeChannel (set_chFull b (set_chData (to_u16 d) (activeChannel s))) s
  | opKey ch => set_keys (consoleQueueKey ch (keys s)) s
  end.

Definition run {F : Fonts} {C : Charset} (ops : list Op) (s : State) : State :=
  fold_left step ops s.

(** A data word carrying two six-bit characters. *)
Definition word2 (hi lo : Z) : Z := hi * 64 + lo.

(** The words that display a text two characters at a time. *)
Fixpoint patternWords {C : Charset} (p : list Z) : list Z :=
  match p with
  | a :: b :: p' => word2 (asciiToCdc (to_u8 a)) (asciiToCdc (to_u8 b)) :: patternWords p'
  | _ => []
  end.

(** The PP writes a word and the console drains it, the wall clock
    reading [t]. *)
Definition send {C : Charset} (s : State) (wt : Z * Tm) : State :=
  consoleIo (snd wt) None
    (set_activeChannel (set_chFull true (set_chData (fst wt) (activeChannel s))) s).

Definition sendAll {C : Charset} (wts : list (Z * Tm)) (s : State) : State :=
  fold_left send wts s.

End ConsoleRun.

Module PaperSpec.

(** The retry lines of [n] failed rename attempts from suffix [i0] on. *)
Definition retries (p : Printer) (env : PaperEnv) (fname : FileName)
    (mk : Tm -> Z -> FileName) (i0 : Z) (n : nat) : list LogMsg :=
  map (fun i => msgRenameRetry p fname (mk (clock env i) i)) (seqZ i0 (Z.of_nat n)).

(** Attempt [j] is the first rename that succeeds. *)
Definition firstSuccess (env : PaperEnv) (j : nat) : Prop :=
  renameOk env (Z.of_nat j) = true
  /\ forall i, (i < j)%nat -> renameOk env (Z.of_nat i) = false.

(** The operator's arguments name the 1612 slot. *)
Definition names1612 {L : Limits} (params : Scanned) (s : Lp1612.State) : Prop :=
  numParam params = 2
  /\ 0 <= channelNo params < MaxChannels
  /\ 0 <= equipmentNo params < MaxEquipment
  /\ Lp1612.channelFindDevice (channelNo params) s = true.

(** The operator's arguments name the 3000-series slot. *)
Definition names3000 {L : Limits} (params : Scanned) (s : Lp3000.State) : Prop :=
  numParam params = 2
  /\ 0 <= channelNo params < MaxChannels
  /\ 0 <= equipmentNo params < MaxEquipment
  /\ Lp3000.dcc6681FindDevice (channelNo params) (equipmentNo params) s = true.

End PaperSpec.

Module Lp1612Run.
Import Lp1612.

(** What can happen to the 1612 between two observations. *)
Inductive Op : Set :=
| opFunc (funcCode : Z)
| opIo
| opActivate
| opDisconnect
| opChannel (data : Z) (full : bool)
| opRemovePaper (env : PaperEnv) (params : Scanned).

Definition step {L : Limits} {C : Charset} (s : State) (o : Op) : State :=
  match o with
  | opFunc funcCode => snd (lp1612Func funcCode s)
  | opIo => lp1612Io s
  | opActivate => lp1612Activate s
  | opDisconnect => lp1612Disconnect s
  | opChannel d b =>
      set_activeChannel (set_chFull b (set_chData (to_u16 d) (activeChannel s))) s
  | opRemovePaper env params => lp1612RemovePaper env params s
  end.

Definition run {L : Limits} {C : Charset} (ops : list Op) (s : State) : State :=
  fold_left step ops s.

(** The PP writes the words one by one, the printer draining each. *)
Definition transfer {C : Charset} (words : list Z) (s : State) : State :=
  fold_left (fun s w => lp1612Io (Lp1612Spec.load w s)) words s.

End Lp1612Run.

Module Lp3000Run.
Import Lp3000.

(** The PP puts a word on the channel. *)
Definition load (word : Z) (s : State) : State :=
  set_activeChannel (set_chFull true (set_chData word (activeChannel s))) s.

(** The PP writes the words one by one, the printer draining each. *)
Definition transfer {D : Dcc6681} {C : Charset} (words : list Z) (s : State) : State :=
  fold_left (fun s w => lp3000Io (load w s)) words s.

(** The bytes a 501 prints for a word, and the byte a 512 prints. *)
Definition bytes501 {C : Charset} (w : Z) : list Z :=
  [to_u8 (bcdToAscii (Z.land (Z.shiftr w 6) Mask6)); to_u8 (bcdToAscii (Z.land w Mask6))].
Definition bytes512 (w : Z) : list Z := [to_u8 (Z.land w (oct 377))].


(** The context fields no function code may bring out of range. *)
Definition shaped (c : LpContext) : Prop :=
  (extlpi c = 6 \/ extlpi c = 8)
  /\ extlpp c = 9 * extlpi c
  /\ (extspaceopt c = FcPrintSingle \/ extspaceopt c = FcPrintDouble).

(** The model bits of the flag word. *)
Definition modelBits (flags : Z) : Z :=
  Z.land flags (Z.lor (Z.lor Lp3000Type501 Lp3000Type512)
                      (Z.lor Lp3000Type3152 Lp3000Type3555)).

(** What no operation changes in the context, and the shape it keeps. *)
Definition kept (c c' : LpContext) : Prop :=
  extuseANSI c' = extuseANSI c /\ extPath c' = extPath c
  /\ modelBits (flags c') = modelBits (flags c)
  /\ (shaped c -> shaped c').

End Lp3000Run.

Module Asa.

(** The ASA carriage-control characters: blank, 0, 1 and +. *)
Definition control (c : Z) : bool :=
  (c =? 32) || (c =? 48) || (c =? 49) || (c =? 43).

(** Every newline of the text is followed by a carriage-control
    character. *)
Fixpoint ruled (text : list Z) : bool :=
  match text with
  | [] => true
  | c :: rest =>
      if c =? 10
      then match rest with
           | [] => false
           | cc :: _ => control cc && ruled rest
           end
      else ruled rest
  end.

(** The bytes a printer callback writes in one go: nothing, one or two
    data characters, or a newline with its carriage-control character. *)
Definition wellStarted (text : list Z) : Prop :=
  text = [] \/ (exists c, text = [c] /\ c <> 10)
  \/ (exists a b, text = [a; b] /\ a <> 10 /\ b <> 10)
  \/ (exists cc, text = [10; cc] /\ control cc = true).

(** The capture file of a 1612, if open, is ruled. *)
Definition ruled1612 (s : Lp1612.State) : Prop :=
  match Lp1612.fcb s with
  | Some f => ruled (contents f) = true
  | None => True
  end.

(** The capture file of a 3000-series printer, if open, is ruled. *)
Definition ruled3000 (s : Lp3000.State) : Prop :=
  match Lp3000.fcb s with
  | Some f => ruled (contents f) = true
  | None => True
  end.

End Asa.

Create Rewrite HintDb modelbits.

(** Closes a goal [kept c c'] in which [c'] is [c] under setters. *)
Ltac kept_setters :=
  unfold Lp3000Run.kept, Lp3000Run.shaped;
  cbn [Lp3000.extuseANSI Lp3000.extPath Lp3000.flags Lp3000.extlpi Lp3000.extlpp
       Lp3000.extspaceopt Lp3000.set_flags Lp3000.set_printed Lp3000.set_keepInt
       Lp3000.set_extspaceopt Lp3000.set_extlpi Lp3000.set_extlpp
       Lp3000.set_extcurline Lp3000.set_extsuppress Lp3000.set_extpostprint
       Lp3000.masterClear];
  autorewrite with modelbits;
  repeat split; try reflexivity; try tauto;
  try (intros _; first [left; reflexivity | right; reflexivity]).

Module Init.

(** [initConvertEndian]: every operand and result is a [u32]. *)
Definition initConvertEndian (value : Z) : Z :=
  let result := Z.shiftr (Z.land value 4278190080) 24 in
  let result := Z.lor result (Z.shiftr (Z.land value 16711680) 8) in
  let result := Z.lor result (to_u32 (Z.shiftl (Z.land value 65280) 8)) in
  let result := Z.lor result (to_u32 (Z.shiftl (Z.land value 255) 24)) in
  result.

(** Byte [i] of a 32-bit word, byte 0 being the least significant. *)
Definition byte (i : Z) (value : Z) : Z := Z.land (Z.shiftr value (8 * i)) 255.

(** *** The C library on strings

    A string is the list of its characters before the terminating NUL,
    each character an 8-bit pattern. *)

(** [isspace] in the C locale. *)
Definition isspace (c : Z) : bool := (c =? 32) || ((9 <=? c) && (c <=? 13)).

(** [strncmp(a, b, n) == 0]. *)
Fixpoint strncmp0 (a b : list Z) (n : nat) {struct n} : bool :=
  match n with
  | O => true
  | S n' =>
      match a, b with
      | [], [] => true
      | c :: a', d :: b' => (c =? d) && strncmp0 a' b' n'
      | _, _ => false
      end
  end.

(** [strchr(s, c)] for a character [c] other than NUL: the index of its
    first occurrence. *)
Fixpoint strchr (s : list Z) (c : Z) : option nat :=
  match s with
  | [] => None
  | d :: s' => if d =? c then Some O else option_map S (strchr s' c)
  end.

(** [strncpy(dst, src, n)] on a buffer [dst] of at least [n] characters:
    the first [n] characters of [src], padded with NUL up to [n]; no NUL is
    added when [src] has [n] characters or more. *)
Definition strncpy (dst src : list Z) (n : nat) : list Z :=
  take n (src ++ replicate n 0) ++ drop n dst.

(** *** The start-up file *)

Definition MaxLine : Z := 512.

(** The file behind [fcb] as [fgets(lineBuffer, MaxLine, fcb)] delivers it:
    line by line, each line with its newline, a line of [MaxLine]
    characters or more in several pieces.  The file is read by [fgets]
    only and [ftell] is called between two reads, so offsets are counted in
    lines. *)
Record Reader : Set := mkReader {
  fcb : list (list Z);
  pos : nat;
  sectionStart : nat
}.

Definition fseek (offset : nat) (r : Reader) : Reader :=
  mkReader (fcb r) offset (sectionStart r).
Definition ftell (r : Reader) : nat := pos r.
Definition set_sectionStart (offset : nat) (r : Reader) : Reader :=
  mkReader (fcb r) (pos r) offset.

(** [fgets]: [None] at the end of the file, else the string left in the
    line buffer. *)
Definition fgets (r : Reader) : option (list Z) * Reader :=
  match fcb r !! pos r with
  | Some l => (Some (cstring l), fseek (S (pos r)) r)
  | None => (None, r)
  end.

(** The lines still to be read. *)
Definition ahead (r : Reader) : list (list Z) := drop (pos r) (fcb r).

(** The [do] loop of [initOpenSection].  Every turn reads a line, so the
    number of lines of the file bounds the turns. *)
Fixpoint openLoop (fuel : nat) (section : list Z) (sectionLength : nat) (r : Reader)
  : option Reader :=
  match fgets r with
  | (None, _) => None
  | (Some lineBuffer, r) =>
      if strncmp0 lineBuffer section sectionLength then Some r
      else match fuel with
           | O => None
           | S fuel' => openLoop fuel' section sectionLength r
           end
  end.

(** [initOpenSection], for a name that fits the 40 characters of
    [section] with its brackets.  When the header is not found the file is
    left at its end. *)
Definition initOpenSection (name : list Z) (r : Reader) : bool * Reader :=
  let sectionLength := Z.to_nat (to_u8 (Z.of_nat (length name) + 2)) in
  let section := [91] ++ name ++ [93] in
  let r := fseek O r in
  match openLoop (length (fcb r)) section sectionLength r with
  | None => (false, fseek (length (fcb r)) r)
  | Some r => (true, set_sectionStart (ftell r) r)
  end.

(** The [for] loop of [initGetNextLine] over the characters [cs] still to
    be scanned: the final [blank] and the text the buffer then holds. *)
Fixpoint scan (blank : bool) (cs : list Z) : bool * list Z :=
  match cs with
  | [] => (blank, [])
  | c :: cs' =>
      if blank && (c =? 59) then (blank, cs)
      else if isspace c
           then let '(b, out) := scan blank cs' in (b, 32 :: out)
           else let '(b, out) := scan false cs' in (b, c :: out)
  end.

(** The [do] loop of [initGetNextLine]. *)
Fixpoint nextLoop (fuel : nat) (r : Reader) : option (list Z) * Reader :=
  match fgets r with
  | (None, r) => (None, r)
  | (Some lineBuffer, r) =>
      if strAt lineBuffer 0 =? 91 then (None, r)
      else
        let '(blank, lineBuffer) := scan true lineBuffer in
        if blank
        then match fuel with
             | O => (None, r)
             | S fuel' => nextLoop fuel' r
             end
        else (Some lineBuffer, r)
  end.

(** [initGetNextLine]: the next line that is neither blank nor a comment,
    or [None] for [NULL]. *)
Definition initGetNextLine (r : Reader) : option (list Z) * Reader :=
  nextLoop (length (fcb r)) r.

(** The [do] loop of [initGetString]. *)
Fixpoint findLoop (fuel : nat) (entry : list Z) (entryLength : nat) (r : Reader)
  : option (list Z) * Reader :=
  match initGetNextLine r with
  | (None, r) => (None, r)
  | (Some line, r) =>
      if strncmp0 line entry entryLength then (Some line, r)
      else match fuel with
           | O => (None, r)
           | S fuel' => findLoop fuel' entry entryLength r
           end
  end.

(** The loop that cuts trailing white space, [pos] being the index of the
    character looked at. *)
Fixpoint trim (pos : nat) (line : list Z) : list Z :=
  match pos with
  | O => line
  | S pos' => if isspace (nth pos line 0) then trim pos' (take pos line) else line
  end.

(** [initGetString] with [str] a buffer of [strLen] characters, [1 <=
    strLen]: the value returned and the buffer, or [None] where the source
    hands the null pointer to [strncpy]. *)
Definition initGetString (entry : list Z) (defString : option (list Z))
    (str : list Z) (strLen : Z) (r : Reader) : option (bool * list Z) * Reader :=
  let entryLength := Z.to_nat (to_u8 (Z.of_nat (length entry))) in
  let strLen := Z.to_nat (strLen - 1) in
  match findLoop (length (fcb r)) entry entryLength (fseek (sectionStart r) r) with
  | (None, r) =>
      (option_map (fun d => (false, strncpy str d strLen)) defString, r)
  | (Some line, r) =>
      let line := match strchr line 59 with
                  | Some i => take i line
                  | None => line
                  end in
      let line := trim (length line - 1)%nat line in
      match strchr line 61 with
      | None =>
          (Some (false, match defString with
                        | Some d => strncpy str d strLen
                        | None => str
                        end), r)
      | Some i => (Some (true, strncpy str (drop (S i) line) strLen), r)
      end
  end.

(** The width of [long], which the platform fixes. *)
Class Abi : Type := { LONG_MAX : Z }.

(** The value of the longest prefix of [s] made of digits of [base], a
    base up to ten, from [acc] on. *)
Fixpoint digits (base : Z) (s : list Z) (acc : Z) : Z :=
  match s with
  | [] => acc
  | c :: s' =>
      if (48 <=? c) && (c <? 48 + base)
      then digits base s' (acc * base + (c - 48))
      else acc
  end.

(** [strtol(s, NULL, base)] for a string that begins with a digit of
    [base], as its two callers make sure: no white space or sign is to be
    skipped, and a value that does not fit is [LONG_MAX]. *)
Definition strtol {A : Abi} (s : list Z) (base : Z) : Z :=
  Z.min (digits base s 0) LONG_MAX.

(** The body shared by [initGetOctal] and [initGetInteger], which differ in
    the base and in the last digit accepted.  [buffer] is not initialised:
    [junk] is what its 40 characters hold at the call.  The default is the
    empty string, so [initGetString] yields a result. *)
Definition getNumber {A : Abi} (base : Z) (entry : list Z) (defValue : Z)
    (junk : list Z) (r : Reader) : (bool * Z) * Reader :=
  match initGetString entry (Some []) junk 40 r with
  | (Some (found, buffer), r) =>
      if negb found || (strAt buffer 0 <? 48) || (strAt buffer 0 >? 48 + base - 1)
      then ((false, defValue), r)
      else ((true, strtol (cstring buffer) base), r)
  | (None, r) => ((false, defValue), r)
  end.

(** [initGetOctal]: the flag returned and [*value]. *)
Definition initGetOctal {A : Abi} (entry : list Z) (defValue : Z) (junk : list Z)
    (r : Reader) : (bool * Z) * Reader :=
  getNumber 8 entry defValue junk r.

(** [initGetInteger]: the flag returned and [*value]. *)
Definition initGetInteger {A : Abi} (entry : list Z) (defValue : Z) (junk : list Z)
    (r : Reader) : (bool * Z) * Reader :=
  getNumber 10 entry defValue junk r.

(** The number of deadstart switch rows, from [const.h], which is not
    among the sources. *)
Class Panel : Type := { MaxDeadStart : Z }.

Definition isoctal (c : Z) : bool := (48 <=? c) && (c <=? 55).

(** The delimiters of [strtok(line, " ;\n")]. *)
Definition isDelim (c : Z) : bool := (c =? 32) || (c =? 59) || (c =? 10).

Fixpoint skipDelims (s : list Z) : list Z :=
  match s with
  | [] => []
  | c :: s' => if isDelim c then skipDelims s' else s
  end.

Fixpoint tokenOf (s : list Z) : list Z :=
  match s with
  | [] => []
  | c :: s' => if isDelim c then [] else c :: tokenOf s'
  end.

(** The first call of [strtok] on a line: the first token, or [None] for
    [NULL] when the line holds delimiters only. *)
Definition strtok (line : list Z) : option (list Z) :=
  match skipDelims line with
  | [] => None
  | s => Some (tokenOf s)
  end.

(** How a start-up routine ends: it returns, it calls [exit(1)], or the
    turns granted to its loop are used up. *)
Inductive Ending (T : Type) : Type :=
| returns (x : T)
| exits
| unfinished.
Arguments returns {T} x.
Arguments exits {T}.
Arguments unfinished {T}.

(** The [while] loop of [initDeadstart].  [lineNo] is a [u8], and a switch
    word is stored as a [u16].  Every turn reads a line, so the number of
    lines of the file bounds the turns. *)
Fixpoint deadstartLoop {A : Abi} {P : Panel} (fuel : nat) (lineNo : Z)
    (deadstartPanel : list Z) (r : Reader) : Ending (Z * list Z * Reader) :=
  match initGetNextLine r with
  | (None, r) => returns (lineNo, deadstartPanel, r)
  | (Some line, r) =>
      if negb (lineNo <? MaxDeadStart) then returns (lineNo, deadstartPanel, r)
      else
        match strtok line with
        | None => exits
        | Some token =>
            if negb (length token =? 4)%nat
               || negb (isoctal (strAt token 0)) || negb (isoctal (strAt token 1))
               || negb (isoctal (strAt token 2)) || negb (isoctal (strAt token 3))
            then exits
            else
              let deadstartPanel :=
                <[Z.to_nat lineNo := to_u16 (strtol token 8)]> deadstartPanel in
              let lineNo := to_u8 (lineNo + 1) in
              match fuel with
              | O => unfinished
              | S fuel' => deadstartLoop fuel' lineNo deadstartPanel r
              end
        end
  end.

(** [initDeadstart] for the section named in [deadstart]: the panel, which
    has [MaxDeadStart] rows, and [deadstartCount]. *)
Definition initDeadstart {A : Abi} {P : Panel} (deadstart : list Z)
    (deadstartPanel : list Z) (r : Reader) : Ending (list Z * Z * Reader) :=
  match initOpenSection deadstart r with
  | (false, _) => exits
  | (true, r) =>
      match deadstartLoop (length (fcb r)) 0 deadstartPanel r with
      | returns (lineNo, deadstartPanel, r) =>
          returns (deadstartPanel, to_u8 (lineNo + 1), r)
      | exits => exits
      | unfinished => unfinished
      end
  end.

End Init.

Module IniSpec.
Import Init.

(** A line of the file that opens a section. *)
Definition header (l : list Z) : bool := strAt (cstring l) 0 =? 91.

(** A line that holds only white space, or a comment after white space. *)
Definition blankLine (l : list Z) : bool := fst (scan true (cstring l)).

(** The text [initGetNextLine] makes of a line. *)
Definition text (l : list Z) : list Z := snd (scan true (cstring l)).

(** A line [initGetNextLine] reads and drops. *)
Definition skipped (l : list Z) : bool := negb (header l) && blankLine l.

(** A line the search for [entry] passes over without leaving the
    section. *)
Definition passedOver (entry : list Z) (l : list Z) : bool :=
  negb (header l)
  && (blankLine l || negb (strncmp0 (text l) entry (length entry))).

(** A character that reading leaves as it is: not NUL, not the comment
    sign, and no white space other than the blank. *)
Definition plain (c : Z) : bool :=
  negb (c =? 0) && negb (c =? 59) && (negb (isspace c) || (c =? 32)).

(** A plain character that is not the equals sign. *)
Definition keyChar (c : Z) : bool := plain c && negb (c =? 61).

(** The header of the section [name], and the lines that begin with it. *)
Definition label (name : list Z) : list Z := [91] ++ name ++ [93].
Definition opens (name : list Z) (l : list Z) : bool :=
  strncmp0 (cstring l) (label name) (length (label name)).

(** A deadstart switch word as the file spells it: four octal digits. *)
Definition octalWord (t : list Z) : bool := (length t =? 4)%nat && forallb isoctal t.

(** The value of a switch word. *)
Definition wordValue (t : list Z) : Z := digits 8 t 0.

(** A text in which white space has been replaced by blanks. *)
Definition spaced (line : list Z) : Prop :=
  Forall (fun c => isspace c = true -> c = 32) line.

End IniSpec.

Module Scene.

(** Font sizes and screen offsets for the concrete runs. *)
Definition fonts : Console.Fonts := Eval cbv in Console.Build_Fonts 0 8 16 32 0 (oct 1020).

(** A console selected for medium characters whose auto date is off. *)
Definition idle : Console.State :=
  Console.mkState (mkChSlot 8 0 false 0) Console.Fc6612Sel32CharLeft 16 0 false
    Console.keys0 (Console.mkAutoDate false [65; 66] [55; 48] 0) 0 [].

(** The pattern ENTERDATE. with its ten characters. *)
Definition enterDate : list Z := [69; 78; 84; 69; 82; 68; 65; 84; 69; 46].

(** A host on which no rename succeeds. *)
Definition stuck : PaperEnv := mkPaperEnv (fun _ => Sample.noon) (fun _ => false) true.

(** A host on which the capture file cannot be opened again. *)
Definition closed : PaperEnv := mkPaperEnv (fun _ => Sample.noon) (fun _ => true) false.

(** The characters of a text, and the text as a line of a file. *)
Definition chars (s : string) : list Z :=
  map (fun a => Z.of_nat (Ascii.nat_of_ascii a)) (String.list_ascii_of_string s).
Definition line (s : string) : list Z := chars s ++ [10].

(** A start-up file: a comment, the section [cyber] with a blank line and
    four entries, and the section [equipment]. *)
Definition ini : list (list Z) :=
  [line "; start-up file"; line "[cyber]"; [10]; line "model=6400";
   line "memory = 1000000"; line "ecsbanks=16"; line "[equipment]";
   line "autodate=never"].

(** A start-up file with a deadstart section of two switch words, and one
    whose second word has a digit too many. *)
Definition boot : list (list Z) :=
  [line "[cyber]"; line "model=6400"; line "[deadstart]"; line "0000";
   line "7553"; line "[equipment]"].
Definition badBoot : list (list Z) :=
  [line "[deadstart]"; line "0000"; line "75530"].

(** A deadstart panel of sixteen rows. *)
Definition panel : Init.Panel := Init.Build_Panel 16.

(** A platform whose [long] has 32 bits. *)
Definition abi : Init.Abi := Init.Build_Abi 2147483647.

End Scene.

(** ** Proof automation *)

(** Case analysis on the condition of a conditional in the goal. *)
Ltac case_if :=
  match goal with
  | |- context [if ?b then _ else _] => destruct b eqn:?
  end.

(** Decoding a function code whose value is known. *)
Ltac decode :=
  repeat (match goal with
          | |- context [?a =? ?b] => destruct (Z.eqb_spec a b)
          end; try lia).

(** Reading a bit of a flag word built with the C operators. *)
Ltac flag_bits :=
  unfold Lp3000.StPrintIntReady, Lp3000.StPrintIntEnd, Lp3000.StPrintReady,
    Lp3000.Lp3000IntReady, Lp3000.Lp3000IntEnd, Lp3000.Lp3000IntReadyEna,
    Lp3000.Lp3000IntEndEna, Lp3000.Lp3555FillImageMem in *;
  repeat first
    [ rewrite Z.lor_spec | rewrite Z.land_spec | rewrite Z.lnot_spec by lia ];
  repeat match goal with
         | |- context [Z.testbit (Zpos ?p) ?n] =>
             let v := eval vm_compute in (Z.testbit (Zpos p) n) in
             change (Z.testbit (Zpos p) n) with v
         end;
  cbn [negb andb orb];
  rewrite ?andb_true_r, ?andb_false_r, ?orb_true_r, ?orb_false_r.

(** * Properties *)

(** ** Machine integers *)

Lemma to_u32_small (x : Z) : 0 <= x < 4294967296 -> to_u32 x = x.
Proof. intros Hx. unfold to_u32, wrap. apply Z.mod_small. exact Hx. Qed.

Lemma to_int_small (x : Z) : 0 <= x < 2147483648 -> to_int x = x.
Proof.
  intros Hx. unfold to_int. rewrite to_u32_small by lia.
  change (2 ^ 31) with 2147483648.
  destruct (Z.ltb_spec x 2147483648); lia.
Qed.

(** ** The keyboard ring *)

Section Ring.
Import Console KeyRing.

Lemma next_spec (i : Z) : 0 <= i < KeyBufSize -> next i = (i + 1) mod KeyBufSize.
Proof.
  unfold next, KeyBufSize. intros Hi.
  destruct (Z.eqb_spec (i + 1) 50) as [E | E].
  - rewrite E. reflexivity.
  - rewrite Z.mod_small; lia.
Qed.

Lemma next_range (i : Z) : 0 <= i < KeyBufSize -> 0 <= next i < KeyBufSize.
Proof.
  unfold next, KeyBufSize. intros Hi.
  destruct (Z.eqb_spec (i + 1) 50); lia.
Qed.

(** The index the producer and the consumer compute, wrap-around included. *)
Lemma advance_index (i : Z) :
  0 <= i < KeyBufSize ->
  to_u32 (if to_int (i + 1) =? KeyBufSize then 0 else to_int (i + 1)) = next i.
Proof.
  unfold KeyBufSize. intros Hi. rewrite to_int_small by lia.
  unfold next, KeyBufSize. destruct (Z.eqb_spec (i + 1) 50).
  - reflexivity.
  - apply to_u32_small. lia.
Qed.

Lemma length_ringFrom (ring : list Z) (n : nat) :
  forall out, length (ringFrom ring out n) = n.
Proof. induction n as [| n IH]; intros out; simpl; [reflexivity | now rewrite IH]. Qed.

Lemma ringFrom_snoc (ring : list Z) (n : nat) :
  forall out, 0 <= out < KeyBufSize ->
  ringFrom ring out (S n)
  = ringFrom ring out n
    ++ [nth (Z.to_nat ((out + Z.of_nat n) mod KeyBufSize)) ring 0].
Proof.
  induction n as [| n IH]; intros out Hout.
  - simpl. rewrite Z.add_0_r, Z.mod_small by exact Hout. reflexivity.
  - change (ringFrom ring out (S (S n)))
      with (nth (Z.to_nat out) ring 0 :: ringFrom ring (next out) (S n)).
    rewrite IH by (apply next_range; exact Hout).
    simpl ringFrom at 2. rewrite <- app_comm_cons. do 3 f_equal.
    rewrite next_spec by exact Hout. unfold KeyBufSize in *.
    rewrite Zplus_mod_idemp_l.
    replace (out + 1 + Z.of_nat n) with (out + Z.of_nat (S n)) by lia. reflexivity.
Qed.

Lemma ringFrom_insert (ring : list Z) (i v : Z) (n : nat) :
  0 <= i < KeyBufSize ->
  forall out, 0 <= out < KeyBufSize ->
  (forall j, 0 <= j < Z.of_nat n -> (out + j) mod KeyBufSize <> i) ->
  ringFrom (<[Z.to_nat i := v]> ring) out n = ringFrom ring out n.
Proof.
  intros Hi. induction n as [| n IH]; intros out Hout Hfree; [reflexivity |].
  simpl. f_equal.
  - rewrite !nth_lookup, list_lookup_insert_ne; [reflexivity |].
    specialize (Hfree 0 ltac:(lia)). rewrite Z.add_0_r, Z.mod_small in Hfree by exact Hout.
    lia.
  - apply IH; [apply next_range; exact Hout |].
    intros j Hj. rewrite next_spec by exact Hout. unfold KeyBufSize in *.
    rewrite Zplus_mod_idemp_l. replace (out + 1 + j) with (out + (j + 1)) by lia.
    apply Hfree. lia.
Qed.

Lemma occupancy_range (k : KeyBuf) : 0 <= occupancy k <= 49.
Proof.
  unfold occupancy, KeyBufSize.
  pose proof (Z.mod_pos_bound (keyIn k - keyOut k) 50 ltac:(lia)). lia.
Qed.

Lemma occupancy_zero (k : KeyBuf) : wf k -> (occupancy k = 0 <-> keyIn k = keyOut k).
Proof.
  unfold wf, occupancy, KeyBufSize. intros (Hin & Hout & _). split; intros E.
  - apply Z.mod_divide in E; [| lia]. destruct E as [q E]. lia.
  - rewrite E, Z.sub_diag. reflexivity.
Qed.

Lemma length_pending (k : KeyBuf) : Z.of_nat (length (pending k)) = occupancy k.
Proof.
  unfold pending. rewrite length_ringFrom.
  apply Z2Nat.id. apply occupancy_range.
Qed.

Lemma pending_nil (k : KeyBuf) : wf k -> (pending k = [] <-> keyIn k = keyOut k).
Proof.
  intros Hwf. rewrite <- occupancy_zero by exact Hwf.
  rewrite <- length_pending. destruct (pending k); simpl; split; intros E;
    try reflexivity; try discriminate; lia.
Qed.

Lemma full_spec (k : KeyBuf) :
  wf k -> (next (keyIn k) = keyOut k <-> occupancy k = 49).
Proof.
  unfold wf, occupancy. intros (Hin & Hout & _).
  rewrite next_spec by exact Hin. unfold KeyBufSize in *.
  split; intros E; Z.div_mod_to_equations; lia.
Qed.

(** [consoleQueueKey] on a ring that is not full appends the key. *)
Lemma queue_room (ch : Z) (k : KeyBuf) :
  wf k -> next (keyIn k) <> keyOut k ->
  let k' := consoleQueueKey ch k in
  wf k' /\ pending k' = pending k ++ [to_u8 ch] /\ keyloops k' = keyloops k.
Proof.
  intros Hwf Hroom. pose proof Hwf as (Hin & Hout & Hlen).
  unfold consoleQueueKey. rewrite advance_index by exact Hin.
  destruct (Z.eqb_spec (next (keyIn k)) (keyOut k)) as [E | _]; [contradiction |].
  cbn [negb]. cbv zeta. split; [| split]; [| | reflexivity].
  - unfold wf; cbn. rewrite length_insert. repeat split; try apply next_range; lia.
  - assert (Hocc : occupancy k <> 49) by (rewrite <- full_spec by exact Hwf; exact Hroom).
    pose proof (occupancy_range k) as Hr.
    unfold pending, occupancy in *; cbn [keyRing keyIn keyOut].
    rewrite next_spec by exact Hin. unfold KeyBufSize in *.
    replace (Z.to_nat (((keyIn k + 1) mod 50 - keyOut k) mod 50))
      with (S (Z.to_nat ((keyIn k - keyOut k) mod 50)))
      by (Z.div_mod_to_equations; lia).
    rewrite ringFrom_snoc by exact Hout. unfold KeyBufSize.
    rewrite ringFrom_insert; [| exact Hin | exact Hout |].
    + f_equal. f_equal. rewrite Z2Nat.id by lia.
      replace ((keyOut k + (keyIn k - keyOut k) mod 50) mod 50) with (keyIn k)
        by (Z.div_mod_to_equations; lia).
      rewrite nth_lookup, list_lookup_insert_eq by lia. reflexivity.
    + intros j Hj. rewrite Z2Nat.id in Hj by lia. unfold KeyBufSize.
      Z.div_mod_to_equations; lia.
Qed.

(** [consoleQueueKey] on a full ring changes nothing. *)
Lemma queue_full (ch : Z) (k : KeyBuf) :
  wf k -> next (keyIn k) = keyOut k -> consoleQueueKey ch k = k.
Proof.
  intros (Hin & _) Hfull. unfold consoleQueueKey.
  rewrite advance_index by exact Hin. rewrite Hfull, Z.eqb_refl. reflexivity.
Qed.

(** The head of a ring that holds a key. *)
Lemma pending_head (k : KeyBuf) :
  wf k -> keyIn k <> keyOut k ->
  pending k
  = nth (Z.to_nat (keyOut k)) (keyRing k) 0
    :: pending (mkKeyBuf (keyRing k) (keyIn k) (next (keyOut k)) (keyloops k)).
Proof.
  intros Hwf Hne. pose proof Hwf as (Hin & Hout & _).
  assert (Hocc : occupancy k <> 0) by (rewrite occupancy_zero by exact Hwf; exact Hne).
  pose proof (occupancy_range k) as Hr.
  unfold pending, occupancy in *; cbn [keyRing keyIn keyOut].
  rewrite next_spec by exact Hout. unfold KeyBufSize in *.
  replace (Z.to_nat ((keyIn k - keyOut k) mod 50))
    with (S (Z.to_nat ((keyIn k - (keyOut k + 1) mod 50) mod 50)))
    by (Z.div_mod_to_equations; lia).
  simpl ringFrom. rewrite next_spec by exact Hout. reflexivity.
Qed.

End Ring.

Section RingRuns.
Import Console KeyRing.

Lemma get_empty (k : KeyBuf) : keyIn k = keyOut k -> consoleGetKey k = (0, k).
Proof. intros E. unfold consoleGetKey. rewrite E, Z.eqb_refl. reflexivity. Qed.

Lemma get_nonempty (k : KeyBuf) :
  wf k -> keyIn k <> keyOut k ->
  consoleGetKey k
  = let c := to_u64 (keyloops k + 1) in
    if c mod 3 =? 1
    then (nth (Z.to_nat (keyOut k)) (keyRing k) 0,
          mkKeyBuf (keyRing k) (keyIn k) (next (keyOut k)) c)
    else (0, mkKeyBuf (keyRing k) (keyIn k) (keyOut k) c).
Proof.
  intros (_ & Hout & _) Hne. unfold consoleGetKey.
  destruct (Z.eqb_spec (keyIn k) (keyOut k)) as [E | _]; [contradiction |].
  cbv zeta. rewrite advance_index by exact Hout.
  destruct (to_u64 (keyloops k + 1) mod 3 =? 1); reflexivity.
Qed.

(** One call keeps the ring in step with the FIFO of the specification. *)
Lemma step_refines (k : KeyBuf) (q : Fifo) (o : KeyOp) :
  wf k -> pending k = queued q -> keyloops k = counter q ->
  wf (step k o) /\ pending (step k o) = queued (fifoStep q o)
  /\ keyloops (step k o) = counter (fifoStep q o).
Proof.
  intros Hwf Hq Hc. destruct o as [ch |]; simpl.
  - assert (Hlen : Z.of_nat (length (queued q)) = occupancy k)
      by (rewrite <- Hq; apply length_pending).
    destruct (Z.eq_dec (next (keyIn k)) (keyOut k)) as [Hfull | Hroom].
    + rewrite queue_full by assumption.
      apply full_spec in Hfull; [| exact Hwf].
      destruct (Nat.ltb_spec (length (queued q)) 49); [lia | split; [exact Hwf | split; assumption]].
    + destruct (queue_room ch k Hwf Hroom) as (Hwf' & Hp & Hl).
      assert (occupancy k <> 49) by (rewrite <- full_spec by exact Hwf; exact Hroom).
      pose proof (occupancy_range k).
      destruct (Nat.ltb_spec (length (queued q)) 49); [| lia].
      simpl. rewrite Hp, Hq, Hl. split; [exact Hwf' | split; congruence].
  - destruct (Z.eq_dec (keyIn k) (keyOut k)) as [Hempty | Hne].
    + rewrite get_empty by exact Hempty. simpl.
      apply pending_nil in Hempty; [| exact Hwf]. rewrite Hempty in Hq.
      rewrite <- Hq. split; [exact Hwf | split; congruence].
    + rewrite get_nonempty by assumption. cbv zeta.
      rewrite (pending_head k Hwf Hne) in Hq. destruct (queued q) as [| key rest] eqn:Eq;
        [discriminate |].
      injection Hq as Hkey Hrest. rewrite <- Hc.
      destruct Hwf as (Hin & Hout & Hlen).
      destruct (to_u64 (keyloops k + 1) mod 3 =? 1); simpl.
      * split; [| split]; [| exact Hrest | reflexivity].
        unfold wf; cbn. repeat split; try apply next_range; lia.
      * split; [| split]; [| | reflexivity].
        -- unfold wf; cbn. repeat split; lia.
        -- rewrite <- Eq. 
           change (pending (mkKeyBuf (keyRing k) (keyIn k) (keyOut k) (to_u64 (keyloops k + 1))))
             with (pending k).
           rewrite (pending_head k (conj Hin (conj Hout Hlen)) Hne). congruence.
Qed.

Lemma wf_keys0 : wf keys0.
Proof. unfold wf, keys0, KeyBufSize; cbn. repeat split; lia. Qed.

Lemma run_refines (ops : list KeyOp) :
  wf (run ops) /\ pending (run ops) = queued (fifoRun ops)
  /\ keyloops (run ops) = counter (fifoRun ops).
Proof.
  induction ops as [| o ops IH] using rev_ind.
  - split; [exact wf_keys0 | split; reflexivity].
  - unfold run, fifoRun in *. rewrite !fold_left_app. simpl.
    destruct IH as (Hwf & Hq & Hc). apply step_refines; assumption.
Qed.

End RingRuns.

Section RingClaims.
Import Console KeyRing.

(** C5: along every sequence of [consoleQueueKey] and [consoleGetKey] calls
    from the empty ring, the ring holds exactly the keys of the
    specification's FIFO; it is empty exactly when [keyIn == keyOut]; its
    occupancy [(keyIn - keyOut) mod 50] is the number of keys held and
    never exceeds 49; and a [consoleQueueKey] made when
    [(keyIn + 1) mod 50 == keyOut] leaves ring and indices unchanged. *)
Theorem keyboard_ring_invariant (ops : list KeyOp) :
  let k := run ops in
  pending k = queued (fifoRun ops)
  /\ (pending k = [] <-> keyIn k = keyOut k)
  /\ occupancy k = Z.of_nat (length (pending k))
  /\ occupancy k <= 49
  /\ (forall ch, (keyIn k + 1) mod KeyBufSize = keyOut k -> consoleQueueKey ch k = k).
Proof.
  intros k. destruct (run_refines ops) as (Hwf & Hq & _). fold k in Hwf, Hq.
  split; [exact Hq |]. split; [apply pending_nil; exact Hwf |].
  split; [symmetry; apply length_pending |].
  split; [apply occupancy_range |].
  intros ch Hfull. apply queue_full; [exact Hwf |].
  rewrite next_spec by apply Hwf. exact Hfull.
Qed.

(** C6 (as amended): on an empty ring [consoleGetKey] returns 0 and leaves
    the counter alone; on a ring that holds keys it increments the counter
    and, when the incremented counter is 1 modulo 3, returns the oldest
    queued key and advances [keyOut]; on the other such calls it returns 0
    and consumes nothing. *)
Theorem consoleGetKey_throttle (k : KeyBuf) :
  wf k ->
  let r := consoleGetKey k in
  let c := to_u64 (keyloops k + 1) in
  (pending k = [] -> r = (0, k))
  /\ (forall key rest, pending k = key :: rest ->
      keyloops (snd r) = c
      /\ keyRing (snd r) = keyRing k /\ keyIn (snd r) = keyIn k
      /\ (c mod 3 = 1 ->
          fst r = key /\ pending (snd r) = rest /\ keyOut (snd r) = next (keyOut k))
      /\ (c mod 3 <> 1 ->
          fst r = 0 /\ pending (snd r) = pending k /\ keyOut (snd r) = keyOut k)).
Proof.
  intros Hwf r c. split.
  - intros Hnil. apply get_empty. apply pending_nil; assumption.
  - intros key rest Hp.
    assert (Hne : keyIn k <> keyOut k).
    { intros E. apply pending_nil in E; [| exact Hwf]. congruence. }
    subst r. rewrite get_nonempty by assumption. cbv zeta. fold c.
    rewrite (pending_head k Hwf Hne) in Hp. injection Hp as Hkey Hrest.
    destruct (Z.eqb_spec (c mod 3) 1) as [E | E]; simpl.
    + repeat split; try assumption; try reflexivity; intros; try contradiction.
    + repeat split; try reflexivity; intros; try contradiction.
Qed.

Lemma consoleGetKey_throttle_witness :
  fst (consoleGetKey (consoleQueueKey 5 keys0)) = 5.
Proof.
  assert (Hwf : wf (consoleQueueKey 5 keys0)).
  { unfold wf, KeyBufSize. vm_compute. repeat split; discriminate. }
  destruct (consoleGetKey_throttle (consoleQueueKey 5 keys0) Hwf) as [_ H].
  destruct (H 5 [] eq_refl) as (_ & _ & _ & Hdeliver & _).
  apply Hdeliver. reflexivity.
Defined.

(** C6, as stated, fails: a call on the empty ring does not increment the
    counter, so the key queued after it is delivered by the very next call,
    which would be the second call of the counter. *)
Lemma consoleGetKey_counter_skips_empty_calls :
  keyloops (snd (consoleGetKey keys0)) = 0
  /\ fst (consoleGetKey (consoleQueueKey 5 (snd (consoleGetKey keys0)))) = 5.
Proof. split; reflexivity. Qed.

End RingClaims.

Section ConsoleFunc.
Import Console ConsoleSpec.
Context {F : Fonts}.

(** C10: [consoleFunc] empties the channel on every call; it declines
    exactly the codes it does not know, and then nothing but the full flag
    has changed: no other channel or device field, and [fcode] is not
    latched. *)
Theorem consoleFunc_empties_channel (funcCode : Z) (s : State) :
  let r := consoleFunc funcCode s in
  chFull (activeChannel (snd r)) = false
  /\ (fst r = FcDeclined <-> ~ In funcCode functionCodes)
  /\ (fst r = FcDeclined ->
      snd r = set_activeChannel (set_chFull false (activeChannel s)) s).
Proof.
  unfold consoleFunc, select, functionCodes. cbv zeta.
  repeat match goal with
         | |- context [if ?a =? ?b then _ else _] => destruct (Z.eqb_spec a b)
         end; simpl.
  all: repeat split; try discriminate; try (intros; reflexivity).
  all: try (intros Hn; exfalso; apply Hn; simpl; subst; tauto).
  intros _ Hin. simpl in Hin. intuition congruence.
Qed.

End ConsoleFunc.

(** ** Auto date *)

Section AutoDate.
Import Console KeyRing ConsoleSpec.
Context {C : Charset}.

Lemma occupancy_queue (ch : Z) (k : KeyBuf) :
  wf k -> occupancy k < 49 ->
  wf (consoleQueueKey ch k)
  /\ pending (consoleQueueKey ch k) = pending k ++ [to_u8 ch]
  /\ occupancy (consoleQueueKey ch k) = occupancy k + 1.
Proof.
  intros Hwf Hocc.
  assert (Hroom : next (keyIn k) <> keyOut k).
  { intros E. apply full_spec in E; [lia | exact Hwf]. }
  destruct (queue_room ch k Hwf Hroom) as (Hwf' & Hp & _).
  split; [exact Hwf' | split; [exact Hp |]].
  rewrite <- !length_pending, Hp, length_app. simpl. lia.
Qed.

Lemma queueText_pending (text : list Z) :
  forall k, wf k -> occupancy k + Z.of_nat (length text) <= 49 ->
  pending (queueText text k)
  = pending k ++ map (fun c => to_u8 (asciiToConsole c)) text.
Proof.
  unfold queueText. induction text as [| c text IH]; intros k Hwf Hfit; simpl.
  - now rewrite app_nil_r.
  - simpl in Hfit.
    destruct (occupancy_queue (asciiToConsole c) k Hwf ltac:(lia)) as (Hwf' & Hp & Hocc).
    rewrite IH by (try assumption; lia). rewrite Hp, <- app_assoc. reflexivity.
Qed.

(** With a year of two characters the typed-ahead text is the whole
    fourteen-character answer. *)
Lemma autoDateText_full (year : list Z) (t : Tm) :
  strAt year 0 <> 0 -> strAt year 1 <> 0 ->
  autoDateText year t = strAt year 0 :: strAt year 1 :: drop 2 (strftime t).
Proof.
  intros H0 H1. unfold autoDateText, strftime, two_digits. simpl.
  repeat match goal with
         | |- context [?a mod 10] =>
             lazymatch goal with
             | _ : 0 <= a mod 10 < 10 |- _ => fail
             | _ => pose proof (Z.mod_pos_bound a 10 ltac:(lia))
             end
         end.
  repeat match goal with
         | |- context [if ?a =? 0 then _ else _] =>
             destruct (Z.eqb_spec a 0); [lia |]
         end.
  reflexivity.
Qed.


(** C7 (as amended): with [autoDate] enabled, a word drained in medium
    font is compared with the two pattern characters at [autoPos].  When
    they match and end the pattern while the ring is empty, [autoDate] is
    disabled and the ring receives the [asciiToConsole] keycode of every
    character of "YYMMDD\nHHMMSS\n", YY being the two characters of
    [autoYearString]; a match short of the end advances [autoPos] by 2; a
    mismatch resets [autoPos] to 0. *)
Theorem autodate_word (t : Tm) (typed : option Z) (s : State) :
  autoDate (auto s) = true ->
  chFull (activeChannel s) = true ->
  mediumFont s = true ->
  let s' := consoleIo t typed s in
  let year := autoYearString (auto s) in
  (wordMatches s = true -> patternEnds s = true ->
   wf (keys s) -> keyIn (keys s) = keyOut (keys s) ->
   strAt year 0 <> 0 -> strAt year 1 <> 0 ->
   autoDate (auto s') = false
   /\ pending (keys s')
      = map (fun c => to_u8 (asciiToConsole c))
            (strAt year 0 :: strAt year 1 :: drop 2 (strftime t)))
  /\ (wordMatches s = true -> patternEnds s = false ->
      autoPos (auto s') = autoPos (auto s) + 2
      /\ autoDate (auto s') = true /\ keys s' = keys s)
  /\ (wordMatches s = false ->
      autoPos (auto s') = 0 /\ autoDate (auto s') = true /\ keys s' = keys s).
Proof.
  intros Hon Hfull Hmed s' year.
  assert (Hsel : isCharSelect (fcode s) = true).
  { unfold mediumFont in Hmed. unfold isCharSelect.
    destruct (fcode s =? Fc6612Sel32CharLeft), (fcode s =? Fc6612Sel32CharRight);
      try discriminate; repeat rewrite orb_true_r; reflexivity. }
  assert (Hs' : exists w,
    s' = set_activeChannel (set_chFull false (activeChannel (autoDateCheck t w)))
           (autoDateCheck t w)
    /\ fcode w = fcode s /\ auto w = auto s /\ keys w = keys s
    /\ chData (activeChannel w) = chData (activeChannel s)).
  { subst s'. unfold consoleIo. rewrite Hsel, Hfull. cbv zeta.
    repeat match goal with
           | |- context [if ?a <=? ?b then _ else _] => destruct (a <=? b)
           end;
      cbn [auto call set_emptyDrop]; rewrite Hon; eexists; (split; [reflexivity |]);
      repeat split. }
  destruct Hs' as (w & -> & Hfc & Hauto & Hkeys & Hdata).
  assert (Hcond : ((fcode w =? Fc6612Sel32CharLeft) || (fcode w =? Fc6612Sel32CharRight))
            && (Z.land (Z.shiftr (chData (activeChannel w)) 6) Mask6
                =? asciiToCdc (to_u8 (strAt (autoDateString (auto w)) (autoPos (auto w)))))
            && (Z.land (chData (activeChannel w)) Mask6
                =? asciiToCdc (to_u8 (strAt (autoDateString (auto w)) (autoPos (auto w) + 1))))
          = wordMatches s).
  { rewrite Hfc, Hauto, Hdata. unfold mediumFont in Hmed. rewrite Hmed.
    unfold wordMatches. reflexivity. }
  unfold autoDateCheck. cbv zeta. rewrite Hcond.
  assert (Hend : (strAt (autoDateString (auto w)) (autoPos (auto w) + 1) =? 0)
                 || (strAt (autoDateString (auto w)) (autoPos (auto w) + 2) =? 0)
                 = patternEnds s).
  { rewrite Hauto. reflexivity. }
  rewrite Hend. split; [| split].
  - intros -> -> Hwf Hempty Hy0 Hy1.
    cbn [keys set_auto auto set_autoDate autoDate set_activeChannel].
    rewrite Hkeys, Hempty, Z.eqb_refl. cbn [auto set_keys keys autoDate set_auto set_autoDate].
    split; [reflexivity |].
    rewrite queueText_pending; [| exact Hwf |].
    + rewrite Hauto. fold year. rewrite autoDateText_full by assumption.
      replace (pending (keys s)) with (@nil Z); [reflexivity |].
      symmetry. apply pending_nil; assumption.
    + rewrite Hauto. fold year. rewrite autoDateText_full by assumption.
      replace (occupancy (keys s)) with 0.
      * simpl. unfold strftime. simpl. lia.
      * symmetry. apply occupancy_zero; assumption.
  - intros -> ->. cbn. rewrite Hauto, Hkeys, Hon. repeat split.
  - intros ->. cbn. rewrite Hauto, Hkeys, Hon. repeat split.
Qed.

End AutoDate.

Section AutoDateRuns.
Import Console KeyRing ConsoleSpec.

Lemma autodate_word_witness :
  let s' := consoleIo (C := Sample.charset) Sample.noon None
              (Sample.console [65; 66] [55; 48] 66) in
  autoDate (auto s') = false
  /\ pending (keys s')
     = map Sample.keyCode [55; 48; 49; 49; 48; 50; 10; 49; 50; 51; 52; 53; 54; 10].
Proof.
  pose proof (autodate_word (C := Sample.charset) Sample.noon None
                (Sample.console [65; 66] [55; 48] 66)
                eq_refl eq_refl eq_refl) as [Hdone _].
  apply Hdone; try reflexivity; try discriminate.
  exact wf_keys0.
Defined.

(** C7, as stated, fails.  The ring receives keycodes, not the bytes of
    the text: with display-code tables the answer to the pattern "AB" in
    the year "70" starts with the keycodes 042 and 033 and not with the
    bytes ['7'] and ['0'].  And with the one-character year "7" the text
    ends at the NUL copied over its second character, so a single key is
    queued. *)
Lemma autodate_queues_keycodes_of_cut_text :
  pending (keys (consoleIo (C := Sample.charset) Sample.noon None
                   (Sample.console [65; 66] [55; 48] 66)))
  = [34; 27; 28; 28; 27; 29; 48; 28; 29; 30; 31; 32; 33; 48]
  /\ pending (keys (consoleIo (C := Sample.charset) Sample.noon None
                      (Sample.console [65; 66] [55] 66)))
     = [34].
Proof. split; reflexivity. Qed.

End AutoDateRuns.

(** ** Flag words of the 3000-series printers *)

Lemma has_flag_bit (f : Z) (n : Z) :
  0 <= n -> has_flag f (2 ^ n) = Z.testbit f n.
Proof.
  intros Hn. unfold has_flag.
  destruct (Z.testbit f n) eqn:Hb.
  - destruct (Z.eqb_spec (Z.land f (2 ^ n)) 0) as [E | _]; [| reflexivity].
    apply (f_equal (fun z => Z.testbit z n)) in E.
    rewrite Z.land_spec, Hb, Z.pow2_bits_true, Z.bits_0 in E by exact Hn. discriminate.
  - replace (Z.land f (2 ^ n)) with 0; [reflexivity |].
    symmetry. apply Z.bits_inj'. intros m Hm.
    rewrite Z.land_spec, Z.bits_0, Z.pow2_bits_eqb by exact Hn.
    destruct (Z.eqb_spec n m) as [-> | _]; [rewrite Hb |]; auto using andb_false_r.
Qed.

Lemma has_IntReady (f : Z) : has_flag f Lp3000.Lp3000IntReady = Z.testbit f 7.
Proof. apply (has_flag_bit f 7). lia. Qed.
Lemma has_IntEnd (f : Z) : has_flag f Lp3000.Lp3000IntEnd = Z.testbit f 8.
Proof. apply (has_flag_bit f 8). lia. Qed.
Lemma has_IntReadyEna (f : Z) : has_flag f Lp3000.Lp3000IntReadyEna = Z.testbit f 10.
Proof. apply (has_flag_bit f 10). lia. Qed.
Lemma has_IntEndEna (f : Z) : has_flag f Lp3000.Lp3000IntEndEna = Z.testbit f 11.
Proof. apply (has_flag_bit f 11). lia. Qed.

Section Flags.
Import Lp3000 Lp3000Spec.

(** The invariant, bit by bit. *)
Lemma latchedOnlyEnabled_bits (f : Z) :
  latchedOnlyEnabled f
  = implb (Z.testbit f 7) (Z.testbit f 10) && implb (Z.testbit f 8) (Z.testbit f 11).
Proof.
  unfold latchedOnlyEnabled.
  now rewrite has_IntReady, has_IntEnd, has_IntReadyEna, has_IntEndEna.
Qed.

Lemma inv_clear_latched (f : Z) :
  latchedOnlyEnabled f = true ->
  latchedOnlyEnabled (Z.land f (Z.lnot (Z.lor StPrintIntReady StPrintIntEnd))) = true.
Proof.
  rewrite !latchedOnlyEnabled_bits. flag_bits. intros _. reflexivity.
Qed.

Lemma inv_fill (f : Z) :
  latchedOnlyEnabled f = true ->
  latchedOnlyEnabled (Z.lor f Lp3555FillImageMem) = true.
Proof. rewrite !latchedOnlyEnabled_bits. flag_bits. auto. Qed.

End Flags.

(** ** The interrupt invariant *)

Section Interrupts.
Import Lp3000 Lp3000Spec.
Context {D : Dcc6681} {L : Limits} {C : Charset}.

Lemma lc_emit (text : list Z) (s : State) : lc (emit text s) = lc s.
Proof. unfold emit. destruct (fcb s); reflexivity. Qed.

Lemma lc_removePaper (spawnApp : bool) (env : PaperEnv) (params : Scanned) (s : State) :
  lc (lp3000RemovePaper spawnApp env params s) = lc s.
Proof.
  unfold lp3000RemovePaper.
  destruct (negb (numParam params =? 2)); [reflexivity |].
  destruct (_ || _); [reflexivity |].
  destruct (_ || _); [reflexivity |].
  destruct (negb _); [reflexivity |].
  destruct (fcb s) as [f |]; [| reflexivity]. cbv zeta.
  destruct (ftell (fflush f) =? 0); [reflexivity |].
  destruct (renameLoop _ _ _ _ _ _ _ _ _) as [fnameNew h].
  destruct (reopenOk env); reflexivity.
Qed.

Lemma inv_selInt (int ena : Z) (s : State) :
  (int = Lp3000IntReady /\ ena = Lp3000IntReadyEna)
  \/ (int = Lp3000IntEnd /\ ena = Lp3000IntEndEna) ->
  inv s -> inv (snd (selInt int ena s)).
Proof.
  unfold selInt. cbv zeta. cbn [snd lc dcc6681Interrupt set_lc set_flags keepInt flags].
  intros [[-> ->] | [-> ->]]; destruct (keepInt (lc s));
    cbn [flags set_keepInt set_flags]; rewrite !latchedOnlyEnabled_bits; flag_bits;
    destruct (Z.testbit (flags (lc s)) 7), (Z.testbit (flags (lc s)) 8),
      (Z.testbit (flags (lc s)) 10), (Z.testbit (flags (lc s)) 11);
    simpl; auto.
Qed.

Lemma inv_relInt (int ena : Z) (s : State) :
  (int = Lp3000IntReady /\ ena = Lp3000IntReadyEna)
  \/ (int = Lp3000IntEnd /\ ena = Lp3000IntEndEna) ->
  inv s -> inv (snd (relInt int ena s)).
Proof.
  unfold relInt. cbv zeta. cbn [snd lc dcc6681Interrupt set_lc set_flags flags].
  intros [[-> ->] | [-> ->]]; rewrite !latchedOnlyEnabled_bits; flag_bits;
    destruct (Z.testbit (flags (lc s)) 7), (Z.testbit (flags (lc s)) 8),
      (Z.testbit (flags (lc s)) 10), (Z.testbit (flags (lc s)) 11);
    simpl; auto.
Qed.

Lemma inv_output (funcCode : Z) (s : State) : inv (snd (output funcCode s)).
Proof.
  unfold output. cbv zeta.
  destruct (has_flag (flags (lc s)) Lp3555FillImageMem);
    cbn [flags set_flags]; rewrite !has_IntReadyEna, !has_IntEndEna.
  all: repeat case_if; cbn [snd lc set_fcode dcc6681Interrupt set_lc flags set_flags];
    rewrite !latchedOnlyEnabled_bits.
  all: repeat match goal with
              | Hb : Z.testbit _ _ = _ |- _ => revert Hb
              end; cbn [flags set_flags]; flag_bits.
  all: destruct (Z.testbit (flags (lc s)) 7), (Z.testbit (flags (lc s)) 8),
      (Z.testbit (flags (lc s)) 10), (Z.testbit (flags (lc s)) 11);
    simpl; auto; try discriminate.
Qed.

Lemma inv_release (spawnApp : bool) (env : PaperEnv) (s : State) :
  inv s -> inv (snd (release spawnApp env s)).
Proof.
  intros Hs. unfold release. cbv zeta. destruct (printed (lc s)).
  - cbn [snd lc set_lc]. rewrite lc_removePaper. cbn. apply inv_clear_latched, Hs.
  - cbn. apply inv_clear_latched, Hs.
Qed.

Lemma inv_func3555 (funcCode : Z) (s : State) :
  inv s -> inv (snd (func3555 funcCode s)).
Proof.
  intros Hs. unfold func3555. cbv zeta.
  repeat case_if; cbn [snd lc set_lc set_host]; try exact Hs;
    try (apply inv_selInt; [tauto | exact Hs]);
    try (apply inv_relInt; [tauto | exact Hs]).
  cbn. apply inv_fill, Hs.
Qed.

Lemma inv_func3152 (funcCode : Z) (s : State) :
  inv s -> inv (snd (func3152 funcCode s)).
Proof.
  intros Hs. unfold func3152. cbv zeta.
  repeat case_if; cbn [snd lc set_lc set_host]; try exact Hs;
    try (apply inv_selInt; [tauto | exact Hs]);
    try (apply inv_relInt; [tauto | exact Hs]).
Qed.

Lemma flags_space (opt : Z) (a b : list Z) (n : Z) (s : State) :
  flags (lc (snd (space opt a b n s))) = flags (lc s).
Proof.
  unfold space, advance. cbv zeta. cbn [lc set_lc extuseANSI set_extspaceopt extpostprint].
  repeat case_if; cbn [snd lc set_lc]; try rewrite lc_emit; reflexivity.
Qed.

Lemma inv_func (spawnApp : bool) (env : PaperEnv) (funcCode : Z) (s : State) :
  inv s -> inv (snd (lp3000Func spawnApp env funcCode s)).
Proof.
  intros Hs. unfold lp3000Func. destruct (fcb s); [| exact Hs]. cbv zeta.
  repeat match goal with
         | |- context [if ?a =? ?b then _ else _] => destruct (a =? b)
         end;
    try (rewrite flags_space; exact Hs);
    try (apply inv_release; exact Hs);
    try apply inv_output;
    try (unfold advance; cbn [snd lc set_lc]; rewrite ?lc_emit; exact Hs).
  destruct (has_flag (flags (lc s)) Lp3000Type3555);
    [apply inv_func3555 | apply inv_func3152]; exact Hs.
Qed.

Lemma flags_io (s : State) : flags (lc (lp3000Io s)) = flags (lc s).
Proof.
  unfold lp3000Io. destruct (fcb s); [| reflexivity]. cbv zeta.
  repeat case_if; cbn [lc set_lc set_activeChannel set_fcode flags set_keepInt set_printed];
    rewrite ?lc_emit; reflexivity.
Qed.

Lemma flags_disconnect (s : State) : flags (lc (lp3000Disconnect s)) = flags (lc s).
Proof.
  unfold lp3000Disconnect, advance. destruct (fcb s); [| reflexivity]. cbv zeta.
  repeat case_if;
    cbn [lc set_lc set_fcode flags set_extsuppress set_extspaceopt set_extcurline];
    rewrite ?lc_emit; reflexivity.
Qed.

Lemma inv_step (s : State) (o : Op) : inv s -> inv (step s o).
Proof.
  intros Hs. destruct o; simpl.
  - apply inv_func, Hs.
  - rewrite flags_io. exact Hs.
  - exact Hs.
  - rewrite flags_disconnect. exact Hs.
  - exact Hs.
  - rewrite lc_removePaper. exact Hs.
Qed.

Lemma inv_run (ops : list Op) : forall s, inv s -> inv (run ops s).
Proof.
  unfold run. induction ops as [| o ops IH]; intros s Hs; simpl; [exact Hs |].
  apply IH, inv_step, Hs.
Qed.

Lemma inv_init (is512 : bool) (eqNo unitNo channelNo : Z)
    (devicePath deviceType : option string) (useANSI openOk : bool) (s0 : State) :
  (if is512
   then lp512Init eqNo unitNo channelNo devicePath deviceType useANSI openOk
   else lp501Init eqNo unitNo channelNo devicePath deviceType useANSI openOk)
  = Some s0 ->
  inv s0.
Proof.
  unfold lp512Init, lp501Init, controllerFlag, lp3000Init.
  destruct is512, deviceType as [t |], openOk; repeat case_if;
    intros E; try discriminate; injection E as <-; reflexivity.
Qed.

End Interrupts.

(** ** Function codes and disconnect of the 3000-series printers *)

Section Lp3000Claims.
Import Lp3000 Lp3000Spec.
Context {D : Dcc6681} {L : Limits}.

Lemma codesApart_spec :
  codesApart = true ->
  63 < Fc6681Output /\ 63 < Fc6681DevStatusReq /\ 63 < Fc6681MasterClear
  /\ Fc6681Output <> Fc6681DevStatusReq /\ Fc6681Output + 1 <> Fc6681DevStatusReq
  /\ Fc6681Output <> Fc6681MasterClear /\ Fc6681DevStatusReq <> Fc6681MasterClear.
Proof.
  unfold codesApart. rewrite !andb_true_iff, !negb_true_iff, !Z.ltb_lt, !Z.eqb_neq.
  change (oct 77) with 63. tauto.
Qed.

Lemma func_single (spawnApp : bool) (env : PaperEnv) (s : State) (f : Stream) :
  codesApart = true -> fcb s = Some f ->
  lp3000Func spawnApp env FcPrintSingle s = space FcPrintSingle [10; 32] [10] 1 s.
Proof.
  intros Hc Hf. apply codesApart_spec in Hc. unfold lp3000Func. rewrite Hf. cbv zeta.
  unfold FcPrintSingle, FcPrintNoSpace, FcPrintAutoEject, FcPrintRelease. decode.
  reflexivity.
Qed.

Lemma func_double (spawnApp : bool) (env : PaperEnv) (s : State) (f : Stream) :
  codesApart = true -> fcb s = Some f ->
  lp3000Func spawnApp env FcPrintDouble s = space FcPrintDouble [10; 48] [10; 10] 2 s.
Proof.
  intros Hc Hf. apply codesApart_spec in Hc. unfold lp3000Func. rewrite Hf. cbv zeta.
  unfold FcPrintDouble, FcPrintSingle, FcPrintNoSpace, FcPrintAutoEject, FcPrintRelease,
    FcPrintLastLine, FcPrintEject.
  decode. reflexivity.
Qed.

(** C1 (as amended): with the capture file open, Single and Double are
    Processed and remember the spacing option.  In ANSI mode they write
    nothing at func time when postprint is active and terminate the line at
    once ("\\n " or "\\n0", [curLine] advanced by 1 or 2) when preprint is
    active; in ASCII mode they write "\\n" or "\\n\\n" at func time in
    either mode. *)
Theorem space_codes_at_func_time (spawnApp : bool) (env : PaperEnv)
    (s : State) (f : Stream) :
  codesApart = true -> fcb s = Some f ->
  let single := lp3000Func spawnApp env FcPrintSingle s in
  let double := lp3000Func spawnApp env FcPrintDouble s in
  let cur := extcurline (lc s) in
  fst single = FcProcessed /\ fst double = FcProcessed
  /\ extspaceopt (lc (snd single)) = FcPrintSingle
  /\ extspaceopt (lc (snd double)) = FcPrintDouble
  /\ (extuseANSI (lc s) = true -> extpostprint (lc s) = true ->
      fcb (snd single) = Some f /\ extcurline (lc (snd single)) = cur
      /\ fcb (snd double) = Some f /\ extcurline (lc (snd double)) = cur)
  /\ (extuseANSI (lc s) = true -> extpostprint (lc s) = false ->
      fcb (snd single) = Some (fputs [10; 32] f)
      /\ extcurline (lc (snd single)) = to_u8 (cur + 1)
      /\ fcb (snd double) = Some (fputs [10; 48] f)
      /\ extcurline (lc (snd double)) = to_u8 (cur + 2))
  /\ (extuseANSI (lc s) = false ->
      fcb (snd single) = Some (fputs [10] f)
      /\ extcurline (lc (snd single)) = to_u8 (cur + 1)
      /\ fcb (snd double) = Some (fputs [10; 10] f)
      /\ extcurline (lc (snd double)) = to_u8 (cur + 2)).
Proof.
  intros Hc Hf single double cur. subst single double cur.
  rewrite (func_single spawnApp env s f Hc Hf), (func_double spawnApp env s f Hc Hf).
  unfold space, advance, emit. cbv zeta.
  cbn [lc set_lc extuseANSI set_extspaceopt extpostprint fcb].
  rewrite Hf.
  destruct (extuseANSI (lc s)), (extpostprint (lc s)); cbn;
    repeat split; intros; try discriminate; try assumption; reflexivity.
Qed.

(** C2: with the capture file open, a disconnect after Output writes
    "\\r" or "\\n+" and clears the suppression when [suppressNext] is set;
    otherwise in postprint mode it writes the spacing of [spaceOpt] and
    resets it to Single; otherwise it writes a tab.  A disconnect whose
    latched code is not Output changes nothing. *)
Theorem disconnect_after_output (s : State) (f : Stream) :
  fcb s = Some f ->
  let s' := lp3000Disconnect s in
  let ansi := extuseANSI (lc s) in
  (fcode s = Fc6681Output ->
   (extsuppress (lc s) = true ->
    fcb s' = Some (fputs (if ansi then [10; 43] else [13]) f)
    /\ extsuppress (lc s') = false)
   /\ (extsuppress (lc s) = false -> extpostprint (lc s) = true ->
       (extspaceopt (lc s) = FcPrintSingle ->
        fcb s' = Some (fputs (if ansi then [10; 32] else [10]) f))
       /\ (extspaceopt (lc s) = FcPrintDouble ->
           fcb s' = Some (fputs (if ansi then [10; 48] else [10; 10]) f))
       /\ extspaceopt (lc s') = FcPrintSingle)
   /\ (extsuppress (lc s) = false -> extpostprint (lc s) = false ->
       fcb s' = Some (fputc 9 f)))
  /\ (fcode s <> Fc6681Output -> s' = s).
Proof.
  intros Hf s' ansi. subst s' ansi. unfold lp3000Disconnect. rewrite Hf. cbv zeta.
  split.
  - intros ->. rewrite Z.eqb_refl. unfold advance, emit. rewrite Hf.
    split; [| split].
    + intros ->. cbn. split; reflexivity.
    + intros -> ->. split; [| split].
      * intros ->. reflexivity.
      * intros ->. reflexivity.
      * destruct (extspaceopt (lc s) =? FcPrintDouble); reflexivity.
    + intros -> ->. reflexivity.
  - intros Hne. destruct (Z.eqb_spec (fcode s) Fc6681Output); [contradiction | reflexivity].
Qed.

Lemma func_selInt (spawnApp : bool) (env : PaperEnv) (is3555 : bool) (int : Z)
    (s : State) (f : Stream) :
  codesApart = true -> fcb s = Some f ->
  has_flag (flags (lc s)) Lp3000Type3555 = is3555 ->
  int = Lp3000IntReady \/ int = Lp3000IntEnd ->
  lp3000Func spawnApp env (selCode is3555 int) s = selInt int (enaOf int) s
  /\ lp3000Func spawnApp env (relCode is3555 int) s = relInt int (enaOf int) s.
Proof.
  intros Hc Hf Hctl Hint. apply codesApart_spec in Hc. unfold lp3000Func. rewrite Hf, Hctl.
  cbv zeta. unfold FcPrintDouble, FcPrintSingle, FcPrintNoSpace, FcPrintAutoEject,
    FcPrintRelease, FcPrintLastLine, FcPrintEject.
  destruct is3555, Hint as [-> | ->]; cbn [selCode relCode enaOf];
    change (Lp3000IntReady =? Lp3000IntReady) with true;
    change (Lp3000IntEnd =? Lp3000IntReady) with false; cbv iota;
    unfold Fc3555SelIntReady, Fc3555RelIntReady, Fc3555SelIntEnd, Fc3555RelIntEnd,
      Fc3152SelIntReady, Fc3152RelIntReady, Fc3152SelIntEnd, Fc3152RelIntEnd;
    split; decode; reflexivity.
Qed.

(** C4 (as amended): with the capture file open, SelIntReady and SelIntEnd
    of either controller set the enable bit; when [keepInt] is true the
    latched bit is set and [keepInt] is cleared, otherwise the latched bit
    is cleared.  RelIntReady and RelIntEnd clear the enable and the latched
    bit.  All four report the interrupt summary of the new flags to the
    converter and return Processed. *)
Theorem interrupt_select_release (spawnApp : bool) (env : PaperEnv)
    (is3555 : bool) (int : Z) (s : State) (f : Stream) :
  codesApart = true -> fcb s = Some f ->
  has_flag (flags (lc s)) Lp3000Type3555 = is3555 ->
  int = Lp3000IntReady \/ int = Lp3000IntEnd ->
  let sel := lp3000Func spawnApp env (selCode is3555 int) s in
  let rel := lp3000Func spawnApp env (relCode is3555 int) s in
  (fst sel = FcProcessed
   /\ has_flag (flags (lc (snd sel))) (enaOf int) = true
   /\ has_flag (flags (lc (snd sel))) int = keepInt (lc s)
   /\ keepInt (lc (snd sel)) = false
   /\ interrupts (snd sel) = interrupts s ++ [summary (lc (snd sel))])
  /\ (fst rel = FcProcessed
      /\ has_flag (flags (lc (snd rel))) (enaOf int) = false
      /\ has_flag (flags (lc (snd rel))) int = false
      /\ keepInt (lc (snd rel)) = keepInt (lc s)
      /\ interrupts (snd rel) = interrupts s ++ [summary (lc (snd rel))]).
Proof.
  intros Hc Hf Hctl Hint sel rel. subst sel rel.
  destruct (func_selInt spawnApp env is3555 int s f Hc Hf Hctl Hint) as [-> ->].
  unfold selInt, relInt. cbv zeta.
  cbn [fst snd lc set_lc dcc6681Interrupt interrupts keepInt set_flags flags].
  destruct Hint as [-> | ->]; cbn [enaOf];
    change (Lp3000IntReady =? Lp3000IntReady) with true;
    change (Lp3000IntEnd =? Lp3000IntReady) with false; cbv iota;
    destruct (keepInt (lc s)) eqn:Hk; cbn [flags set_keepInt set_flags keepInt];
    rewrite ?Hk, ?has_IntReady, ?has_IntEnd, ?has_IntReadyEna, ?has_IntEndEna;
    flag_bits; repeat split.
Qed.

End Lp3000Claims.

Section StatusReply.
Import Lp3000 Lp3000Spec.
Context {D : Dcc6681} {L : Limits} {C : Charset}.

(** C3: in every state reached from an initialised printer by func, io,
    activate and disconnect callbacks, channel traffic and paper removals,
    a latched interrupt bit is set only while its enable bit is set; hence
    the reply to DevStatusReq shows IntReady or IntEnd only while the
    paired enable is on. *)
Theorem latched_interrupts_need_enable (is512 : bool) (eqNo unitNo channelNo : Z)
    (devicePath deviceType : option string) (useANSI openOk : bool)
    (s0 : State) (ops : list Op) :
  codesApart = true ->
  (if is512
   then lp512Init eqNo unitNo channelNo devicePath deviceType useANSI openOk
   else lp501Init eqNo unitNo channelNo devicePath deviceType useANSI openOk)
  = Some s0 ->
  let s := run ops s0 in
  latchedOnlyEnabled (flags (lc s)) = true
  /\ (fcode s = Fc6681DevStatusReq -> fcb s <> None ->
      let reply := chData (activeChannel (lp3000Io s)) in
      reply = Z.lor StPrintReady
                (Z.land (flags (lc s)) (Z.lor StPrintIntReady StPrintIntEnd))
      /\ implb (has_flag reply StPrintIntReady)
               (has_flag (flags (lc s)) Lp3000IntReadyEna) = true
      /\ implb (has_flag reply StPrintIntEnd)
               (has_flag (flags (lc s)) Lp3000IntEndEna) = true).
Proof.
  intros Hc Hinit s.
  assert (Hinv : latchedOnlyEnabled (flags (lc s)) = true).
  { apply inv_run. eapply inv_init. exact Hinit. }
  split; [exact Hinv |]. intros Hfc Hopen reply.
  assert (Hreply : reply = Z.lor StPrintReady
                     (Z.land (flags (lc s)) (Z.lor StPrintIntReady StPrintIntEnd))).
  { subst reply. unfold lp3000Io. destruct (fcb s); [| contradiction]. cbv zeta.
    apply codesApart_spec in Hc. rewrite Hfc.
    destruct (Z.eqb_spec Fc6681DevStatusReq Fc6681Output); [lia |].
    destruct (Z.eqb_spec Fc6681DevStatusReq (Fc6681Output + 1)); [lia |].
    rewrite Z.eqb_refl. reflexivity. }
  split; [exact Hreply |]. rewrite Hreply.
  rewrite latchedOnlyEnabled_bits in Hinv.
  change StPrintIntReady with Lp3000IntReady. change StPrintIntEnd with Lp3000IntEnd.
  rewrite has_IntReady, has_IntEnd, has_IntReadyEna, has_IntEndEna.
  flag_bits.
  destruct (Z.testbit (flags (lc s)) 7), (Z.testbit (flags (lc s)) 8),
    (Z.testbit (flags (lc s)) 10), (Z.testbit (flags (lc s)) 11);
    simpl in *; split; congruence.
Qed.

End StatusReply.

Section Lp3000Runs.
Import Lp3000 Lp3000Spec.
#[local] Existing Instance Sample.dcc6681.
#[local] Existing Instance Sample.limits.
#[local] Existing Instance Sample.charset.

Lemma space_codes_at_func_time_witness :
  exists s0, Sample.lp501 true = Some s0
  /\ paper (snd (lp3000Func false Sample.env FcPrintSingle s0)) = Some [].
Proof.
  eexists. split; [reflexivity |].
  match goal with
  | |- paper (snd (lp3000Func _ _ _ ?s0)) = _ =>
      pose proof (space_codes_at_func_time false Sample.env s0 fopen_w eq_refl eq_refl)
        as (_ & _ & _ & _ & Hpost & _)
  end.
  destruct (Hpost eq_refl eq_refl) as [Hfile _].
  unfold paper. rewrite Hfile. reflexivity.
Defined.

(** C1, as stated, fails in ASCII mode: a freshly initialised printer is
    in postprint mode with an empty capture file, and Single and Double
    write their newlines at func time. *)
Lemma space_codes_write_at_once_in_ascii :
  exists s0, Sample.lp501 false = Some s0
  /\ extpostprint (lc s0) = true /\ paper s0 = Some []
  /\ paper (snd (lp3000Func false Sample.env FcPrintSingle s0)) = Some [10]
  /\ paper (snd (lp3000Func false Sample.env FcPrintDouble s0)) = Some [10; 10].
Proof. eexists. repeat split. Qed.

Lemma disconnect_after_output_witness :
  exists s0, Sample.lp501 false = Some s0
  /\ paper (lp3000Disconnect (snd (lp3000Func false Sample.env Fc6681Output s0)))
     = Some [10].
Proof.
  eexists. split; [reflexivity |].
  match goal with
  | |- paper (lp3000Disconnect ?s1) = _ =>
      pose proof (disconnect_after_output s1 fopen_w eq_refl) as [Hout _]
  end.
  destruct (Hout eq_refl) as (_ & Hpost & _).
  destruct (Hpost eq_refl eq_refl) as (Hsingle & _).
  unfold paper. rewrite (Hsingle eq_refl). reflexivity.
Defined.

Lemma latched_interrupts_need_enable_witness :
  exists s0, Sample.lp501 false = Some s0
  /\ latchedOnlyEnabled
       (flags (lc (run [opFunc false Sample.env Fc3555SelIntReady;
                        opFunc false Sample.env Fc6681Output;
                        opChannel 66 true; opIo; opDisconnect;
                        opFunc false Sample.env Fc6681DevStatusReq] s0))) = true.
Proof.
  eexists. split; [reflexivity |].
  match goal with
  | |- latchedOnlyEnabled (flags (lc (run ?ops ?s0))) = true =>
      pose proof (latched_interrupts_need_enable (D := Sample.dcc6681) false 0 0 8
                    None None false true s0 ops eq_refl eq_refl) as [Hinv _]
  end.
  exact Hinv.
Defined.

Lemma interrupt_select_release_witness :
  exists s0, Sample.lp501 false = Some s0
  /\ has_flag (flags (lc (snd (lp3000Func false Sample.env Fc3555SelIntReady s0))))
       Lp3000IntReadyEna = true.
Proof.
  eexists. split; [reflexivity |].
  match goal with
  | |- has_flag (flags (lc (snd (lp3000Func _ _ _ ?s0)))) _ = true =>
      pose proof (interrupt_select_release false Sample.env true Lp3000IntReady s0
                    fopen_w eq_refl eq_refl eq_refl (or_introl eq_refl))
        as [(_ & Hena & _) _]
  end.
  exact Hena.
Defined.

(** C4, as stated, fails: after an Output whose word has been drained,
    [keepInt] is true and IntReady is clear; SelIntReady then sets the
    latched bit instead of leaving it as it was. *)
Lemma select_sets_latched_bit_after_output :
  exists s0, Sample.lp501 false = Some s0
  /\ let s := run [opFunc false Sample.env Fc6681Output; opChannel 66 true; opIo] s0 in
     keepInt (lc s) = true
     /\ has_flag (flags (lc s)) Lp3000IntReady = false
     /\ has_flag (flags (lc (snd (lp3000Func false Sample.env Fc3555SelIntReady s))))
          Lp3000IntReady = true.
Proof. eexists. repeat split. Qed.

End Lp3000Runs.

(** ** Paper removal and the 1612 scenario *)

Section Paper.

(** A stream at position 0 holds nothing, flushed or buffered. *)
Lemma ftell_zero (f : Stream) : ftell f = 0 -> fflush f = f /\ f = fopen_w.
Proof.
  destruct f as [[| a fl] [| b bu]]; unfold ftell; cbn [flushed buffered length];
    intros E; try lia. split; reflexivity.
Qed.

Context {L : Limits}.

(** C9: for both printer families, removing the paper from a device whose
    capture file is at position 0 prints the "no output has been written"
    line and changes nothing else: the handle, the archive and the started
    applications are as before. *)
Theorem removePaper_on_empty_capture (spawnApp : bool) (env : PaperEnv)
    (p1 p3 : Scanned) (s1 : Lp1612.State) (s3 : Lp3000.State) (f1 f3 : Stream) :
  numParam p1 = 2 -> 0 <= channelNo p1 < MaxChannels ->
  0 <= equipmentNo p1 < MaxEquipment ->
  Lp1612.channelFindDevice (channelNo p1) s1 = true ->
  Lp1612.fcb s1 = Some f1 -> ftell f1 = 0 ->
  numParam p3 = 2 -> 0 <= channelNo p3 < MaxChannels ->
  0 <= equipmentNo p3 < MaxEquipment ->
  Lp3000.dcc6681FindDevice (channelNo p3) (equipmentNo p3) s3 = true ->
  Lp3000.fcb s3 = Some f3 -> ftell f3 = 0 ->
  Lp1612.lp1612RemovePaper env p1 s1
  = Lp1612.set_host
      (printf (msgNoOutput lp1612 (channelNo p1) (equipmentNo p1)) (Lp1612.host s1)) s1
  /\ Lp3000.lp3000RemovePaper spawnApp env p3 s3
     = Lp3000.set_host
         (printf (msgNoOutput lp3000 (channelNo p3) (equipmentNo p3)) (Lp3000.host s3)) s3.
Proof.
  intros Hn1 Hc1 He1 Hd1 Hf1 Ht1 Hn3 Hc3 He3 Hd3 Hf3 Ht3.
  destruct (ftell_zero f1 Ht1) as [Hfl1 ->], (ftell_zero f3 Ht3) as [Hfl3 ->].
  split.
  - unfold Lp1612.lp1612RemovePaper. rewrite Hn1, Hd1, Hf1. cbn [Z.eqb Pos.eqb negb].
    destruct (Z.ltb_spec (channelNo p1) 0); [lia |].
    destruct (Z.leb_spec MaxChannels (channelNo p1)); [lia |].
    destruct (Z.ltb_spec (equipmentNo p1) 0); [lia |].
    destruct (Z.leb_spec MaxEquipment (equipmentNo p1)); [lia |].
    cbn [orb]. cbv zeta. rewrite Hfl1. change (ftell fopen_w =? 0) with true. cbv iota.
    destruct s1; simpl in *; subst; reflexivity.
  - unfold Lp3000.lp3000RemovePaper. rewrite Hn3, Hd3, Hf3. cbn [Z.eqb Pos.eqb negb].
    destruct (Z.ltb_spec (channelNo p3) 0); [lia |].
    destruct (Z.leb_spec MaxChannels (channelNo p3)); [lia |].
    destruct (Z.ltb_spec (equipmentNo p3) 0); [lia |].
    destruct (Z.leb_spec MaxEquipment (equipmentNo p3)); [lia |].
    cbn [orb]. cbv zeta. rewrite Hfl3. change (ftell fopen_w =? 0) with true. cbv iota.
    destruct s3; simpl in *; subst; reflexivity.
Qed.

End Paper.

Section PaperRuns.
#[local] Existing Instance Sample.limits.
#[local] Existing Instance Sample.charset.

Lemma removePaper_on_empty_capture_witness :
  exists s1 s3, Sample.lp1612 false = Some s1 /\ Sample.lp501 false = Some s3
  /\ Lp1612.fcb (Lp1612.lp1612RemovePaper Sample.env (mkScanned 2 9 0) s1)
     = Lp1612.fcb s1
  /\ Lp3000.fcb (Lp3000.lp3000RemovePaper true Sample.env (mkScanned 2 8 0) s3)
     = Lp3000.fcb s3.
Proof.
  do 2 eexists. split; [reflexivity |]. split; [reflexivity |].
  match goal with
  | |- Lp1612.fcb (Lp1612.lp1612RemovePaper _ _ ?s1) = _
       /\ Lp3000.fcb (Lp3000.lp3000RemovePaper _ _ _ ?s3) = _ =>
      destruct (removePaper_on_empty_capture (L := Sample.limits) true Sample.env
                  (mkScanned 2 9 0) (mkScanned 2 8 0) s1 s3 fopen_w fopen_w)
        as [E1 E3]
  end; try reflexivity; try (cbn; lia).
  rewrite E1, E3. split; reflexivity.
Defined.

(** C8 (as amended): the scenario leaves three bytes in the capture file,
    the character of the low six bits of the word followed by two
    newlines, one written by the single-space code and one by the
    disconnect. *)
Theorem printHI_capture {C : Charset} (channelNo : Z) (path : option string) :
  Lp1612Spec.printHI channelNo path = Some [to_u8 (extBcdToAscii (oct 31)); 10; 10].
Proof.
  unfold Lp1612Spec.printHI, Lp1612.lp1612Init. cbn [Z.eqb negb].
  destruct path as [p |]; [destruct (String.eqb p EmptyString) |]; reflexivity.
Qed.

(** C8, as stated, fails: even with an external BCD table that codes ['H']
    as 030 and ['I'] as 031, the capture file holds "I\\n\\n". *)
Lemma printHI_prints_I_and_two_newlines :
  extBcdToAscii (oct 30) = 72 /\ extBcdToAscii (oct 31) = 73
  /\ Lp1612Spec.printHI 9 None = Some [73; 10; 10].
Proof. repeat split. Qed.

End PaperRuns.

(** * Further properties *)

Section KeyTraces.
Import Console KeyRing KeyTrace.

Lemma next_neq (i : Z) : 0 <= i < KeyBufSize -> next i <> i.
Proof. unfold next, KeyBufSize. intros Hi. destruct (Z.eqb_spec (i + 1) 50); lia. Qed.

Lemma wf_get (k : KeyBuf) : wf k -> wf (snd (consoleGetKey k)).
Proof.
  intros Hwf. destruct (Z.eq_dec (keyIn k) (keyOut k)) as [E | Hne].
  - rewrite get_empty by exact E. exact Hwf.
  - rewrite get_nonempty by assumption. cbv zeta.
    destruct Hwf as (Hin & Hout & Hlen).
    destruct (_ =? 1); unfold wf; cbn; repeat split; try apply next_range; lia.
Qed.

(** A call on a ring that holds keys, by the value of the counter. *)
Lemma get_step (k : KeyBuf) (key : Z) (rest : list Z) :
  wf k -> pending k = key :: rest ->
  let c := to_u64 (keyloops k + 1) in
  let r := consoleGetKey k in
  keyloops (snd r) = c
  /\ (c mod 3 = 1 -> fst r = key /\ pending (snd r) = rest
                     /\ keyOut (snd r) <> keyOut k)
  /\ (c mod 3 <> 1 -> pending (snd r) = key :: rest /\ keyOut (snd r) = keyOut k).
Proof.
  intros Hwf Hp c r.
  assert (Hne : keyIn k <> keyOut k).
  { intros E. apply pending_nil in E; [congruence | exact Hwf]. }
  subst r. rewrite get_nonempty by assumption. cbv zeta. fold c.
  rewrite (pending_head k Hwf Hne) in Hp. injection Hp as Hkey Hrest.
  destruct (Z.eqb_spec (c mod 3) 1) as [E | E]; cbn [fst snd keyloops keyOut].
  - split; [reflexivity |]. split; [| intros; contradiction].
    intros _. split; [exact Hkey | split; [exact Hrest |]].
    apply next_neq, Hwf.
  - split; [reflexivity |]. split; [intros; contradiction |].
    intros _. split; [| reflexivity].
    change (pending (mkKeyBuf (keyRing k) (keyIn k) (keyOut k) c)) with (pending k).
    rewrite (pending_head k Hwf Hne). congruence.
Qed.

Lemma gets_empty (n : nat) (k : KeyBuf) : pending k = [] -> wf k -> gets n k = k.
Proof.
  intros Hp Hwf. induction n as [| n IH]; [reflexivity |]. simpl.
  rewrite get_empty by (apply pending_nil; assumption). exact IH.
Qed.

(** X1: three successive [consoleGetKey] calls on a ring that holds keys
    consume exactly one key, the oldest, whatever the counter was (short of
    its 64-bit wrap-around). *)
Theorem three_gets_deliver_one (k : KeyBuf) (key : Z) (rest : list Z) :
  wf k -> pending k = key :: rest -> keyloops k + 3 < 2 ^ 64 -> 0 <= keyloops k ->
  pending (gets 3 k) = rest
  /\ (fst (consoleGetKey k) = key
      \/ fst (consoleGetKey (gets 1 k)) = key
      \/ fst (consoleGetKey (gets 2 k)) = key).
Proof.
  intros Hwf Hp Hc Hc0.
  assert (Hu : forall d, 1 <= d <= 3 -> to_u64 (keyloops k + d) = keyloops k + d).
  { intros d Hd. unfold to_u64, wrap. apply Z.mod_small. lia. }
  destruct (get_step k key rest Hwf Hp) as (Hl1 & Hd1 & Hn1). cbv zeta in *.
  rewrite Hu in * by lia.
  destruct (Z.eq_dec ((keyloops k + 1) mod 3) 1) as [E1 | E1].
  { destruct (Hd1 E1) as (Hk & Hr & _). split; [| left; exact Hk].
    pose proof (wf_get k Hwf) as Hwf1.
    change (gets 3 k) with (gets 2 (snd (consoleGetKey k))).
    destruct rest as [| key2 rest2].
    - rewrite gets_empty by assumption. exact Hr.
    - destruct (get_step _ key2 rest2 Hwf1 Hr) as (Hl2 & _ & Hn2). cbv zeta in *.
      rewrite Hl1 in *. replace (keyloops k + 1 + 1) with (keyloops k + 2) in * by lia.
      rewrite Hu in * by lia.
      destruct (Hn2 ltac:(Z.div_mod_to_equations; lia)) as (Hr2 & _).
      pose proof (wf_get _ Hwf1) as Hwf2.
      change (gets 2 (snd (consoleGetKey k)))
        with (gets 1 (snd (consoleGetKey (snd (consoleGetKey k))))).
      destruct (get_step _ key2 rest2 Hwf2 Hr2) as (_ & _ & Hn3). cbv zeta in *.
      rewrite Hl2 in *. replace (keyloops k + 2 + 1) with (keyloops k + 3) in * by lia.
      rewrite Hu in * by lia.
      destruct (Hn3 ltac:(Z.div_mod_to_equations; lia)) as (Hr3 & _). exact Hr3. }
  destruct (Hn1 E1) as (Hr1 & _).
  pose proof (wf_get k Hwf) as Hwf1.
  destruct (get_step _ key rest Hwf1 Hr1) as (Hl2 & Hd2 & Hn2). cbv zeta in *.
  rewrite Hl1 in *. replace (keyloops k + 1 + 1) with (keyloops k + 2) in * by lia.
  rewrite Hu in * by lia.
  pose proof (wf_get _ Hwf1) as Hwf2.
  destruct (Z.eq_dec ((keyloops k + 2) mod 3) 1) as [E2 | E2].
  { destruct (Hd2 E2) as (Hk & Hr & _). split; [| right; left; exact Hk].
    change (gets 3 k)
      with (gets 1 (snd (consoleGetKey (snd (consoleGetKey k))))).
    destruct rest as [| key2 rest2].
    - rewrite gets_empty by assumption. exact Hr.
    - destruct (get_step _ key2 rest2 Hwf2 Hr) as (_ & _ & Hn3). cbv zeta in *.
      rewrite Hl2 in *. replace (keyloops k + 2 + 1) with (keyloops k + 3) in * by lia.
      rewrite Hu in * by lia.
      destruct (Hn3 ltac:(Z.div_mod_to_equations; lia)) as (Hr3 & _). exact Hr3. }
  destruct (Hn2 E2) as (Hr2 & _).
  destruct (get_step _ key rest Hwf2 Hr2) as (_ & Hd3 & _). cbv zeta in *.
  rewrite Hl2 in *. replace (keyloops k + 2 + 1) with (keyloops k + 3) in * by lia.
  rewrite Hu in * by lia.
  destruct (Hd3 ltac:(Z.div_mod_to_equations; lia)) as (Hk & Hr & _).
  split; [exact Hr | right; right; exact Hk].
Qed.

End KeyTraces.

Section Conservation.
Import Console KeyRing KeyTrace.

Lemma queue_room_keyIn (ch : Z) (k : KeyBuf) :
  wf k -> next (keyIn k) <> keyOut k -> keyIn (consoleQueueKey ch k) <> keyIn k.
Proof.
  intros (Hin & _) Hroom. unfold consoleQueueKey. rewrite advance_index by exact Hin.
  destruct (Z.eqb_spec (next (keyIn k)) (keyOut k)); [contradiction |].
  cbn. apply next_neq, Hin.
Qed.

Lemma runTrace_run (ops : list KeyOp) : fst (runTrace ops) = run ops.
Proof.
  unfold runTrace, run. induction ops as [| o ops IH] using rev_ind; [reflexivity |].
  rewrite !fold_left_app. simpl. rewrite <- IH.
  destruct (fold_left observe ops (keys0, mkTrace [] [])) as [k t].
  destruct o as [ch |]; simpl; [reflexivity |].
  destruct (consoleGetKey k); reflexivity.
Qed.

(** X2: along every sequence of queue and get calls from the empty ring,
    the keys accepted so far are exactly the keys delivered so far followed
    by the keys still in the ring: nothing accepted is lost, repeated or
    reordered. *)
Theorem keys_accepted_are_delivered_in_order (ops : list KeyOp) :
  let '(k, t) := runTrace ops in
  accepted t = delivered t ++ pending k.
Proof.
  induction ops as [| o ops IH] using rev_ind; [reflexivity |].
  pose proof (runTrace_run ops) as Hrun.
  destruct (run_refines ops) as (Hwf & _ & _). rewrite <- Hrun in Hwf.
  unfold runTrace in *. rewrite fold_left_app. simpl.
  destruct (fold_left observe ops (keys0, mkTrace [] [])) as [k t].
  cbn [fst] in Hwf. destruct o as [ch |]; simpl.
  - destruct (Z.eq_dec (next (keyIn k)) (keyOut k)) as [Hfull | Hroom].
    + rewrite queue_full by assumption. rewrite Z.eqb_refl. exact IH.
    + destruct (queue_room ch k Hwf Hroom) as (_ & Hp & _).
      pose proof (queue_room_keyIn ch k Hwf Hroom) as Hmove.
      destruct (Z.eqb_spec (keyIn (consoleQueueKey ch k)) (keyIn k)); [contradiction |].
      cbn. rewrite Hp, IH, app_assoc. reflexivity.
  - destruct (pending k) as [| key rest] eqn:Hp.
    + rewrite get_empty by (apply pending_nil; assumption).
      rewrite Z.eqb_refl, Hp. exact IH.
    + destruct (get_step k key rest Hwf Hp) as (_ & Hd & Hn). cbv zeta in *.
      destruct (consoleGetKey k) as [key' k'] eqn:Hget. cbn [fst snd] in *.
      destruct (Z.eq_dec (to_u64 (keyloops k + 1) mod 3) 1) as [E | E].
      * destruct (Hd E) as (-> & Hr & Hmove).
        destruct (Z.eqb_spec (keyOut k') (keyOut k)); [contradiction |].
        cbn. rewrite IH, Hr, <- app_assoc. reflexivity.
      * destruct (Hn E) as (Hr & Hsame). rewrite Hsame, Z.eqb_refl, Hr. exact IH.
Qed.

End Conservation.

Section AutoDateOnce.
Import Console KeyRing ConsoleSpec ConsoleRun.
Context {F : Fonts} {C : Charset}.

Lemma auto_consoleFunc (funcCode : Z) (s : State) :
  auto (snd (consoleFunc funcCode s)) = auto s.
Proof.
  unfold consoleFunc, select. cbv zeta.
  repeat match goal with
         | |- context [if ?a =? ?b then _ else _] => destruct (a =? b)
         end; reflexivity.
Qed.

Lemma auto_consoleIo_off (t : Tm) (typed : option Z) (s : State) :
  autoDate (auto s) = false -> auto (consoleIo t typed s) = auto s.
Proof.
  intros Hoff. unfold consoleIo. cbv zeta.
  destruct (isCharSelect (fcode s)).
  { destruct (chFull (activeChannel s)); [| reflexivity].
    repeat match goal with
           | |- context [if ?a <=? ?b then _ else _] => destruct (a <=? b)
           end; cbn [auto call set_emptyDrop]; rewrite Hoff; reflexivity. }
  destruct (isDotSelect (fcode s)).
  { destruct (chFull (activeChannel s)); [| reflexivity].
    repeat match goal with
           | |- context [if ?a <=? ?b then _ else _] => destruct (a <=? b)
           end; reflexivity. }
  destruct (fcode s =? Fc6612SelKeyIn); [| reflexivity].
  destruct typed; cbn [ppKeyIn set_ppKeyIn call];
    match goal with
    | |- context [if ?b then _ else _] => destruct b
    end; try reflexivity;
    cbn [keys call set_ppKeyIn]; destruct (consoleGetKey (keys s)); reflexivity.
Qed.

(** X3: once [autoDate] is off - it has fired, or was never configured -
    no callback of the console, no channel traffic and no typed key
    switches it on again or moves [autoPos]: the answer is typed ahead at
    most once. *)
Theorem autodate_fires_once (ops : list Op) (s : State) :
  autoDate (auto s) = false -> auto (run ops s) = auto s.
Proof.
  unfold run. revert s. induction ops as [| o ops IH]; intros s Hoff; [reflexivity |].
  simpl.
  assert (Hstep : auto (step s o) = auto s).
  { destruct o; simpl.
    - apply auto_consoleFunc.
    - apply auto_consoleIo_off, Hoff.
    - reflexivity.
    - unfold consoleDisconnect. destruct (emptyDrop s); reflexivity.
    - reflexivity.
    - reflexivity. }
  rewrite IH by (rewrite Hstep; exact Hoff). exact Hstep.
Qed.

End AutoDateOnce.

Section AutoDatePattern.
Import Console KeyRing ConsoleSpec ConsoleRun.
Context {C : Charset}.

(** A word drained in medium font with auto date on: what the check is
    applied to. *)
Lemma consoleIo_medium (t : Tm) (typed : option Z) (s : State) :
  autoDate (auto s) = true -> chFull (activeChannel s) = true ->
  mediumFont s = true ->
  exists w,
    consoleIo t typed s
    = set_activeChannel (set_chFull false (activeChannel (autoDateCheck t w)))
        (autoDateCheck t w)
    /\ fcode w = fcode s /\ auto w = auto s /\ keys w = keys s
    /\ chData (activeChannel w) = chData (activeChannel s).
Proof.
  intros Hon Hfull Hmed.
  assert (Hsel : isCharSelect (fcode s) = true).
  { unfold mediumFont in Hmed. unfold isCharSelect.
    destruct (fcode s =? Fc6612Sel32CharLeft), (fcode s =? Fc6612Sel32CharRight);
      try discriminate; repeat rewrite orb_true_r; reflexivity. }
  unfold consoleIo. rewrite Hsel, Hfull. cbv zeta.
  repeat match goal with
         | |- context [if ?a <=? ?b then _ else _] => destruct (a <=? b)
         end;
    cbn [auto call set_emptyDrop]; rewrite Hon; eexists; (split; [reflexivity |]);
    repeat split.
Qed.

(** The check on a matching word. *)
Lemma autoDateCheck_match (t : Tm) (w : State) :
  mediumFont w = true -> wordMatches w = true ->
  autoDateCheck t w
  = if patternEnds w
    then
      let s1 := set_auto (set_autoDate false (auto w)) w in
      if keyOut (keys w) =? keyIn (keys w)
      then set_keys (queueText (autoDateText (autoYearString (auto w)) t) (keys w)) s1
      else s1
    else set_auto (set_autoPos (autoPos (auto w) + 2) (auto w)) w.
Proof.
  unfold autoDateCheck, mediumFont, wordMatches, patternEnds. cbv zeta.
  intros -> Hmatch. cbn [andb]. rewrite Hmatch. reflexivity.
Qed.

(** The same word, by the outcome of the comparison. *)
Lemma medium_word (t : Tm) (typed : option Z) (s : State) :
  autoDate (auto s) = true -> chFull (activeChannel s) = true ->
  mediumFont s = true -> wordMatches s = true ->
  let s' := consoleIo t typed s in
  fcode s' = fcode s
  /\ (patternEnds s = false ->
      auto s' = set_autoPos (autoPos (auto s) + 2) (auto s) /\ keys s' = keys s)
  /\ (patternEnds s = true -> keyIn (keys s) = keyOut (keys s) ->
      autoDate (auto s') = false
      /\ keys s' = queueText (autoDateText (autoYearString (auto s)) t) (keys s)).
Proof.
  intros Hon Hfull Hmed Hmatch s'.
  destruct (consoleIo_medium t typed s Hon Hfull Hmed)
    as (w & Hs' & Hfc & Hauto & Hkeys & Hdata).
  assert (Hmed' : mediumFont w = true) by (unfold mediumFont; rewrite Hfc; exact Hmed).
  assert (Hmatch' : wordMatches w = true).
  { unfold wordMatches. rewrite Hauto, Hdata. exact Hmatch. }
  assert (Hend : patternEnds w = patternEnds s) by (unfold patternEnds; now rewrite Hauto).
  subst s'. rewrite Hs', (autoDateCheck_match t w Hmed' Hmatch'), Hend, Hauto, Hkeys.
  destruct (patternEnds s).
  - cbv zeta. split.
    + destruct (keyOut (keys s) =? keyIn (keys s)); cbn; exact Hfc.
    + split; [discriminate |]. intros _ Hempty. rewrite Hempty, Z.eqb_refl.
      split; reflexivity.
  - cbn. split; [exact Hfc |]. split; [| discriminate].
    intros _. rewrite Hkeys. split; reflexivity.
Qed.

Lemma word2_hi (hi lo : Z) :
  0 <= hi < 64 -> 0 <= lo < 64 -> Z.land (Z.shiftr (word2 hi lo) 6) Mask6 = hi.
Proof.
  intros Hhi Hlo. unfold word2. change Mask6 with (Z.ones 6).
  rewrite Z.land_ones, Z.shiftr_div_pow2 by lia. change (2 ^ 6) with 64.
  Z.div_mod_to_equations. lia.
Qed.

Lemma word2_lo (hi lo : Z) :
  0 <= hi < 64 -> 0 <= lo < 64 -> Z.land (word2 hi lo) Mask6 = lo.
Proof.
  intros Hhi Hlo. unfold word2. change Mask6 with (Z.ones 6).
  rewrite Z.land_ones by lia. change (2 ^ 6) with 64.
  Z.div_mod_to_equations. lia.
Qed.

Lemma strAt_app (pre rest : list Z) (i : nat) :
  strAt (pre ++ rest) (Z.of_nat (length pre) + Z.of_nat i) = nth i rest 0.
Proof.
  unfold strAt. rewrite <- Nat2Z.inj_add, Nat2Z.id.
  rewrite app_nth2 by lia. f_equal. lia.
Qed.

End AutoDatePattern.

Section AutoDateWhole.
Import Console KeyRing ConsoleSpec ConsoleRun.
Context {C : Charset}.

Lemma pairs_ind (P : list Z -> Prop) :
  P [] -> (forall a, P [a]) -> (forall a b l, P l -> P (a :: b :: l)) ->
  forall l, P l.
Proof.
  intros Hnil Hone Hpair l.
  assert (H : P l /\ forall a, P (a :: l)); [| apply H].
  induction l as [| b l [IH1 IH2]]; [split; auto |].
  split; [apply IH2 |]. intros a. apply Hpair, IH1.
Qed.

(** The pattern from position [length pre] on, sent pair by pair. *)
Lemma pattern_rest (year : list Z) (t : Tm) (rest : list Z) :
  (forall c, 0 <= asciiToCdc c < 64) ->
  strAt year 0 <> 0 -> strAt year 1 <> 0 ->
  forall (pre : list Z) (ts : list Tm) (s : State),
  Forall (fun c => c <> 0) rest -> rest <> [] -> Nat.even (length rest) = true ->
  S (length ts) = length (patternWords rest) ->
  auto s = mkAutoDate true (pre ++ rest) year (Z.of_nat (length pre)) ->
  mediumFont s = true -> wf (keys s) -> keyIn (keys s) = keyOut (keys s) ->
  let s' := sendAll (zip (patternWords rest) (ts ++ [t])) s in
  autoDate (auto s') = false
  /\ pending (keys s')
     = map (fun c => to_u8 (asciiToConsole c))
           (strAt year 0 :: strAt year 1 :: drop 2 (strftime t)).
Proof.
  intros Htab Hy0 Hy1. induction rest as [| a | a b l IH] using pairs_ind;
    intros pre ts s Hnz Hne Heven Hlen Hauto Hmed Hwf Hempty.
  - contradiction.
  - discriminate.
  - clear Hne. cbn [patternWords length] in Hlen.
    apply Forall_cons in Hnz as [Ha Hnz]. apply Forall_cons in Hnz as [Hb Hnz].
    set (w := word2 (asciiToCdc (to_u8 a)) (asciiToCdc (to_u8 b))) in *.
    assert (Hstep : forall t1,
      let s0 := set_activeChannel (set_chFull true (set_chData w (activeChannel s))) s in
      autoDate (auto s0) = true /\ chFull (activeChannel s0) = true
      /\ mediumFont s0 = true /\ wordMatches s0 = true
      /\ patternEnds s0 = match l with [] => true | _ => false end
      /\ send s (w, t1) = consoleIo t1 None s0).
    { intros t1 s0. subst s0. unfold wordMatches, patternEnds, send.
      cbn [auto set_activeChannel activeChannel chData set_chFull set_chData chFull fst snd].
      rewrite Hauto. cbn [autoDate autoDateString autoPos].
      pose proof (strAt_app pre (a :: b :: l) 0) as E0.
      pose proof (strAt_app pre (a :: b :: l) 1) as E1.
      pose proof (strAt_app pre (a :: b :: l) 2) as E2.
      rewrite Z.add_0_r in E0. change (Z.of_nat 1) with 1 in E1.
      change (Z.of_nat 2) with 2 in E2. rewrite E0, E1, E2. cbn [nth].
      subst w. rewrite word2_hi, word2_lo by apply Htab. rewrite !Z.eqb_refl.
      repeat split; try assumption.
      destruct (Z.eqb_spec b 0); [contradiction |]. cbn [orb].
      destruct l as [| c l']; [reflexivity |].
      apply Forall_cons in Hnz as [Hc _]. cbn [nth].
      destruct (Z.eqb_spec c 0); [contradiction | reflexivity]. }
    destruct l as [| c l'].
    + (* the last pair *)
      destruct ts as [| ? ts]; [| simpl in Hlen; lia]. cbn [patternWords app zip zip_with].
      unfold sendAll. cbn [fold_left]. fold w.
      destruct (Hstep t) as (Hon & Hfull & Hmed0 & Hmatch & Hend & ->).
      destruct (medium_word t None _ Hon Hfull Hmed0 Hmatch) as (_ & _ & Hdone).
      destruct (Hdone Hend Hempty) as (Hoff & Hkeys).
      split; [exact Hoff |]. rewrite Hkeys.
      cbn [auto set_activeChannel keys]. rewrite Hauto. cbn [autoYearString].
      rewrite autoDateText_full by assumption.
      rewrite queueText_pending; [| exact Hwf |].
      * replace (pending (keys s)) with (@nil Z); [reflexivity |].
        symmetry. apply pending_nil; assumption.
      * replace (occupancy (keys s)) with 0
          by (symmetry; apply occupancy_zero; assumption).
        unfold strftime. simpl. lia.
    + (* a pair short of the end *)
      destruct ts as [| t1 ts].
      { exfalso. cbn [patternWords length] in Hlen.
        destruct l' as [| d l'']; [discriminate |]. simpl in Hlen. lia. }
      change (patternWords (a :: b :: c :: l')) with (w :: patternWords (c :: l')).
      cbn [app zip zip_with]. unfold sendAll. cbn [fold_left].
      destruct (Hstep t1) as (Hon & Hfull & Hmed0 & Hmatch & Hend & Hsend).
      rewrite Hsend.
      destruct (medium_word t1 None _ Hon Hfull Hmed0 Hmatch) as (Hfc & Hmore & _).
      destruct (Hmore Hend) as (Hauto1 & Hkeys1).
      cbn [auto keys fcode set_activeChannel] in Hauto1, Hkeys1, Hfc.
      set (s1 := consoleIo t1 None _) in *.
      assert (Hlen' : S (length ts) = length (patternWords (c :: l'))).
      { apply eq_add_S in Hlen. exact Hlen. }
      assert (Hauto' : auto s1
                = mkAutoDate true ((pre ++ [a; b]) ++ c :: l') year
                    (Z.of_nat (length (pre ++ [a; b])))).
      { rewrite Hauto1, Hauto. unfold set_autoPos. cbn [autoDate autoDateString autoYearString autoPos].
        rewrite <- app_assoc, length_app, Nat2Z.inj_add. reflexivity. }
      assert (Hmed' : mediumFont s1 = true).
      { unfold mediumFont in *. rewrite Hfc. exact Hmed. }
      apply (IH (pre ++ [a; b]) ts s1 Hnz ltac:(discriminate) Heven Hlen' Hauto' Hmed').
      * rewrite Hkeys1. exact Hwf.
      * rewrite Hkeys1. exact Hempty.
Qed.

(** X4: when the PP displays the whole auto-date pattern in medium font,
    two characters a word, on a console whose ring is empty, the last word
    switches auto date off and leaves in the ring the keycodes of the date
    and time read at that word, the year replaced by the configured one. *)
Theorem autodate_pattern_is_answered (p year : list Z) (ts : list Tm) (t : Tm)
    (s : State) :
  (forall c, 0 <= asciiToCdc c < 64) ->
  strAt year 0 <> 0 -> strAt year 1 <> 0 ->
  Forall (fun c => c <> 0) p -> p <> [] -> Nat.even (length p) = true ->
  S (length ts) = length (patternWords p) ->
  auto s = mkAutoDate true p year 0 ->
  mediumFont s = true -> wf (keys s) -> keyIn (keys s) = keyOut (keys s) ->
  let s' := sendAll (zip (patternWords p) (ts ++ [t])) s in
  autoDate (auto s') = false
  /\ pending (keys s')
     = map (fun c => to_u8 (asciiToConsole c))
           (strAt year 0 :: strAt year 1 :: drop 2 (strftime t)).
Proof.
  intros Htab Hy0 Hy1 Hnz Hne Heven Hlen Hauto Hmed Hwf Hempty.
  apply (pattern_rest year t p Htab Hy0 Hy1 [] ts s); assumption.
Qed.

End AutoDateWhole.

Section Rename.
Import PaperSpec.
Variables (p : Printer) (env : PaperEnv) (fname : FileName)
  (mk : Tm -> Z -> FileName) (bytes : list Z).

Lemma retries_S (i0 : Z) (n : nat) :
  retries p env fname mk i0 (S n)
  = msgRenameRetry p fname (mk (clock env i0) i0) :: retries p env fname mk (i0 + 1) n.
Proof.
  unfold retries. rewrite Nat2Z.inj_succ, seqZ_cons by lia.
  cbn [map]. do 3 f_equal; lia.
Qed.

(** The loop stops at the first attempt that succeeds. *)
Lemma renameLoop_success (j : nat) :
  forall (todo : nat) (i0 : Z) (fnameNew : option FileName) (h : Host),
  (j < todo)%nat ->
  renameOk env (i0 + Z.of_nat j) = true ->
  (forall i, (i < j)%nat -> renameOk env (i0 + Z.of_nat i) = false) ->
  renameLoop p env fname mk bytes todo i0 fnameNew h
  = (Some (mk (clock env (i0 + Z.of_nat j)) (i0 + Z.of_nat j)),
     mkHost (archived h ++ [(mk (clock env (i0 + Z.of_nat j)) (i0 + Z.of_nat j), bytes)])
            (oplog h ++ retries p env fname mk i0 j) (spawned h)).
Proof.
  induction j as [| j IH]; intros todo i0 fnameNew h Hj Hok Hfail;
    (destruct todo as [| todo]; [lia |]); cbn [renameLoop].
  - rewrite Z.add_0_r in *. rewrite Hok. unfold archive, retries. cbn.
    rewrite app_nil_r. reflexivity.
  - pose proof (Hfail 0%nat ltac:(lia)) as H0. rewrite Z.add_0_r in H0. rewrite H0.
    rewrite (IH todo (i0 + 1)); [| lia | |].
    + replace (i0 + 1 + Z.of_nat j) with (i0 + Z.of_nat (S j)) by lia.
      rewrite retries_S. unfold printf. cbn. rewrite <- app_assoc. reflexivity.
    + replace (i0 + 1 + Z.of_nat j) with (i0 + Z.of_nat (S j)) by lia. exact Hok.
    + intros i Hi. replace (i0 + 1 + Z.of_nat i) with (i0 + Z.of_nat (S i)) by lia.
      apply Hfail. lia.
Qed.

(** When every attempt fails the loop only logs. *)
Lemma renameLoop_failure (todo : nat) :
  forall (i0 : Z) (fnameNew : option FileName) (h : Host),
  (forall i, (i < todo)%nat -> renameOk env (i0 + Z.of_nat i) = false) ->
  snd (renameLoop p env fname mk bytes todo i0 fnameNew h)
  = mkHost (archived h) (oplog h ++ retries p env fname mk i0 todo) (spawned h).
Proof.
  induction todo as [| todo IH]; intros i0 fnameNew h Hfail; cbn [renameLoop].
  - unfold retries. cbn. rewrite app_nil_r. destruct h; reflexivity.
  - pose proof (Hfail 0%nat ltac:(lia)) as H0. rewrite Z.add_0_r in H0. rewrite H0.
    rewrite IH.
    + rewrite retries_S. unfold printf. cbn. rewrite <- app_assoc. reflexivity.
    + intros i Hi. replace (i0 + 1 + Z.of_nat i) with (i0 + Z.of_nat (S i)) by lia.
      apply Hfail. lia.
Qed.

End Rename.

Section PaperRemoval.
Import PaperSpec.
Context {L : Limits}.

Lemma ftell_fflush (f : Stream) : ftell (fflush f) = ftell f.
Proof.
  unfold ftell, fflush. cbn [flushed buffered]. rewrite length_app. cbn. lia.
Qed.

Lemma contents_fflush (f : Stream) : contents (fflush f) = contents f.
Proof. unfold contents, fflush. cbn. apply app_nil_r. Qed.

(** [lp1612RemovePaper] once the arguments are checked and the file is
    found to hold output. *)
Lemma removePaper1612_body (env : PaperEnv) (params : Scanned) (s : Lp1612.State)
    (f : Stream) :
  names1612 params s -> Lp1612.fcb s = Some f -> ftell f <> 0 ->
  Lp1612.lp1612RemovePaper env params s
  = let s' := Lp1612.set_fcb None (Lp1612.set_fcb (Some (fflush f)) s) in
    let '(fnameNew, h) :=
      renameLoop lp1612 env (nameLP1612 (Lp1612.extPath (Lp1612.lc s)) (channelNo params))
        (fun t i => nameArchive (Lp1612.extPath (Lp1612.lc s)) t i false)
        (contents f) 100 0 None (Lp1612.host s) in
    if reopenOk env
    then Lp1612.set_host (printf (msgPaperRemoved lp1612 fnameNew) h)
           (Lp1612.set_fcb (Some fopen_w) s')
    else Lp1612.set_host
           (printf (msgOpenFailed lp1612
                      (nameLP1612 (Lp1612.extPath (Lp1612.lc s)) (channelNo params))) h) s'.
Proof.
  intros (Hn & Hc & He & Hd) Hf Ht. unfold Lp1612.lp1612RemovePaper.
  rewrite Hn, Hd, Hf. cbn [Z.eqb Pos.eqb negb].
  destruct (Z.ltb_spec (channelNo params) 0); [lia |].
  destruct (Z.leb_spec MaxChannels (channelNo params)); [lia |].
  destruct (Z.ltb_spec (equipmentNo params) 0); [lia |].
  destruct (Z.leb_spec MaxEquipment (equipmentNo params)); [lia |].
  cbn [orb]. cbv zeta. rewrite ftell_fflush, contents_fflush.
  destruct (Z.eqb_spec (ftell f) 0); [contradiction |]. reflexivity.
Qed.

Lemma removePaper3000_body (spawnApp : bool) (env : PaperEnv) (params : Scanned)
    (s : Lp3000.State) (f : Stream) :
  names3000 params s -> Lp3000.fcb s = Some f -> ftell f <> 0 ->
  Lp3000.lp3000RemovePaper spawnApp env params s
  = let s' := Lp3000.set_fcb None (Lp3000.set_fcb (Some (fflush f)) s) in
    let '(fnameNew, h) :=
      renameLoop lp3000 env
        (nameLP5xx (Lp3000.extPath (Lp3000.lc s)) (channelNo params) (equipmentNo params))
        (fun t i => nameArchive (Lp3000.extPath (Lp3000.lc s)) t i true)
        (contents f) 100 0 None (Lp3000.host s) in
    if reopenOk env
    then
      let h := printf (msgPaperRemoved lp3000 fnameNew) h in
      let h :=
        if spawnApp
        then match fnameNew with
             | Some n => printf msgNewline (spawn n h)
             | None => h
             end
        else h in
      Lp3000.set_host h (Lp3000.set_fcb (Some fopen_w) s')
    else Lp3000.set_host
           (printf (msgOpenFailed lp3000
                      (nameLP5xx (Lp3000.extPath (Lp3000.lc s)) (channelNo params)
                         (equipmentNo params))) h) s'.
Proof.
  intros (Hn & Hc & He & Hd) Hf Ht. unfold Lp3000.lp3000RemovePaper.
  rewrite Hn, Hd, Hf. cbn [Z.eqb Pos.eqb negb].
  destruct (Z.ltb_spec (channelNo params) 0); [lia |].
  destruct (Z.leb_spec MaxChannels (channelNo params)); [lia |].
  destruct (Z.ltb_spec (equipmentNo params) 0); [lia |].
  destruct (Z.leb_spec MaxEquipment (equipmentNo params)); [lia |].
  cbn [orb]. cbv zeta. rewrite ftell_fflush, contents_fflush.
  destruct (Z.eqb_spec (ftell f) 0); [contradiction |]. reflexivity.
Qed.

(** X5: removing the paper from a printer whose capture file holds output,
    when rename attempt [j] of the hundred is the first to succeed and the
    file can be opened again: the archive gains one file, named with the
    clock and suffix of that attempt, holding every byte captured; the
    capture file restarts empty; the context and the latched code are
    untouched.  This holds for both printer families. *)
Theorem removePaper_archives_capture (spawnApp : bool) (env : PaperEnv) (j : nat)
    (p1 p3 : Scanned) (s1 : Lp1612.State) (s3 : Lp3000.State) (f1 f3 : Stream) :
  names1612 p1 s1 -> Lp1612.fcb s1 = Some f1 -> ftell f1 <> 0 ->
  names3000 p3 s3 -> Lp3000.fcb s3 = Some f3 -> ftell f3 <> 0 ->
  (j < 100)%nat -> firstSuccess env j -> reopenOk env = true ->
  let r1 := Lp1612.lp1612RemovePaper env p1 s1 in
  let r3 := Lp3000.lp3000RemovePaper spawnApp env p3 s3 in
  let t := clock env (Z.of_nat j) in
  (Lp1612.fcb r1 = Some fopen_w
   /\ archived (Lp1612.host r1)
      = archived (Lp1612.host s1)
        ++ [(nameArchive (Lp1612.extPath (Lp1612.lc s1)) t (Z.of_nat j) false, contents f1)]
   /\ Lp1612.lc r1 = Lp1612.lc s1 /\ Lp1612.fcode r1 = Lp1612.fcode s1)
  /\ (Lp3000.fcb r3 = Some fopen_w
      /\ archived (Lp3000.host r3)
         = archived (Lp3000.host s3)
           ++ [(nameArchive (Lp3000.extPath (Lp3000.lc s3)) t (Z.of_nat j) true, contents f3)]
      /\ Lp3000.lc r3 = Lp3000.lc s3 /\ Lp3000.fcode r3 = Lp3000.fcode s3).
Proof.
  intros Hn1 Hf1 Ht1 Hn3 Hf3 Ht3 Hj [Hok Hfail] Hopen r1 r3 t. subst r1 r3 t.
  rewrite (removePaper1612_body env p1 s1 f1 Hn1 Hf1 Ht1).
  rewrite (removePaper3000_body spawnApp env p3 s3 f3 Hn3 Hf3 Ht3).
  cbv zeta.
  rewrite !(renameLoop_success _ env _ _ _ j 100 0) by (assumption || exact Hfail).
  rewrite Hopen. cbn [Z.add]. split.
  - repeat split.
  - destruct spawnApp; repeat split.
Qed.

(** X6: when all hundred rename attempts fail and the capture file is then
    opened again for writing, the captured output is gone: nothing is
    archived and the capture file restarts empty, yet the log reports the
    paper as removed.  This holds for both printer families. *)
Theorem removePaper_discards_unrenamed (spawnApp : bool) (env : PaperEnv)
    (p1 p3 : Scanned) (s1 : Lp1612.State) (s3 : Lp3000.State) (f1 f3 : Stream) :
  names1612 p1 s1 -> Lp1612.fcb s1 = Some f1 -> ftell f1 <> 0 ->
  names3000 p3 s3 -> Lp3000.fcb s3 = Some f3 -> ftell f3 <> 0 ->
  (forall i, (i < 100)%nat -> renameOk env (Z.of_nat i) = false) ->
  reopenOk env = true ->
  let r1 := Lp1612.lp1612RemovePaper env p1 s1 in
  let r3 := Lp3000.lp3000RemovePaper spawnApp env p3 s3 in
  (Lp1612.fcb r1 = Some fopen_w
   /\ archived (Lp1612.host r1) = archived (Lp1612.host s1)
   /\ exists n, In (msgPaperRemoved lp1612 n) (oplog (Lp1612.host r1)))
  /\ (Lp3000.fcb r3 = Some fopen_w
      /\ archived (Lp3000.host r3) = archived (Lp3000.host s3)
      /\ exists n, In (msgPaperRemoved lp3000 n) (oplog (Lp3000.host r3))).
Proof.
  intros Hn1 Hf1 Ht1 Hn3 Hf3 Ht3 Hfail Hopen r1 r3. subst r1 r3.
  rewrite (removePaper1612_body env p1 s1 f1 Hn1 Hf1 Ht1).
  rewrite (removePaper3000_body spawnApp env p3 s3 f3 Hn3 Hf3 Ht3).
  cbv zeta. rewrite Hopen.
  split.
  - match goal with
    | |- context [renameLoop ?p ?e ?fn ?mk ?b ?n ?i ?o ?h] =>
        pose proof (renameLoop_failure p e fn mk b n i o h Hfail) as E;
        destruct (renameLoop p e fn mk b n i o h) as [fnameNew h']
    end.
    cbn [snd] in E. subst h'. cbn. repeat split.
    exists fnameNew. apply in_or_app. right. left. reflexivity.
  - match goal with
    | |- context [renameLoop ?p ?e ?fn ?mk ?b ?n ?i ?o ?h] =>
        pose proof (renameLoop_failure p e fn mk b n i o h Hfail) as E;
        destruct (renameLoop p e fn mk b n i o h) as [fnameNew h']
    end.
    cbn [snd] in E. subst h'.
    destruct spawnApp, fnameNew; cbn; repeat split; eexists;
      repeat (apply in_or_app; first [right; left; reflexivity | left]).
Qed.

End PaperRemoval.

Section NullHandle.
Import PaperSpec.
Context {D : Dcc6681} {L : Limits} {C : Charset}.

Lemma dead3000_step (s : Lp3000.State) (o : Lp3000Spec.Op) :
  Lp3000.fcb s = None ->
  let s' := Lp3000Spec.step s o in
  Lp3000.fcb s' = None /\ Lp3000.lc s' = Lp3000.lc s
  /\ Lp3000.fcode s' = Lp3000.fcode s
  /\ archived (Lp3000.host s') = archived (Lp3000.host s)
  /\ Lp3000.interrupts s' = Lp3000.interrupts s.
Proof.
  intros Hnull. destruct o; cbn [Lp3000Spec.step].
  - unfold Lp3000.lp3000Func. rewrite Hnull. repeat split; assumption.
  - unfold Lp3000.lp3000Io. rewrite Hnull. repeat split; assumption.
  - repeat split; assumption.
  - unfold Lp3000.lp3000Disconnect. rewrite Hnull. repeat split; assumption.
  - repeat split; assumption.
  - unfold Lp3000.lp3000RemovePaper. rewrite Hnull.
    repeat case_if; repeat split; assumption.
Qed.

Lemma dead1612_step (s : Lp1612.State) (o : Lp1612Run.Op) :
  Lp1612.fcb s = None ->
  let s' := Lp1612Run.step s o in
  Lp1612.fcb s' = None /\ Lp1612.lc s' = Lp1612.lc s
  /\ Lp1612.fcode s' = Lp1612.fcode s
  /\ archived (Lp1612.host s') = archived (Lp1612.host s).
Proof.
  intros Hnull. destruct o; cbn [Lp1612Run.step].
  - unfold Lp1612.lp1612Func. rewrite Hnull. repeat split; assumption.
  - unfold Lp1612.lp1612Io. rewrite Hnull. repeat split; assumption.
  - repeat split; assumption.
  - unfold Lp1612.lp1612Disconnect. rewrite Hnull. repeat split; assumption.
  - repeat split; assumption.
  - unfold Lp1612.lp1612RemovePaper. rewrite Hnull.
    repeat case_if; repeat split; assumption.
Qed.

(** X7: a printer whose file handle is null stays that way: no function
    code, I/O cycle, disconnect or paper removal opens a capture file
    again, and none of them changes the context, the latched code or the
    archive.  This holds for both printer families. *)
Theorem null_handle_is_permanent (ops1 : list Lp1612Run.Op) (ops3 : list Lp3000Spec.Op)
    (s1 : Lp1612.State) (s3 : Lp3000.State) :
  Lp1612.fcb s1 = None -> Lp3000.fcb s3 = None ->
  let r1 := Lp1612Run.run ops1 s1 in
  let r3 := Lp3000Spec.run ops3 s3 in
  (Lp1612.fcb r1 = None /\ Lp1612.lc r1 = Lp1612.lc s1
   /\ Lp1612.fcode r1 = Lp1612.fcode s1
   /\ archived (Lp1612.host r1) = archived (Lp1612.host s1))
  /\ (Lp3000.fcb r3 = None /\ Lp3000.lc r3 = Lp3000.lc s3
      /\ Lp3000.fcode r3 = Lp3000.fcode s3
      /\ archived (Lp3000.host r3) = archived (Lp3000.host s3)
      /\ Lp3000.interrupts r3 = Lp3000.interrupts s3).
Proof.
  intros H1 H3 r1 r3. subst r1 r3. split.
  - clear H3. unfold Lp1612Run.run. revert s1 H1.
    induction ops1 as [| o ops IH]; intros s Hnull; [repeat split; assumption |].
    cbn [fold_left]. destruct (dead1612_step s o Hnull) as (E0 & E1 & E2 & E3).
    destruct (IH _ E0) as (F0 & F1 & F2 & F3).
    repeat split; congruence.
  - clear H1. unfold Lp3000Spec.run. revert s3 H3.
    induction ops3 as [| o ops IH]; intros s Hnull; [repeat split; assumption |].
    cbn [fold_left]. destruct (dead3000_step s o Hnull) as (E0 & E1 & E2 & E3 & E4).
    destruct (IH _ E0) as (F0 & F1 & F2 & F3 & F4).
    repeat split; congruence.
Qed.

End NullHandle.

Section BadArguments.
Import PaperSpec.
Context {L : Limits}.

Lemma host_eta (h : Host) : mkHost (archived h) (oplog h ++ []) (spawned h) = h.
Proof. rewrite app_nil_r. destruct h; reflexivity. Qed.

(** X8: a paper removal whose arguments do not name the printer - fewer
    than two numbers, a channel or equipment number out of range, or no
    such device on the channel - changes nothing but the operator log, to
    which it adds at most one line.  This holds for both printer
    families. *)
Theorem removePaper_rejects_bad_arguments (spawnApp : bool) (env : PaperEnv)
    (p1 p3 : Scanned) (s1 : Lp1612.State) (s3 : Lp3000.State) :
  ~ names1612 p1 s1 -> ~ names3000 p3 s3 ->
  (exists log, (length log <= 1)%nat
     /\ Lp1612.lp1612RemovePaper env p1 s1
        = Lp1612.set_host
            (mkHost (archived (Lp1612.host s1)) (oplog (Lp1612.host s1) ++ log)
               (spawned (Lp1612.host s1))) s1)
  /\ (exists log, (length log <= 1)%nat
        /\ Lp3000.lp3000RemovePaper spawnApp env p3 s3
           = Lp3000.set_host
               (mkHost (archived (Lp3000.host s3)) (oplog (Lp3000.host s3) ++ log)
                  (spawned (Lp3000.host s3))) s3).
Proof.
  intros Hbad1 Hbad3. split.
  - unfold Lp1612.lp1612RemovePaper.
    destruct (Z.eqb_spec (numParam p1) 2) as [Hn |]; cbn [negb];
      [| eexists [_]; split; [cbn; lia | reflexivity]].
    destruct (Z.ltb_spec (channelNo p1) 0); cbn [orb];
      [eexists [_]; split; [cbn; lia | reflexivity] |].
    destruct (Z.leb_spec MaxChannels (channelNo p1));
      [eexists [_]; split; [cbn; lia | reflexivity] |].
    destruct (Z.ltb_spec (equipmentNo p1) 0); cbn [orb];
      [eexists [_]; split; [cbn; lia | reflexivity] |].
    destruct (Z.leb_spec MaxEquipment (equipmentNo p1));
      [eexists [_]; split; [cbn; lia | reflexivity] |].
    destruct (Lp1612.channelFindDevice (channelNo p1) s1) eqn:Hd; cbn [negb].
    + exfalso. apply Hbad1. repeat split; assumption || lia.
    + exists []. split; [cbn; lia |]. rewrite host_eta. destruct s1; reflexivity.
  - unfold Lp3000.lp3000RemovePaper.
    destruct (Z.eqb_spec (numParam p3) 2) as [Hn |]; cbn [negb];
      [| eexists [_]; split; [cbn; lia | reflexivity]].
    destruct (Z.ltb_spec (channelNo p3) 0); cbn [orb];
      [eexists [_]; split; [cbn; lia | reflexivity] |].
    destruct (Z.leb_spec MaxChannels (channelNo p3));
      [eexists [_]; split; [cbn; lia | reflexivity] |].
    destruct (Z.ltb_spec (equipmentNo p3) 0); cbn [orb];
      [eexists [_]; split; [cbn; lia | reflexivity] |].
    destruct (Z.leb_spec MaxEquipment (equipmentNo p3));
      [eexists [_]; split; [cbn; lia | reflexivity] |].
    destruct (Lp3000.dcc6681FindDevice (channelNo p3) (equipmentNo p3) s3) eqn:Hd;
      cbn [negb].
    + exfalso. apply Hbad3. repeat split; assumption || lia.
    + exists []. split; [cbn; lia |]. rewrite host_eta. destruct s3; reflexivity.
Qed.

End BadArguments.

Section Lp1612Props.
Import Lp1612 Lp1612Spec Lp1612Run.
Context {L : Limits} {C : Charset}.

(** X9: a status request on a 1612 with its capture file open is accepted,
    and the next I/O cycle answers it: the channel is full with the ready
    status 4000, the latched code and the channel status are cleared, and
    nothing is written to the capture file. *)
Theorem status_request_is_answered (s : State) (f : Stream) :
  fcb s = Some f ->
  let r := lp1612Func FcPrintStatusReq s in
  let s' := lp1612Io (snd r) in
  fst r = FcAccepted
  /\ chData (activeChannel s') = StPrintReady
  /\ chFull (activeChannel s') = true
  /\ chStatus (activeChannel s') = 0
  /\ fcode s' = 0
  /\ fcb s' = Some f /\ host s' = host s.
Proof.
  intros Hf r s'. subst r s'. unfold lp1612Func. rewrite Hf. cbv zeta.
  change (FcPrintStatusReq =? FcPrintSelect) with false.
  change (FcPrintStatusReq =? FcPrintSingleSpace) with false.
  change (FcPrintStatusReq =? FcPrintDoubleSpace) with false.
  change (FcPrintStatusReq =? FcPrintMoveChannel7) with false.
  change (FcPrintStatusReq =? FcPrintMoveTOF) with false.
  change (FcPrintStatusReq =? FcPrintPrint) with false.
  change (FcPrintStatusReq =? FcPrintSuppressLF) with false.
  change (FcPrintStatusReq =? FcPrintStatusReq) with true. cbv iota.
  unfold lp1612Io. cbn [snd fcb set_fcode set_activeChannel]. rewrite Hf.
  cbn. repeat split. exact Hf.
Qed.



End Lp1612Props.

Section Ruled.
Import Asa.

Lemma ruled_data (text : list Z) (c : Z) :
  ruled text = true -> c <> 10 -> ruled (text ++ [c]) = true.
Proof.
  intros Ht Hc. induction text as [| a rest IH]; cbn [ruled app] in *.
  - destruct (Z.eqb_spec c 10); [contradiction | reflexivity].
  - destruct (a =? 10); [| auto].
    destruct rest as [| cc rest']; [discriminate |].
    apply andb_true_iff in Ht as [Hcc Hr]. cbn [app]. rewrite Hcc. cbn [andb].
    apply IH, Hr.
Qed.

Lemma ruled_control (text : list Z) (cc : Z) :
  ruled text = true -> control cc = true -> ruled (text ++ [10; cc]) = true.
Proof.
  intros Ht Hcc. induction text as [| a rest IH]; cbn [ruled app] in *.
  - cbn. rewrite Hcc. cbn.
    destruct (Z.eqb_spec cc 10) as [-> |]; [discriminate | reflexivity].
  - destruct (a =? 10); [| auto].
    destruct rest as [| c rest']; [discriminate |].
    apply andb_true_iff in Ht as [Hc Hr]. cbn [app]. rewrite Hc. cbn [andb].
    apply IH, Hr.
Qed.

Lemma ruled_fputs (f : Stream) (text : list Z) :
  ruled (contents f) = true -> wellStarted text ->
  ruled (contents (fputs text f)) = true.
Proof.
  intros Hf Ht. unfold contents, fputs in *. cbn [flushed buffered].
  rewrite app_assoc.
  destruct Ht as [-> | [(c & -> & Hc) | [(a & b & -> & Ha & Hb) | (cc & -> & Hcc)]]].
  - rewrite app_nil_r. exact Hf.
  - apply ruled_data; assumption.
  - change [a; b] with ([a] ++ [b]). rewrite app_assoc.
    apply ruled_data; [apply ruled_data |]; assumption.
  - apply ruled_control; assumption.
Qed.

End Ruled.

Section Kept.
Import Lp3000 Lp3000Spec Lp3000Run.
Context {D : Dcc6681} {L : Limits} {C : Charset}.

Lemma modelBits_lor (f m : Z) : modelBits m = 0 -> modelBits (Z.lor f m) = modelBits f.
Proof.
  unfold modelBits. intros Hm. rewrite Z.land_lor_distr_l, Hm. apply Z.lor_0_r.
Qed.

Lemma modelBits_clear (f m : Z) :
  modelBits m = 0 -> modelBits (Z.land f (Z.lnot m)) = modelBits f.
Proof.
  unfold modelBits. intros Hm. apply Z.bits_inj'. intros n Hn.
  apply (f_equal (fun z => Z.testbit z n)) in Hm.
  rewrite Z.bits_0, Z.land_spec in Hm.
  rewrite !Z.land_spec, Z.lnot_spec by exact Hn.
  destruct (Z.testbit f n), (Z.testbit m n), (Z.testbit _ n); simpl in *; congruence.
Qed.

Lemma kept_refl (c : LpContext) : kept c c.
Proof.
  unfold kept. split; [reflexivity |]. split; [reflexivity |].
  split; [reflexivity |]. intros Hs. exact Hs.
Qed.

Lemma kept_trans (a b c : LpContext) : kept a b -> kept b c -> kept a c.
Proof.
  unfold kept. intros (E1 & E2 & E3 & E4) (F1 & F2 & F3 & F4).
  split; [congruence |]. split; [congruence |]. split; [congruence |].
  intros Hs. apply F4, E4, Hs.
Qed.

#[local] Hint Rewrite modelBits_lor modelBits_clear using reflexivity : modelbits.

Lemma kept_emit (text : list Z) (s : State) : lc (emit text s) = lc s.
Proof. unfold emit. destruct (fcb s); reflexivity. Qed.

Lemma kept_selInt (int ena : Z) (s : State) :
  modelBits int = 0 -> modelBits ena = 0 ->
  kept (lc s) (lc (snd (selInt int ena s))).
Proof.
  intros Hi He. unfold selInt. cbv zeta.
  cbn [snd lc dcc6681Interrupt set_lc keepInt set_flags].
  assert (Hor : modelBits (Z.lor int ena) = 0).
  { unfold modelBits in *. rewrite Z.land_lor_distr_l, Hi, He. reflexivity. }
  destruct (keepInt (lc s)); unfold kept, shaped;
    cbn [extuseANSI extPath flags extlpi extlpp extspaceopt set_flags set_keepInt];
    rewrite ?modelBits_clear, ?modelBits_lor by assumption; tauto.
Qed.

Lemma kept_relInt (int ena : Z) (s : State) :
  modelBits int = 0 -> modelBits ena = 0 ->
  kept (lc s) (lc (snd (relInt int ena s))).
Proof.
  intros Hi He. unfold relInt. cbv zeta. cbn [snd lc dcc6681Interrupt set_lc].
  assert (Hor : modelBits (Z.lor ena int) = 0).
  { unfold modelBits in *. rewrite Z.land_lor_distr_l, Hi, He. reflexivity. }
  unfold kept, shaped.
  cbn [extuseANSI extPath flags extlpi extlpp extspaceopt set_flags].
  rewrite modelBits_clear by assumption. tauto.
Qed.

Lemma kept_output (funcCode : Z) (s : State) :
  kept (lc s) (lc (snd (output funcCode s))).
Proof.
  unfold output. cbv zeta.
  repeat case_if; cbn [snd lc set_fcode dcc6681Interrupt set_lc]; kept_setters.
Qed.

Lemma kept_release (spawnApp : bool) (env : PaperEnv) (s : State) :
  kept (lc s) (lc (snd (release spawnApp env s))).
Proof.
  unfold release. cbv zeta. destruct (printed (lc s)); cbn [snd lc set_lc].
  - rewrite lc_removePaper. cbn [lc set_fcb set_lc]. kept_setters.
  - kept_setters.
Qed.

Lemma kept_func3555 (funcCode : Z) (s : State) :
  kept (lc s) (lc (snd (func3555 funcCode s))).
Proof.
  unfold func3555. cbv zeta.
  repeat case_if; cbn [snd lc set_lc set_host];
    try (apply kept_selInt; reflexivity); try (apply kept_relInt; reflexivity);
    kept_setters.
Qed.

Lemma kept_func3152 (funcCode : Z) (s : State) :
  kept (lc s) (lc (snd (func3152 funcCode s))).
Proof.
  unfold func3152. cbv zeta.
  repeat case_if; cbn [snd lc set_lc set_host];
    try (apply kept_selInt; reflexivity); try (apply kept_relInt; reflexivity);
    kept_setters.
Qed.

Lemma kept_space (ansiText asciiText : list Z) (opt n : Z) (s : State) :
  opt = FcPrintSingle \/ opt = FcPrintDouble ->
  kept (lc s) (lc (snd (space opt ansiText asciiText n s))).
Proof.
  intros Hopt. unfold space, advance. cbv zeta.
  cbn [lc set_lc extuseANSI set_extspaceopt extpostprint].
  repeat case_if; cbn [snd lc set_lc]; rewrite ?kept_emit; cbn [lc set_lc];
    unfold kept, shaped;
    cbn [extuseANSI extPath flags extlpi extlpp extspaceopt set_extspaceopt set_extcurline];
    tauto.
Qed.

Lemma kept_func (spawnApp : bool) (env : PaperEnv) (funcCode : Z) (s : State) :
  kept (lc s) (lc (snd (lp3000Func spawnApp env funcCode s))).
Proof.
  unfold lp3000Func. destruct (fcb s); [| apply kept_refl]. cbv zeta.
  repeat match goal with
         | |- context [if ?a =? ?b then _ else _] => destruct (a =? b)
         end;
    try (apply kept_space; tauto);
    try apply kept_release; try apply kept_output;
    try solve [unfold advance; cbn [snd lc set_lc]; rewrite ?kept_emit; cbn [lc set_lc];
               kept_setters].
  destruct (has_flag (flags (lc s)) Lp3000Type3555);
    [apply kept_func3555 | apply kept_func3152].
Qed.

Lemma kept_io (s : State) : kept (lc s) (lc (lp3000Io s)).
Proof.
  unfold lp3000Io. destruct (fcb s); [| apply kept_refl]. cbv zeta.
  repeat case_if; cbn [lc set_lc set_activeChannel set_fcode];
    rewrite ?kept_emit; kept_setters.
Qed.

Lemma kept_disconnect (s : State) : kept (lc s) (lc (lp3000Disconnect s)).
Proof.
  unfold lp3000Disconnect, advance. destruct (fcb s); [| apply kept_refl]. cbv zeta.
  repeat case_if; cbn [lc set_lc set_fcode]; rewrite ?kept_emit; cbn [lc set_lc];
    rewrite ?kept_emit; kept_setters.
Qed.

Lemma kept_step (s : State) (o : Op) : kept (lc s) (lc (step s o)).
Proof.
  destruct o; cbn [step].
  - apply kept_func.
  - apply kept_io.
  - apply kept_refl.
  - apply kept_disconnect.
  - apply kept_refl.
  - rewrite lc_removePaper. apply kept_refl.
Qed.

(** X11: whatever a 3000-series printer is put through - function codes,
    I/O, disconnects, channel traffic, paper removals - its model bits, its
    output mode and its directory never change, it keeps 6 or 8 lines per
    inch with nine times as many lines per page, and its spacing option
    stays Single or Double. *)
Theorem printer_keeps_its_shape (ops : list Op) (s : State) :
  shaped (lc s) ->
  let s' := run ops s in
  shaped (lc s')
  /\ modelBits (flags (lc s')) = modelBits (flags (lc s))
  /\ extuseANSI (lc s') = extuseANSI (lc s)
  /\ extPath (lc s') = extPath (lc s).
Proof.
  intros Hs s'. subst s'.
  assert (Hk : kept (lc s) (lc (run ops s))).
  { unfold run. revert s Hs. induction ops as [| o ops IH]; intros s Hs;
      [apply kept_refl |].
    cbn [fold_left]. pose proof (kept_step s o) as Hstep.
    eapply kept_trans; [exact Hstep |]. apply IH. apply Hstep, Hs. }
  destruct Hk as (Ha & Hp & Hm & Hsh). auto.
Qed.

End Kept.

Section Lp3000Transfers.
Import Lp3000 Lp3000Spec Lp3000Run.
Context {D : Dcc6681} {L : Limits} {C : Charset}.

Lemma output_word (w : Z) (s : State) (f : Stream) :
  fcb s = Some f -> fcode s = Fc6681Output ->
  let s' := lp3000Io (load w s) in
  fcb s' = Some (fputs (if has_flag (flags (lc s)) Lp3000Type501
                        then bytes501 w else bytes512 w) f)
  /\ fcode s' = fcode s /\ flags (lc s') = flags (lc s)
  /\ printed (lc s') = true /\ keepInt (lc s') = true
  /\ chFull (activeChannel s') = false /\ host s' = host s.
Proof.
  intros Hf Hfc. unfold lp3000Io, load, emit.
  cbn [fcb set_activeChannel fcode lc activeChannel set_chFull set_chData chFull chData].
  rewrite Hf, Hfc, Z.eqb_refl.
  destruct (has_flag (flags (lc s)) Lp3000Type501);
    cbn; rewrite ?Hf; cbn; rewrite ?Hf; repeat split; try assumption;
    unfold fputs; cbn; rewrite <- ?app_assoc; reflexivity.
Qed.

Lemma output_words (words : list Z) (s : State) (f : Stream) :
  fcb s = Some f -> fcode s = Fc6681Output ->
  let s' := transfer words s in
  paper s' = Some (contents f ++
                   flat_map (if has_flag (flags (lc s)) Lp3000Type501
                             then bytes501 else bytes512) words)
  /\ fcode s' = Fc6681Output
  /\ (printed (lc s) = true /\ keepInt (lc s) = true ->
      printed (lc s') = true /\ keepInt (lc s') = true).
Proof.
  unfold transfer, paper. revert s f.
  induction words as [| w words IH]; intros s f Hf Hfc; cbn [fold_left flat_map].
  - rewrite Hf, app_nil_r. cbn [option_map].
    split; [reflexivity | split; [exact Hfc | intros Hpk; exact Hpk]].
  - destruct (output_word w s f Hf Hfc) as (Hf' & Hfc' & Hfl & Hp & Hk & _).
    rewrite Hfc in Hfc'.
    destruct (IH _ _ Hf' Hfc') as (Hpaper & Hfcode & Hflags).
    rewrite Hfl in Hpaper. rewrite Hpaper.
    split; [| split; [exact Hfcode | intros _; apply Hflags; split; assumption]].
    f_equal. unfold contents, fputs. cbn [flushed buffered].
    destruct (has_flag (flags (lc s)) Lp3000Type501); rewrite <- !app_assoc; reflexivity.
Qed.

(** X12: during an Output transfer every word drained is printed in the
    order written: a 501 prints the two display-code characters of the
    word, high six bits first, a 512 the low eight bits as one byte; the
    function code stays Output, and once a word has been drained the
    printer is marked as having printed and as keeping its interrupt. *)
Theorem output_transfer_prints_every_word (words : list Z) (s : State) (f : Stream) :
  fcb s = Some f -> fcode s = Fc6681Output ->
  let s' := transfer words s in
  paper s' = Some (contents f ++
                   flat_map (if has_flag (flags (lc s)) Lp3000Type501
                             then bytes501 else bytes512) words)
  /\ fcode s' = Fc6681Output
  /\ (words <> [] -> printed (lc s') = true /\ keepInt (lc s') = true).
Proof.
  intros Hf Hfc.
  destruct (output_words words s f Hf Hfc) as (Hpaper & Hfcode & _).
  split; [exact Hpaper | split; [exact Hfcode |]].
  destruct words as [| w words]; [intros Hn; exfalso; apply Hn; reflexivity | intros _].
  unfold transfer. cbn [fold_left].
  destruct (output_word w s f Hf Hfc) as (Hf' & Hfc' & _ & Hp & Hk & _).
  rewrite Hfc in Hfc'.
  destruct (output_words words _ _ Hf' Hfc') as (_ & _ & Hkeep).
  apply Hkeep. split; assumption.
Qed.

End Lp3000Transfers.

Section FillMemory.
Import Lp3000 Lp3000Spec Lp3000Run.
Context {D : Dcc6681} {L : Limits} {C : Charset}.

Lemma has_FillImageMem (f : Z) : has_flag f Lp3555FillImageMem = Z.testbit f 6.
Proof. apply (has_flag_bit f 6). lia. Qed.

Lemma func_fillMemory (spawnApp : bool) (env : PaperEnv) (s : State) (f : Stream) :
  codesApart = true -> fcb s = Some f ->
  has_flag (flags (lc s)) Lp3000Type3555 = true ->
  lp3000Func spawnApp env Fc3555FillMemory s
  = (FcProcessed, set_lc (set_flags (Z.lor (flags (lc s)) Lp3555FillImageMem) (lc s)) s).
Proof.
  intros Hc Hf Ht. apply codesApart_spec in Hc. unfold lp3000Func. rewrite Hf, Ht. cbv zeta.
  unfold Fc3555FillMemory, FcPrintSingle, FcPrintNoSpace, FcPrintAutoEject, FcPrintRelease,
    FcPrintLastLine, FcPrintEject, FcPrintDouble.
  decode. reflexivity.
Qed.

Lemma func_output (spawnApp : bool) (env : PaperEnv) (s : State) (f : Stream) :
  codesApart = true -> fcb s = Some f ->
  lp3000Func spawnApp env Fc6681Output s = output Fc6681Output s.
Proof.
  intros Hc Hf. apply codesApart_spec in Hc. unfold lp3000Func. rewrite Hf. cbv zeta.
  unfold FcPrintSingle, FcPrintNoSpace, FcPrintAutoEject, FcPrintRelease,
    FcPrintLastLine, FcPrintEject, FcPrintDouble.
  decode. reflexivity.
Qed.

Lemma discard_words (words : list Z) (s : State) (f : Stream) :
  fcb s = Some f -> fcode s = Fc6681Output + 1 ->
  let s' := transfer words s in
  fcb s' = Some f /\ fcode s' = Fc6681Output + 1 /\ lc s' = lc s /\ host s' = host s
  /\ interrupts s' = interrupts s.
Proof.
  unfold transfer. revert s.
  induction words as [| w words IH]; intros s Hf Hfc; cbn [fold_left].
  - repeat split; assumption.
  - assert (Hstep : lp3000Io (load w s)
                    = set_activeChannel (set_chFull false (activeChannel (load w s))) (load w s)).
    { unfold lp3000Io. cbn [load fcb set_activeChannel fcode]. rewrite Hf, Hfc.
      destruct (Z.eqb_spec (Fc6681Output + 1) Fc6681Output) as [E | _]; [lia |].
      rewrite Z.eqb_refl. reflexivity. }
    rewrite Hstep.
    destruct (IH (set_activeChannel (set_chFull false (activeChannel (load w s))) (load w s)))
      as (H1 & H2 & H3 & H4 & H5); [exact Hf | exact Hfc |].
    repeat split; assumption.
Qed.

(** X13: on a 3555, the Output that follows Fill Memory is a memory load,
    not a print: the flag is consumed, the function code latched is
    Output + 1, every word of the transfer is drained without touching the
    capture file or the context, and the disconnect writes no line end and
    leaves the function code in place. *)
Theorem fill_memory_output_is_not_printed (spawnApp : bool) (env : PaperEnv)
    (words : list Z) (s : State) (f : Stream) :
  codesApart = true -> Fc6681Output + 1 < 65536 ->
  fcb s = Some f -> has_flag (flags (lc s)) Lp3000Type3555 = true ->
  let s1 := snd (lp3000Func spawnApp env Fc3555FillMemory s) in
  let s2 := snd (lp3000Func spawnApp env Fc6681Output s1) in
  let s3 := lp3000Disconnect (transfer words s2) in
  has_flag (flags (lc s1)) Lp3555FillImageMem = true
  /\ fcb s3 = Some f /\ fcode s3 = Fc6681Output + 1
  /\ has_flag (flags (lc s3)) Lp3555FillImageMem = false
  /\ lc s3 = lc s2 /\ printed (lc s3) = printed (lc s)
  /\ keepInt (lc s3) = keepInt (lc s).
Proof.
  intros Hc Hlt Hf Ht. cbv zeta.
  rewrite (func_fillMemory _ _ _ f Hc Hf Ht). cbn [snd].
  set (s1 := set_lc _ s).
  assert (Hf1 : fcb s1 = Some f) by exact Hf.
  assert (Hfill : has_flag (flags (lc s1)) Lp3555FillImageMem = true).
  { unfold s1. cbn [lc set_lc flags set_flags]. rewrite has_FillImageMem. flag_bits. reflexivity. }
  rewrite (func_output _ _ _ f Hc Hf1).
  pose proof (codesApart_spec Hc) as (Hout & _).
  assert (Hs2 : fcb (snd (output Fc6681Output s1)) = Some f
                /\ fcode (snd (output Fc6681Output s1)) = Fc6681Output + 1
                /\ has_flag (flags (lc (snd (output Fc6681Output s1)))) Lp3555FillImageMem = false
                /\ printed (lc (snd (output Fc6681Output s1))) = printed (lc s)
                /\ keepInt (lc (snd (output Fc6681Output s1))) = keepInt (lc s)).
  { unfold output. rewrite Hfill. cbv zeta.
    assert (Hw : to_u16 (Fc6681Output + 1) = Fc6681Output + 1).
    { unfold to_u16, wrap. apply Z.mod_small. change (2 ^ 16) with 65536. lia. }
    rewrite Hw.
    repeat case_if; cbn; (split; [exact Hf |]); (split; [reflexivity |]);
      (split; [| split; reflexivity]);
      rewrite has_FillImageMem; flag_bits; reflexivity. }
  destruct Hs2 as (Hf2 & Hfc2 & Hfl2 & Hp2 & Hk2).
  destruct (discard_words words _ f Hf2 Hfc2) as (Hf3 & Hfc3 & Hlc3 & _).
  assert (Hd : lp3000Disconnect (transfer words (snd (output Fc6681Output s1)))
               = transfer words (snd (output Fc6681Output s1))).
  { unfold lp3000Disconnect. rewrite Hf3, Hfc3. cbv zeta.
    destruct (Z.eqb_spec (Fc6681Output + 1) Fc6681Output) as [E | _]; [lia | reflexivity]. }
  rewrite Hd, Hlc3.
  repeat split; assumption.
Qed.

End FillMemory.

Section PrintJob.
Import Lp3000 Lp3000Spec Lp3000Run PaperSpec.
Context {D : Dcc6681} {L : Limits} {C : Charset}.

Lemma func_release (spawnApp : bool) (env : PaperEnv) (s : State) (f : Stream) :
  codesApart = true -> fcb s = Some f ->
  lp3000Func spawnApp env FcPrintRelease s = release spawnApp env s.
Proof.
  intros Hc Hf. apply codesApart_spec in Hc. unfold lp3000Func. rewrite Hf. cbv zeta.
  unfold FcPrintRelease, FcPrintNoSpace, FcPrintAutoEject.
  decode. reflexivity.
Qed.





End PrintJob.

Section Asa1612.
Import Lp1612 Lp1612Run Asa.
Context {L : Limits} {C : Charset}.

Lemma started_control (cc : Z) : control cc = true -> wellStarted [10; cc].
Proof. intros H. right. right. right. exists cc. split; [reflexivity | exact H]. Qed.

Lemma started_data (c : Z) : c <> 10 -> wellStarted [c].
Proof. intros H. right. left. exists c. split; [reflexivity | exact H]. Qed.

Lemma land_mask6 (w : Z) : 0 <= Z.land w 63 < 64.
Proof.
  split; [apply Z.land_nonneg; right; lia |].
  change 63 with (Z.ones 6). rewrite Z.land_ones by lia.
  apply Z.mod_pos_bound. reflexivity.
Qed.

Lemma ruled1612_emit (text : list Z) (s : State) :
  ruled1612 s -> wellStarted text -> ruled1612 (emit text s).
Proof.
  unfold ruled1612, emit. destruct (fcb s) as [f |] eqn:Hf; cbn [fcb set_fcb].
  - intros Hr Ht. apply ruled_fputs; assumption.
  - rewrite Hf. trivial.
Qed.

Lemma lc_emit1612 (text : list Z) (s : State) : lc (emit text s) = lc s.
Proof. unfold emit. destruct (fcb s); reflexivity. Qed.

Lemma asa1612_func (funcCode : Z) (s : State) :
  extuseANSI (lc s) = true -> ruled1612 s ->
  ruled1612 (snd (lp1612Func funcCode s))
  /\ extuseANSI (lc (snd (lp1612Func funcCode s))) = true.
Proof.
  intros Ha Hr. unfold lp1612Func. cbv zeta. rewrite Ha.
  destruct (fcb s) as [f |] eqn:Hf.
  - repeat case_if; cbn [snd]; (split; [| cbn [lc set_fcode set_activeChannel];
                                           rewrite ?lc_emit1612; exact Ha]);
      try exact Hr;
      try (change (ruled1612 (set_fcode ?c ?x)) with (ruled1612 x));
      try (apply ruled1612_emit; [exact Hr | apply started_control; reflexivity]);
      exact Hr.
  - cbn [snd]. split; [| exact Ha]. unfold ruled1612, log. cbn [fcb set_host].
    rewrite Hf. trivial.
Qed.

Lemma asa1612_io (s : State) :
  (forall c, 0 <= c < 64 -> to_u8 (extBcdToAscii c) <> 10) ->
  ruled1612 s -> ruled1612 (lp1612Io s).
Proof.
  intros Htab Hr. unfold lp1612Io. destruct (fcb s) as [f |] eqn:Hf.
  - cbv zeta. repeat case_if.
    + unfold ruled1612. cbn [fcb set_fcode set_activeChannel]. rewrite Hf.
      unfold ruled1612 in Hr. rewrite Hf in Hr. exact Hr.
    + change (ruled1612 (emit [to_u8 (extBcdToAscii (Z.land (chData (activeChannel s)) (oct 77)))] s)).
      apply ruled1612_emit; [exact Hr |]. apply started_data, Htab.
      change (oct 77) with 63. apply land_mask6.
    + exact Hr.
  - unfold ruled1612, log. cbn [fcb set_host]. rewrite Hf. trivial.
Qed.

Lemma asa1612_disconnect (s : State) :
  extuseANSI (lc s) = true -> ruled1612 s -> ruled1612 (lp1612Disconnect s).
Proof.
  intros Ha Hr. unfold lp1612Disconnect. rewrite Ha. destruct (fcb s) as [f |] eqn:Hf.
  - apply ruled1612_emit; [exact Hr | apply started_control; reflexivity].
  - unfold ruled1612, log. cbn [fcb set_host]. rewrite Hf. trivial.
Qed.

Lemma asa1612_removePaper (env : PaperEnv) (params : Scanned) (s : State) :
  ruled1612 s ->
  ruled1612 (lp1612RemovePaper env params s)
  /\ lc (lp1612RemovePaper env params s) = lc s.
Proof.
  intros Hr. unfold lp1612RemovePaper.
  destruct (negb _); [split; [exact Hr | reflexivity] |].
  destruct (_ || _); [split; [exact Hr | reflexivity] |].
  destruct (_ || _); [split; [exact Hr | reflexivity] |].
  destruct (negb _); [split; [exact Hr | reflexivity] |].
  cbv zeta. unfold ruled1612 in *.
  destruct (fcb s) as [f |] eqn:Hf.
  - destruct (ftell (fflush f) =? 0).
    + cbn [fcb set_host set_fcb lc]. rewrite contents_fflush. split; [exact Hr | reflexivity].
    + destruct (renameLoop _ _ _ _ _ _ _ _ _) as [fnameNew h].
      destruct (reopenOk env); cbn [fcb set_host set_fcb lc]; split; trivial.
  - unfold log. cbn [fcb set_host lc]. rewrite Hf. split; trivial.
Qed.

(** X15: in ANSI mode the capture file of a 1612 is a carriage-control
    stream whatever the PP and the operator do: provided the character
    table never yields a newline, every newline in the file is followed by
    one of the control characters blank, 0, 1 or +. *)
Theorem ansi_capture_1612_is_ruled (ops : list Op) (s : State) :
  (forall c, 0 <= c < 64 -> to_u8 (extBcdToAscii c) <> 10) ->
  extuseANSI (lc s) = true -> ruled1612 s ->
  ruled1612 (run ops s) /\ extuseANSI (lc (run ops s)) = true.
Proof.
  intros Htab. unfold run. revert s.
  induction ops as [| o ops IH]; intros s Ha Hr; cbn [fold_left].
  - split; assumption.
  - assert (Hstep : ruled1612 (step s o) /\ extuseANSI (lc (step s o)) = true).
    { destruct o; cbn [step].
      - apply asa1612_func; assumption.
      - split; [apply asa1612_io; assumption |].
        unfold lp1612Io. destruct (fcb s); [| exact Ha]. cbv zeta.
        repeat case_if; cbn [lc set_fcode set_activeChannel]; rewrite ?lc_emit1612;
          exact Ha.
      - split; assumption.
      - split; [apply asa1612_disconnect; assumption |].
        unfold lp1612Disconnect. destruct (fcb s); [| exact Ha].
        rewrite lc_emit1612. exact Ha.
      - split; [exact Hr | exact Ha].
      - destruct (asa1612_removePaper env params s Hr) as [H1 H2].
        split; [exact H1 | rewrite H2; exact Ha]. }
    destruct Hstep as [Hr' Ha']. apply IH; assumption.
Qed.

End Asa1612.

Section Asa3000.
Import Lp3000 Lp3000Spec Lp3000Run Asa.
Context {D : Dcc6681} {L : Limits} {C : Charset}.

Lemma ruled3000_fcb (s s' : State) : fcb s' = fcb s -> ruled3000 s -> ruled3000 s'.
Proof. unfold ruled3000. intros ->. trivial. Qed.

Lemma ruled3000_emit (text : list Z) (s : State) :
  ruled3000 s -> wellStarted text -> ruled3000 (emit text s).
Proof.
  unfold ruled3000, emit. destruct (fcb s) as [f |] eqn:Hf; cbn [fcb set_fcb].
  - intros Hr Ht. apply ruled_fputs; assumption.
  - rewrite Hf. trivial.
Qed.

Lemma ruled3000_removePaper (spawnApp : bool) (env : PaperEnv) (params : Scanned)
    (s : State) :
  ruled3000 s -> ruled3000 (lp3000RemovePaper spawnApp env params s).
Proof.
  intros Hr. unfold lp3000RemovePaper.
  destruct (negb _); [exact Hr |].
  destruct (_ || _); [exact Hr |].
  destruct (_ || _); [exact Hr |].
  destruct (negb _); [exact Hr |].
  cbv zeta. unfold ruled3000 in *.
  destruct (fcb s) as [f |] eqn:Hf.
  - destruct (ftell (fflush f) =? 0).
    + cbn [fcb set_host set_fcb]. rewrite contents_fflush. exact Hr.
    + destruct (renameLoop _ _ _ _ _ _ _ _ _) as [fnameNew h].
      destruct (reopenOk env); cbn [fcb set_host set_fcb]; trivial.
  - unfold log. cbn [fcb set_host]. rewrite Hf. trivial.
Qed.

Lemma fcb_func3555 (funcCode : Z) (s : State) : fcb (snd (func3555 funcCode s)) = fcb s.
Proof. unfold func3555, selInt, relInt. cbv zeta. repeat case_if; reflexivity. Qed.

Lemma fcb_func3152 (funcCode : Z) (s : State) : fcb (snd (func3152 funcCode s)) = fcb s.
Proof. unfold func3152, selInt, relInt. cbv zeta. repeat case_if; reflexivity. Qed.

Lemma fcb_output (funcCode : Z) (s : State) : fcb (snd (output funcCode s)) = fcb s.
Proof. unfold output. cbv zeta. repeat case_if; reflexivity. Qed.

Lemma ruled3000_release (spawnApp : bool) (env : PaperEnv) (s : State) :
  ruled3000 s -> ruled3000 (snd (release spawnApp env s)).
Proof.
  intros Hr. unfold release. cbv zeta. destruct (printed (lc s)); cbn [snd].
  - match goal with
    | |- ruled3000 (set_lc _ ?x) => apply (ruled3000_fcb x); [reflexivity |]
    end.
    apply ruled3000_removePaper.
    unfold ruled3000 in *. cbn [fcb set_fcb set_lc].
    destruct (fcb s) as [f |]; cbn [option_map]; [| trivial].
    rewrite contents_fflush. exact Hr.
  - exact Hr.
Qed.

Lemma asa3000_func (spawnApp : bool) (env : PaperEnv) (funcCode : Z) (s : State) :
  extuseANSI (lc s) = true -> ruled3000 s ->
  ruled3000 (snd (lp3000Func spawnApp env funcCode s)).
Proof.
  intros Ha Hr. unfold lp3000Func. destruct (fcb s) as [f |] eqn:Hf.
  2: { cbn [snd]. apply (ruled3000_fcb s); [reflexivity | exact Hr]. }
  cbv zeta. rewrite Ha.
  repeat match goal with
         | |- context [if ?a =? ?b then _ else _] => destruct (a =? b)
         end; cbn [snd].
  - exact Hr.
  - exact Hr.
  - apply (ruled3000_emit [49] (set_lc _ s)); [exact Hr | apply started_data; discriminate].
  - apply ruled3000_release, Hr.
  - unfold space, advance. cbv zeta. cbn [lc set_lc extuseANSI set_extspaceopt extpostprint].
    rewrite Ha. destruct (negb _); cbn [snd]; [| exact Hr].
    apply (ruled3000_fcb (emit [10; 32] (set_lc (set_extspaceopt FcPrintSingle (lc s)) s)));
      [reflexivity |].
    apply ruled3000_emit; [exact Hr | apply started_control; reflexivity].
  - unfold advance.
    apply (ruled3000_fcb (emit [10; 32] s)); [reflexivity |].
    apply ruled3000_emit; [exact Hr | apply started_control; reflexivity].
  - apply (ruled3000_emit [10; 49] (set_lc _ s));
      [exact Hr | apply started_control; reflexivity].
  - unfold space, advance. cbv zeta. cbn [lc set_lc extuseANSI set_extspaceopt extpostprint].
    rewrite Ha. destruct (negb _); cbn [snd]; [| exact Hr].
    apply (ruled3000_fcb (emit [10; 48] (set_lc (set_extspaceopt FcPrintDouble (lc s)) s)));
      [reflexivity |].
    apply ruled3000_emit; [exact Hr | apply started_control; reflexivity].
  - apply (ruled3000_fcb s); [apply fcb_output | exact Hr].
  - exact Hr.
  - destruct (has_flag _ _).
    + apply (ruled3000_fcb s); [apply fcb_func3555 | exact Hr].
    + apply (ruled3000_fcb s); [apply fcb_func3152 | exact Hr].
Qed.

Lemma asa3000_io (s : State) :
  (forall c, 0 <= c < 64 -> to_u8 (bcdToAscii c) <> 10) ->
  has_flag (flags (lc s)) Lp3000Type501 = true ->
  ruled3000 s -> ruled3000 (lp3000Io s).
Proof.
  intros Htab Ht Hr. unfold lp3000Io. destruct (fcb s) as [f |] eqn:Hf.
  2: { apply (ruled3000_fcb s); [reflexivity | exact Hr]. }
  cbv zeta. rewrite Ht.
  repeat case_if; try exact Hr.
  match goal with
  | |- ruled3000 (set_lc _ (set_activeChannel _ ?x)) =>
      apply (ruled3000_fcb x); [reflexivity |]
  end.
  apply ruled3000_emit; [apply ruled3000_emit; [exact Hr |] |];
    apply started_data, Htab, land_mask6.
Qed.

Lemma asa3000_disconnect (s : State) :
  extuseANSI (lc s) = true -> ruled3000 s -> ruled3000 (lp3000Disconnect s).
Proof.
  intros Ha Hr. unfold lp3000Disconnect, advance. destruct (fcb s) as [f |] eqn:Hf.
  2: { apply (ruled3000_fcb s); [reflexivity | exact Hr]. }
  cbv zeta. rewrite Ha.
  repeat case_if; try exact Hr;
    match goal with
    | |- ruled3000 (set_fcode _ ?x) => apply (ruled3000_fcb x); [reflexivity |]
    end;
    repeat match goal with
           | |- ruled3000 (set_lc _ ?x) => apply (ruled3000_fcb x); [reflexivity |]
           end;
    (apply ruled3000_emit;
     [exact Hr | first [apply started_control; reflexivity | apply started_data; discriminate]]).
Qed.

Lemma type501_kept (c c' : LpContext) :
  kept c c' ->
  has_flag (flags c') Lp3000Type501 = has_flag (flags c) Lp3000Type501.
Proof.
  intros (_ & _ & Hm & _).
  assert (H501 : forall f, has_flag f Lp3000Type501 = Z.testbit (modelBits f) 0).
  { intros f. change Lp3000Type501 with (2 ^ 0). rewrite (has_flag_bit f 0) by lia.
    unfold modelBits. rewrite Z.land_spec.
    change (Z.testbit (Z.lor (Z.lor Lp3000Type501 Lp3000Type512)
                             (Z.lor Lp3000Type3152 Lp3000Type3555)) 0) with true.
    rewrite andb_true_r. reflexivity. }
  rewrite !H501, Hm. reflexivity.
Qed.

(** X16: in ANSI mode the capture file of a 501 is a carriage-control
    stream whatever the PP and the operator do: provided the character
    table never yields a newline, every newline in the file is followed by
    one of the control characters blank, 0, 1 or +. *)
Theorem ansi_capture_501_is_ruled (ops : list Op) (s : State) :
  (forall c, 0 <= c < 64 -> to_u8 (bcdToAscii c) <> 10) ->
  extuseANSI (lc s) = true -> has_flag (flags (lc s)) Lp3000Type501 = true ->
  ruled3000 s -> ruled3000 (run ops s).
Proof.
  intros Htab. unfold run. revert s.
  induction ops as [| o ops IH]; intros s Ha Ht Hr; cbn [fold_left]; [exact Hr |].
  pose proof (kept_step s o) as Hk.
  apply IH.
  - destruct Hk as (Hans & _). rewrite Hans. exact Ha.
  - rewrite (type501_kept _ _ Hk). exact Ht.
  - destruct o; cbn [step].
    + apply asa3000_func; assumption.
    + apply asa3000_io; assumption.
    + exact Hr.
    + apply asa3000_disconnect; assumption.
    + exact Hr.
    + apply ruled3000_removePaper, Hr.
Qed.

End Asa3000.

Section ReleaseTwice.
Import Lp3000 Lp3000Spec Lp3000Run.
Context {D : Dcc6681} {L : Limits} {C : Charset}.

Lemma clear_twice (f m : Z) :
  Z.land (Z.land f (Z.lnot m)) (Z.lnot m) = Z.land f (Z.lnot m).
Proof. rewrite <- Z.land_assoc, Z.land_diag. reflexivity. Qed.

(** X17: Release is idempotent while the capture file stays open: a second
    Release right after the first finds nothing printed, so it archives
    nothing, logs nothing and leaves the whole device state as it is. *)
Theorem release_twice_is_release_once (spawnApp : bool) (env env' : PaperEnv)
    (s : State) (f : Stream) :
  codesApart = true -> fcb s = Some f ->
  let s1 := snd (lp3000Func spawnApp env FcPrintRelease s) in
  fcb s1 <> None ->
  snd (lp3000Func spawnApp env' FcPrintRelease s1) = s1.
Proof.
  intros Hc Hf s1 Hopen. subst s1.
  rewrite (func_release _ _ _ _ Hc Hf) in *.
  destruct (fcb (snd (release spawnApp env s))) as [f1 |] eqn:Hf1; [| contradiction].
  rewrite (func_release _ _ _ _ Hc Hf1).
  assert (Hp : printed (lc (snd (release spawnApp env s))) = false
               /\ Z.land (flags (lc (snd (release spawnApp env s))))
                         (Z.lnot (Z.lor StPrintIntReady StPrintIntEnd))
                  = flags (lc (snd (release spawnApp env s)))).
  { unfold release. cbv zeta. destruct (printed (lc s)) eqn:Hpr; cbn [snd lc set_lc].
    - rewrite lc_removePaper. cbn [lc set_fcb set_lc printed set_printed flags set_flags].
      split; [reflexivity | apply clear_twice].
    - cbn [printed flags set_flags]. split; [exact Hpr | apply clear_twice]. }
  destruct Hp as [Hp Hfl].
  set (s1 := snd (release spawnApp env s)) in *.
  unfold release at 1. cbv zeta. cbn [lc set_lc printed set_flags]. rewrite Hp. cbn [snd].
  rewrite Hfl. destruct s1 as [ch eq fc fb c h ints]. destruct c. reflexivity.
Qed.

End ReleaseTwice.

Section Endian.
Import Init.

Lemma testbit_byte_mask (k n : Z) :
  0 <= k ->
  Z.testbit (Z.shiftl 255 k) n = (k <=? n) && (n <? k + 8).
Proof.
  intros Hk. destruct (Z.lt_ge_cases n 0) as [Hneg | Hn].
  { rewrite Z.testbit_neg_r by exact Hneg.
    destruct (Z.leb_spec k n); [lia | reflexivity]. }
  rewrite Z.shiftl_spec by exact Hn.
  destruct (Z.leb_spec k n) as [Hle | Hlt]; cbn [andb].
  - change 255 with (Z.ones 8). rewrite Z.testbit_ones by lia.
    destruct (Z.leb_spec 0 (n - k)); [| lia]. cbn [andb].
    destruct (Z.ltb_spec (n - k) 8), (Z.ltb_spec n (k + 8)); try lia; reflexivity.
  - apply Z.testbit_neg_r. lia.
Qed.

Lemma testbit_u32 (x n : Z) :
  0 <= n -> Z.testbit (to_u32 x) n = (n <? 32) && Z.testbit x n.
Proof.
  intros Hn. unfold to_u32, wrap.
  destruct (Z.ltb_spec n 32); cbn [andb].
  - apply Z.mod_pow2_bits_low. lia.
  - apply Z.mod_pow2_bits_high. lia.
Qed.

Lemma testbit_small (v n : Z) : 0 <= v < 2 ^ 32 -> 32 <= n -> Z.testbit v n = false.
Proof.
  intros Hv Hn. destruct (Z.eq_dec v 0) as [-> | Hne]; [apply Z.bits_0 |].
  apply Z.bits_above_log2; [lia |].
  apply Z.lt_le_trans with 32; [| exact Hn].
  apply Z.log2_lt_pow2; lia.
Qed.

(** Bit [n] of the result is the bit of the input in the mirrored byte. *)
Lemma initConvertEndian_bit (v n : Z) :
  0 <= n ->
  Z.testbit (initConvertEndian v) n
  = if n <? 8 then Z.testbit v (n + 24)
    else if n <? 16 then Z.testbit v (n + 8)
    else if n <? 24 then Z.testbit v (n - 8)
    else if n <? 32 then Z.testbit v (n - 24)
    else false.
Proof.
  intros Hn. unfold initConvertEndian. cbv zeta.
  change 4278190080 with (Z.shiftl 255 24).
  change 16711680 with (Z.shiftl 255 16).
  change 65280 with (Z.shiftl 255 8).
  change (Z.land v 255) with (Z.land v (Z.shiftl 255 0)).
  rewrite !Z.lor_spec, !testbit_u32, !Z.shiftr_spec, !Z.shiftl_spec by lia.
  rewrite !Z.land_spec.
  rewrite !testbit_byte_mask by lia.
  destruct (Z.ltb_spec n 8), (Z.ltb_spec n 16), (Z.ltb_spec n 24), (Z.ltb_spec n 32);
    try lia;
    repeat match goal with
           | |- context [?a <=? ?b] => destruct (Z.leb_spec a b); try lia
           | |- context [?a <? ?b] => destruct (Z.ltb_spec a b); try lia
           end;
    cbn [andb orb]; rewrite ?andb_true_r, ?andb_false_r, ?orb_false_r; try reflexivity.
Qed.

Lemma initConvertEndian_u32 (v : Z) : to_u32 (initConvertEndian v) = initConvertEndian v.
Proof.
  apply Z.bits_inj'. intros n Hn.
  rewrite testbit_u32, initConvertEndian_bit by exact Hn.
  destruct (Z.ltb_spec n 32); cbn [andb]; [reflexivity |].
  repeat match goal with
         | |- context [?a <? ?b] => destruct (Z.ltb_spec a b); try lia
         end;
    try reflexivity.
Qed.

(** X18: [initConvertEndian] reverses the four bytes of a 32-bit word: the
    result is again a 32-bit word, its byte [i] is byte [3 - i] of the
    input, and converting twice gives the input back. *)
Theorem initConvertEndian_reverses_bytes (v : Z) :
  0 <= v < 2 ^ 32 ->
  0 <= initConvertEndian v < 2 ^ 32
  /\ (forall i, 0 <= i <= 3 -> byte i (initConvertEndian v) = byte (3 - i) v)
  /\ initConvertEndian (initConvertEndian v) = v.
Proof.
  intros Hv. split; [| split].
  - rewrite <- initConvertEndian_u32. unfold to_u32, wrap.
    apply Z.mod_pos_bound. reflexivity.
  - intros i Hi. unfold byte. apply Z.bits_inj'. intros n Hn.
    rewrite !Z.land_spec, !Z.shiftr_spec by exact Hn.
    change 255 with (Z.ones 8). rewrite Z.testbit_ones by lia.
    destruct (Z.leb_spec 0 n); [| lia]. cbn [andb].
    destruct (Z.ltb_spec n 8); rewrite ?andb_false_r; [| reflexivity].
    rewrite !andb_true_r, initConvertEndian_bit by lia.
    assert (Hcase : i = 0 \/ i = 1 \/ i = 2 \/ i = 3) by lia.
    destruct Hcase as [-> | [-> | [-> | ->]]];
      repeat match goal with
             | |- context [?a <? ?b] => destruct (Z.ltb_spec a b); try lia
             end;
      f_equal; lia.
  - apply Z.bits_inj'. intros n Hn.
    rewrite initConvertEndian_bit by exact Hn.
    destruct (Z.ltb_spec n 8), (Z.ltb_spec n 16), (Z.ltb_spec n 24), (Z.ltb_spec n 32);
      try lia;
      try (rewrite initConvertEndian_bit by lia;
           repeat match goal with
                  | |- context [?a <? ?b] => destruct (Z.ltb_spec a b); try lia
                  end;
           f_equal; lia).
    symmetry. apply testbit_small; assumption.
Qed.

End Endian.

Section StartupFile.
Import Init.

Lemma fgets_ahead_nil (r : Reader) : ahead r = [] -> fgets r = (None, r).
Proof.
  unfold ahead, fgets. intros H.
  destruct (fcb r !! pos r) as [l |] eqn:Hl; [| reflexivity].
  apply (f_equal (fun x => x !! O)) in H.
  rewrite lookup_drop, Nat.add_0_r, Hl in H. discriminate.
Qed.

Lemma fgets_ahead_cons (r : Reader) (l : list Z) (rest : list (list Z)) :
  ahead r = l :: rest ->
  fgets r = (Some (cstring l), fseek (S (pos r)) r)
  /\ ahead (fseek (S (pos r)) r) = rest.
Proof.
  unfold ahead, fgets. intros H. split.
  - apply (f_equal (fun x => x !! O)) in H.
    rewrite lookup_drop, Nat.add_0_r in H. cbn in H. rewrite H. reflexivity.
  - cbn [fcb pos fseek].
    replace (S (pos r)) with (pos r + 1)%nat by lia.
    rewrite <- drop_drop, H. reflexivity.
Qed.

Lemma ahead_length (r : Reader) : (length (ahead r) <= length (fcb r))%nat.
Proof. unfold ahead. rewrite length_drop. lia. Qed.

(** The fuel of [nextLoop] does not matter once it covers the lines left. *)
Lemma nextLoop_fuel (f1 : nat) :
  forall (f2 : nat) (r : Reader),
  (length (ahead r) <= f1)%nat -> (length (ahead r) <= f2)%nat ->
  nextLoop f1 r = nextLoop f2 r.
Proof.
  induction f1 as [| f1 IH]; intros f2 r H1 H2.
  - destruct (ahead r) as [| l rest] eqn:Ha; [| cbn in H1; lia].
    destruct f2; cbn [nextLoop]; rewrite (fgets_ahead_nil r Ha); reflexivity.
  - destruct (ahead r) as [| l rest] eqn:Ha.
    + destruct f2; cbn [nextLoop]; rewrite (fgets_ahead_nil r Ha); reflexivity.
    + destruct (fgets_ahead_cons r l rest Ha) as [Hg Hrest].
      destruct f2 as [| f2]; [cbn in H2; lia |].
      cbn [nextLoop]. rewrite Hg.
      destruct (strAt (cstring l) 0 =? 91); [reflexivity |].
      destruct (scan true (cstring l)) as [blank line].
      destruct blank; [| reflexivity].
      apply IH; rewrite Hrest; cbn in H1, H2; lia.
Qed.

End StartupFile.

Section NextLine.
Import Init IniSpec.

Lemma next_eof (r : Reader) : ahead r = [] -> initGetNextLine r = (None, r).
Proof.
  intros Ha. unfold initGetNextLine.
  destruct (length (fcb r)); cbn [nextLoop]; rewrite (fgets_ahead_nil r Ha); reflexivity.
Qed.

Lemma nextLoop_unfold (fuel : nat) (r : Reader) :
  nextLoop fuel r
  = match fgets r with
    | (None, r) => (None, r)
    | (Some lineBuffer, r) =>
        if strAt lineBuffer 0 =? 91 then (None, r)
        else
          let '(blank, lineBuffer) := scan true lineBuffer in
          if blank
          then match fuel with
               | O => (None, r)
               | S fuel' => nextLoop fuel' r
               end
          else (Some lineBuffer, r)
    end.
Proof. destruct fuel; reflexivity. Qed.

Lemma next_header (r : Reader) (l : list Z) (rest : list (list Z)) :
  ahead r = l :: rest -> header l = true ->
  initGetNextLine r = (None, fseek (S (pos r)) r).
Proof.
  intros Ha Hh. unfold initGetNextLine. rewrite nextLoop_unfold.
  destruct (fgets_ahead_cons r l rest Ha) as [-> _].
  unfold header in Hh. rewrite Hh. reflexivity.
Qed.

Lemma next_text (r : Reader) (l : list Z) (rest : list (list Z)) :
  ahead r = l :: rest -> header l = false -> blankLine l = false ->
  initGetNextLine r = (Some (text l), fseek (S (pos r)) r).
Proof.
  intros Ha Hh Hb. unfold initGetNextLine. rewrite nextLoop_unfold.
  destruct (fgets_ahead_cons r l rest Ha) as [-> _].
  unfold header, blankLine, text in *. rewrite Hh.
  destruct (scan true (cstring l)) as [blank line]. cbn [fst snd] in *.
  rewrite Hb. reflexivity.
Qed.

Lemma next_blank (r : Reader) (l : list Z) (rest : list (list Z)) :
  ahead r = l :: rest -> header l = false -> blankLine l = true ->
  initGetNextLine r = initGetNextLine (fseek (S (pos r)) r).
Proof.
  intros Ha Hh Hb. unfold initGetNextLine at 1. rewrite nextLoop_unfold.
  destruct (fgets_ahead_cons r l rest Ha) as [-> Hrest].
  unfold header, blankLine in *. rewrite Hh.
  destruct (scan true (cstring l)) as [blank line]. cbn [fst] in Hb. rewrite Hb.
  pose proof (ahead_length r) as Hlen. rewrite Ha in Hlen. cbn [length] in Hlen.
  destruct (length (fcb r)) as [| n] eqn:Hn; [lia |].
  unfold initGetNextLine. cbn [fcb fseek]. rewrite Hn.
  apply nextLoop_fuel; rewrite Hrest; lia.
Qed.

Lemma next_skips (blanks : list (list Z)) :
  forall r rest,
  ahead r = blanks ++ rest ->
  Forall (fun l => header l = false /\ blankLine l = true) blanks ->
  initGetNextLine r = initGetNextLine (fseek (pos r + length blanks) r)
  /\ ahead (fseek (pos r + length blanks) r) = rest.
Proof.
  induction blanks as [| l blanks IH]; intros r rest Ha Hb.
  - cbn [length]. rewrite Nat.add_0_r. destruct r; split; [reflexivity | exact Ha].
  - apply Forall_cons in Hb as [[Hh Hbl] Hb]. cbn [app] in Ha.
    rewrite (next_blank r l _ Ha Hh Hbl).
    destruct (fgets_ahead_cons r l _ Ha) as [_ Hrest].
    destruct (IH _ rest Hrest Hb) as [E1 E2].
    cbn [pos fseek fcb] in E1, E2. cbn [length].
    replace (pos r + S (length blanks))%nat with (S (pos r) + length blanks)%nat by lia.
    split; [exact E1 | exact E2].
Qed.

(** What [scan] leaves: white space has become blanks, and a line that is
    not blank holds a character that is not white space. *)
Lemma scan_spaced (cs : list Z) :
  forall blank, blank = false \/ fst (scan blank cs) = false ->
  spaced (snd (scan blank cs)).
Proof.
  unfold spaced. induction cs as [| c cs IH]; intros blank Hb; cbn [scan].
  - constructor.
  - destruct (blank && (c =? 59)) eqn:Hbreak.
    + apply andb_true_iff in Hbreak as [Hbl Hc]. subst blank.
      destruct Hb as [Hb | Hb]; [discriminate |].
      cbn [scan andb] in Hb. rewrite Hc in Hb. cbn [fst] in Hb. discriminate.
    + destruct (isspace c) eqn:Hs.
      * destruct (scan blank cs) as [b out] eqn:Hsc. cbn [snd].
        constructor; [reflexivity |].
        specialize (IH blank). rewrite Hsc in IH. apply IH.
        destruct Hb as [Hb | Hb]; [left; exact Hb | right].
        cbn [scan] in Hb. rewrite Hbreak, Hs, Hsc in Hb. exact Hb.
      * destruct (scan false cs) as [b out] eqn:Hsc. cbn [snd].
        constructor; [intros Hc; congruence |].
        specialize (IH false). rewrite Hsc in IH. apply IH. left. reflexivity.
Qed.

Lemma scan_text (cs : list Z) :
  fst (scan true cs) = false ->
  Exists (fun c => isspace c = false) (snd (scan true cs)).
Proof.
  induction cs as [| c cs IH]; cbn [scan andb]; [discriminate |].
  destruct (c =? 59); [discriminate |].
  destruct (isspace c) eqn:Hs.
  - destruct (scan true cs) as [b out]. cbn [fst snd] in *. intros Hb.
    apply Exists_cons_tl, IH, Hb.
  - destruct (scan false cs) as [b out]. cbn [snd]. intros _.
    apply Exists_cons_hd, Hs.
Qed.

Lemma skipped_spec (l : list Z) :
  skipped l = true <-> header l = false /\ blankLine l = true.
Proof.
  unfold skipped. rewrite andb_true_iff, negb_true_iff. reflexivity.
Qed.

(** X19: [initGetNextLine] drops the blank lines and the comment lines in
    front of the file position.  At the end of the file it returns NULL;
    at the first other line it returns NULL if the line opens a section and
    else the text of the line, in which every white-space character,
    the newline included, has become a blank and some character is not
    white space; the file is left after that line. *)
Theorem initGetNextLine_skips_blank_lines (r : Reader) (blanks : list (list Z)) :
  Forall (fun b => skipped b = true) blanks ->
  (ahead r = blanks ->
   initGetNextLine r = (None, fseek (pos r + length blanks) r))
  /\ (forall l rest,
        ahead r = blanks ++ l :: rest -> skipped l = false ->
        initGetNextLine r
        = (if header l then None else Some (text l),
           fseek (pos r + length blanks + 1) r)
        /\ (header l = false ->
            spaced (text l) /\ Exists (fun c => isspace c = false) (text l))).
Proof.
  intros Hb.
  assert (Hb' : Forall (fun l => header l = false /\ blankLine l = true) blanks).
  { eapply Forall_impl; [exact Hb |]. intros l Hl. apply skipped_spec, Hl. }
  split.
  - intros Ha. rewrite <- (app_nil_r blanks) in Ha.
    destruct (next_skips blanks r [] Ha Hb') as [E1 E2].
    rewrite E1. apply next_eof, E2.
  - intros l rest Ha Hl.
    destruct (next_skips blanks r (l :: rest) Ha Hb') as [E1 E2].
    rewrite E1.
    assert (Hpos : fseek (pos r + length blanks + 1) r
                   = fseek (S (pos (fseek (pos r + length blanks) r)))
                       (fseek (pos r + length blanks) r)).
    { unfold fseek. cbn [fcb pos sectionStart]. f_equal. lia. }
    rewrite Hpos.
    unfold skipped in Hl. apply andb_false_iff in Hl.
    destruct (header l) eqn:Hh.
    + split; [| discriminate]. apply (next_header _ l rest E2 Hh).
    + destruct Hl as [Hl | Hl]; [discriminate |].
      split; [apply (next_text _ l rest E2 Hh Hl) |].
      intros _. unfold text, blankLine in *. split.
      * apply scan_spaced. right. exact Hl.
      * apply scan_text, Hl.
Qed.

End NextLine.

Section FindEntry.
Import Init IniSpec.
Variable entry : list Z.

Lemma findLoop_unfold (fuel : nat) (n : nat) (r : Reader) :
  findLoop fuel entry n r
  = match initGetNextLine r with
    | (None, r) => (None, r)
    | (Some line, r) =>
        if strncmp0 line entry n then (Some line, r)
        else match fuel with
             | O => (None, r)
             | S fuel' => findLoop fuel' entry n r
             end
    end.
Proof. destruct fuel; reflexivity. Qed.

Lemma passedOver_spec (l : list Z) :
  passedOver entry l = true ->
  header l = false
  /\ (blankLine l = true \/ strncmp0 (text l) entry (length entry) = false).
Proof.
  unfold passedOver. rewrite andb_true_iff, orb_true_iff, !negb_true_iff. tauto.
Qed.

(** The search passes over the lines [pre]. *)
Lemma find_pre (pre : list (list Z)) :
  forall (fuel : nat) (r : Reader) (rest : list (list Z)),
  ahead r = pre ++ rest ->
  Forall (fun l => passedOver entry l = true) pre ->
  (length (ahead r) <= fuel)%nat ->
  exists fuel',
    findLoop fuel entry (length entry) r
    = findLoop fuel' entry (length entry) (fseek (pos r + length pre) r)
    /\ ahead (fseek (pos r + length pre) r) = rest.
Proof.
  induction pre as [| l pre IH]; intros fuel r rest Ha Hp Hfuel.
  - exists fuel. cbn [length]. rewrite Nat.add_0_r. destruct r. split; [reflexivity | exact Ha].
  - apply Forall_cons in Hp as [Hl Hp]. cbn [app] in Ha.
    destruct (passedOver_spec l Hl) as [Hh Hcase].
    destruct (fgets_ahead_cons r l _ Ha) as [_ Hrest].
    assert (Hshift : fseek (pos r + length (l :: pre)) r
                     = fseek (pos (fseek (S (pos r)) r) + length pre)
                         (fseek (S (pos r)) r)).
    { unfold fseek. cbn [fcb pos sectionStart length]. f_equal. lia. }
    rewrite Hshift.
    destruct (blankLine l) eqn:Hb.
    + destruct (IH fuel _ rest Hrest Hp) as (fuel' & E1 & E2).
      { rewrite Hrest. rewrite Ha in Hfuel. cbn [length] in Hfuel. lia. }
      exists fuel'. split; [| exact E2]. rewrite <- E1.
      rewrite (findLoop_unfold fuel _ r), (findLoop_unfold fuel _ (fseek _ r)).
      rewrite (next_blank r l _ Ha Hh Hb). reflexivity.
    + destruct Hcase as [Hc | Hc]; [discriminate |].
      rewrite Ha in Hfuel. cbn [length] in Hfuel.
      destruct fuel as [| fuel]; [lia |].
      destruct (IH fuel _ rest Hrest Hp) as (fuel' & E1 & E2).
      { rewrite Hrest. lia. }
      exists fuel'. split; [| exact E2]. rewrite <- E1.
      rewrite (findLoop_unfold (S fuel) _ r).
      rewrite (next_text r l _ Ha Hh Hb), Hc. reflexivity.
Qed.

End FindEntry.

Section Strings.
Import Init IniSpec.

Lemma cstring_id (s : list Z) : Forall (fun c => c <> 0) s -> cstring s = s.
Proof.
  induction 1 as [| c s Hc _ IH]; cbn [cstring]; [reflexivity |].
  destruct (Z.eqb_spec c 0); [contradiction |]. rewrite IH. reflexivity.
Qed.

Lemma plain_spec (c : Z) :
  plain c = true -> c <> 0 /\ c <> 59 /\ (isspace c = true -> c = 32).
Proof.
  unfold plain. rewrite !andb_true_iff, !negb_true_iff, orb_true_iff, negb_true_iff.
  intros [[H0 H59] Hs]. split; [apply Z.eqb_neq, H0 |]. split; [apply Z.eqb_neq, H59 |].
  intros Hsp. destruct Hs as [Hs | Hs]; [congruence | apply Z.eqb_eq, Hs].
Qed.

Lemma keyChar_spec (c : Z) : keyChar c = true -> plain c = true /\ c <> 61.
Proof.
  unfold keyChar. rewrite andb_true_iff, negb_true_iff. intros [Hp He].
  split; [exact Hp | apply Z.eqb_neq, He].
Qed.

(** A line of plain characters is read as it is, its newline as a blank. *)
Lemma scan_plain (cs : list Z) :
  Forall (fun c => plain c = true) cs ->
  forall blank, scan blank (cs ++ [10]) = (blank && forallb isspace cs, cs ++ [32]).
Proof.
  induction 1 as [| c cs Hc _ IH]; intros blank; cbn [app scan forallb].
  - replace (blank && (10 =? 59)) with false by (destruct blank; reflexivity).
    cbn. rewrite andb_true_r. reflexivity.
  - destruct (plain_spec c Hc) as (_ & H59 & Hsp).
    destruct (Z.eqb_spec c 59); [contradiction |]. rewrite andb_false_r.
    destruct (isspace c) eqn:Hs.
    + rewrite IH, (Hsp eq_refl). cbn [andb]. reflexivity.
    + rewrite IH. cbn [andb]. rewrite andb_false_r. reflexivity.
Qed.

Lemma strchr_none (s : list Z) (x : Z) : Forall (fun c => c <> x) s -> strchr s x = None.
Proof.
  induction 1 as [| c s Hc _ IH]; cbn [strchr]; [reflexivity |].
  destruct (Z.eqb_spec c x); [contradiction |]. rewrite IH. reflexivity.
Qed.

Lemma strchr_first (a b : list Z) (x : Z) :
  Forall (fun c => c <> x) a -> strchr (a ++ x :: b) x = Some (length a).
Proof.
  induction 1 as [| c a Hc _ IH]; cbn [strchr app length].
  - rewrite Z.eqb_refl. reflexivity.
  - destruct (Z.eqb_spec c x); [contradiction |]. rewrite IH. reflexivity.
Qed.

Lemma strncmp0_prefix (e x : list Z) : strncmp0 (e ++ x) e (length e) = true.
Proof.
  induction e as [| c e IH]; cbn [strncmp0 length app]; [reflexivity |].
  rewrite Z.eqb_refl, IH. reflexivity.
Qed.

(** The newline of a text line, read as a blank, is trimmed away. *)
Lemma trim_newline (a : list Z) (c : Z) :
  last a = Some c -> isspace c = false ->
  trim (length (a ++ [32]) - 1) (a ++ [32]) = a.
Proof.
  intros Hl Hc. rewrite length_app. cbn [length].
  replace (length a + 1 - 1)%nat with (length a) by lia.
  destruct a as [| a0 a'] using rev_ind; [discriminate |].
  clear IHa'. rewrite last_snoc in Hl. injection Hl as ->.
  rewrite length_app. cbn [length].
  replace (length a' + 1)%nat with (S (length a')) by lia.
  cbn [trim].
  replace (nth (S (length a')) ((a' ++ [c]) ++ [32]) 0) with 32.
  2: { rewrite app_nth2 by (rewrite length_app; cbn; lia).
       rewrite length_app. cbn [length].
       replace (S (length a') - (length a' + 1))%nat with O by lia. reflexivity. }
  cbn [isspace Z.eqb Pos.eqb orb].
  rewrite take_app_length' by (rewrite length_app; cbn; lia).
  destruct (length a') as [| p] eqn:Hp; cbn [trim]; [reflexivity |].
  replace (nth (S p) (a' ++ [c]) 0) with c.
  2: { rewrite app_nth2 by lia. rewrite Hp, Nat.sub_diag. reflexivity. }
  rewrite Hc. reflexivity.
Qed.

Lemma cstring_nul (v t : list Z) :
  Forall (fun c => c <> 0) v -> cstring (v ++ 0 :: t) = v.
Proof.
  induction 1 as [| c v Hc _ IH]; cbn [app cstring]; [reflexivity |].
  destruct (Z.eqb_spec c 0); [contradiction |]. rewrite IH. reflexivity.
Qed.

Lemma cstring_strncpy (dst value : list Z) (n : nat) :
  Forall (fun c => c <> 0) value -> (length value < n)%nat ->
  cstring (strncpy dst value n) = value.
Proof.
  intros Hv Hn. unfold strncpy.
  rewrite take_app_ge, take_replicate by lia.
  destruct (Nat.min (n - length value) n) as [| k] eqn:Hk; [lia |].
  cbn [replicate]. rewrite <- app_assoc. apply cstring_nul, Hv.
Qed.

End Strings.

Section GetString.
Import Init IniSpec.

Lemma entryLength_small (entry : list Z) :
  (length entry < 256)%nat ->
  Z.to_nat (to_u8 (Z.of_nat (length entry))) = length entry.
Proof.
  intros H. unfold to_u8, wrap. rewrite Z.mod_small by (change (2 ^ 8) with 256; lia).
  apply Nat2Z.id.
Qed.

(** The line [entry more = value], as the file holds it. *)
Lemma entry_line (entry more value : list Z) :
  entry <> [] -> strAt entry 0 <> 91 ->
  Forall (fun c => keyChar c = true) (entry ++ more) ->
  Forall (fun c => plain c = true) value ->
  let l := entry ++ more ++ [61] ++ value ++ [10] in
  header l = false /\ blankLine l = false
  /\ text l = (entry ++ more ++ [61] ++ value) ++ [32].
Proof.
  intros He He0 Hk Hv l.
  destruct entry as [| e0 entry']; [contradiction |]. clear He.
  set (entry := e0 :: entry') in *.
  assert (Hplain : Forall (fun c => plain c = true) (entry ++ more ++ [61] ++ value)).
  { rewrite app_assoc. apply Forall_app. split.
    - eapply Forall_impl; [exact Hk |]. intros c Hc. apply keyChar_spec, Hc.
    - apply Forall_cons. split; [reflexivity | exact Hv]. }
  assert (Hl : l = (entry ++ more ++ [61] ++ value) ++ [10]).
  { unfold l. rewrite <- !app_assoc. reflexivity. }
  assert (Hc : cstring l = l).
  { apply cstring_id. rewrite Hl. apply Forall_app. split.
    - eapply Forall_impl; [exact Hplain |]. intros c Hc. apply plain_spec, Hc.
    - repeat constructor. discriminate. }
  unfold header, blankLine, text. rewrite Hc.
  split.
  - unfold l, entry. cbn. apply Z.eqb_neq, He0.
  - rewrite Hl, (scan_plain _ Hplain). cbn [fst snd andb]. split; [| reflexivity].
    rewrite app_assoc, forallb_app. cbn [forallb]. 
    change (isspace 61) with false. cbn [andb]. apply andb_false_r.
Qed.

(** The search stops at the line [entry more = value] and the value is
    copied. *)
Lemma initGetString_value (entry more value : list Z)
    (defString : option (list Z)) (str : list Z) (strLen : Z) (r : Reader)
    (pre post : list (list Z)) :
  entry <> [] -> strAt entry 0 <> 91 -> (length entry < 256)%nat ->
  Forall (fun c => keyChar c = true) (entry ++ more) ->
  Forall (fun c => plain c = true) value ->
  (forall c, last value = Some c -> isspace c = false) ->
  drop (sectionStart r) (fcb r)
  = pre ++ (entry ++ more ++ [61] ++ value ++ [10]) :: post ->
  Forall (fun l => passedOver entry l = true) pre ->
  initGetString entry defString str strLen r
  = (Some (true, strncpy str value (Z.to_nat (strLen - 1))),
     fseek (sectionStart r + length pre + 1) r).
Proof.
  intros He He0 Hlen Hk Hv Hlast Hfile Hpre.
  destruct (entry_line entry more value He He0 Hk Hv) as (Hh & Hb & Ht).
  set (l := entry ++ more ++ [61] ++ value ++ [10]) in *.
  set (a := entry ++ more ++ [61] ++ value) in *.
  unfold initGetString. rewrite (entryLength_small entry Hlen). cbv zeta.
  set (r0 := fseek (sectionStart r) r).
  assert (Ha0 : ahead r0 = pre ++ l :: post) by exact Hfile.
  destruct (find_pre entry pre (length (fcb r)) r0 (l :: post) Ha0 Hpre)
    as (fuel' & E & Hahead); [apply (ahead_length r0) |].
  rewrite E, findLoop_unfold.
  rewrite (next_text _ l post Hahead Hh Hb), Ht.
  unfold a at 1. rewrite <- app_assoc, strncmp0_prefix.
  assert (Hno59 : strchr (a ++ [32]) 59 = None).
  { apply strchr_none, Forall_app. split; [| repeat constructor; discriminate].
    unfold a. rewrite app_assoc. apply Forall_app. split.
    - eapply Forall_impl; [exact Hk |]. intros c Hc.
      apply keyChar_spec in Hc as [Hc _]. apply plain_spec in Hc. tauto.
    - apply Forall_cons. split; [discriminate |].
      eapply Forall_impl; [exact Hv |]. intros c Hc. apply plain_spec in Hc. tauto. }
  replace ((entry ++ more ++ [61] ++ value) ++ [32]) with (a ++ [32]) by reflexivity.
  rewrite Hno59.
  assert (Htrim : trim (length (a ++ [32]) - 1) (a ++ [32]) = a).
  { destruct (last value) as [c |] eqn:Hlv.
    - apply (trim_newline a c); [| apply Hlast; reflexivity].
      unfold a. rewrite !app_assoc. rewrite last_app, Hlv. reflexivity.
    - apply last_None in Hlv. apply (trim_newline a 61); [| reflexivity].
      unfold a. rewrite Hlv, app_nil_r, app_assoc. apply last_snoc. }
  rewrite Htrim.
  assert (H61 : strchr a 61 = Some (length (entry ++ more))).
  { unfold a. rewrite app_assoc. apply strchr_first.
    eapply Forall_impl; [exact Hk |]. intros c Hc. apply keyChar_spec in Hc. tauto. }
  rewrite H61.
  assert (Hval : drop (S (length (entry ++ more))) a = value).
  { unfold a. rewrite app_assoc.
    change ((entry ++ more) ++ [61] ++ value) with ((entry ++ more) ++ 61 :: value).
    rewrite drop_app_ge by lia.
    replace (S (length (entry ++ more)) - length (entry ++ more))%nat with 1%nat by lia.
    reflexivity. }
  rewrite Hval. unfold r0, fseek. cbn [fcb pos sectionStart]. do 2 f_equal. lia.
Qed.

(** X20: [initGetString] reads back what the file says.  When the first
    line of the section that the search does not pass over is
    [entry more = value] - the entry, any further characters of a key, the
    equals sign, the value and the newline - the call returns TRUE and
    copies the value, cut to [strLen - 1] characters and padded with NUL,
    into the buffer; a value shorter than that is read back exactly.  The
    key of the line need only begin with [entry]. *)
Theorem initGetString_reads_value (entry more value : list Z)
    (defString : option (list Z)) (str : list Z) (strLen : Z) (r : Reader)
    (pre post : list (list Z)) :
  entry <> [] -> strAt entry 0 <> 91 -> (length entry < 256)%nat ->
  Forall (fun c => keyChar c = true) (entry ++ more) ->
  Forall (fun c => plain c = true) value ->
  (forall c, last value = Some c -> isspace c = false) ->
  drop (sectionStart r) (fcb r)
  = pre ++ (entry ++ more ++ [61] ++ value ++ [10]) :: post ->
  Forall (fun l => passedOver entry l = true) pre ->
  let n := Z.to_nat (strLen - 1) in
  initGetString entry defString str strLen r
  = (Some (true, strncpy str value n),
     fseek (sectionStart r + length pre + 1) r)
  /\ ((length value < n)%nat -> cstring (strncpy str value n) = value).
Proof.
  intros He He0 Hlen Hk Hv Hlast Hfile Hpre n. split.
  - apply (initGetString_value entry more value defString str strLen r pre post);
      assumption.
  - intros Hn. apply cstring_strncpy; [| exact Hn].
    eapply Forall_impl; [exact Hv |]. intros c Hc. apply plain_spec, Hc.
Qed.

(** The search runs into the end of the section. *)
Lemma initGetString_default (entry : list Z) (defString : option (list Z))
    (str : list Z) (strLen : Z) (r : Reader) (body rest : list (list Z)) :
  (length entry < 256)%nat ->
  drop (sectionStart r) (fcb r) = body ++ rest ->
  Forall (fun l => passedOver entry l = true) body ->
  rest = [] \/ (exists h later, rest = h :: later /\ header h = true) ->
  fst (initGetString entry defString str strLen r)
  = option_map (fun d => (false, strncpy str d (Z.to_nat (strLen - 1)))) defString.
Proof.
  intros Hlen Hfile Hbody Hrest.
  set (r0 := fseek (sectionStart r) r).
  assert (Ha0 : ahead r0 = body ++ rest) by exact Hfile.
  destruct (find_pre entry body (length (fcb r)) r0 rest Ha0 Hbody)
    as (fuel' & E & Hahead); [apply (ahead_length r0) |].
  assert (Hnone : exists r', findLoop (length (fcb r)) entry (length entry) r0 = (None, r')).
  { rewrite E, findLoop_unfold.
    destruct Hrest as [-> | (h & later & -> & Hh)].
    - rewrite (next_eof _ Hahead). eexists. reflexivity.
    - rewrite (next_header _ h later Hahead Hh). eexists. reflexivity. }
  destruct Hnone as [r' Hnone].
  unfold initGetString. rewrite (entryLength_small entry Hlen). cbv zeta.
  fold r0. rewrite Hnone. reflexivity.
Qed.

(** X21: an entry is looked up in its section only.  When the search
    passes over every line from the start of the section up to the end of
    the file or the next section header, [initGetString] returns FALSE and
    copies the default into the buffer, whatever later sections hold; with
    a null default the source hands the null pointer to [strncpy]. *)
Theorem initGetString_missing_entry (entry : list Z) (d : list Z)
    (str : list Z) (strLen : Z) (r : Reader) (body rest : list (list Z)) :
  (length entry < 256)%nat ->
  drop (sectionStart r) (fcb r) = body ++ rest ->
  Forall (fun l => passedOver entry l = true) body ->
  rest = [] \/ (exists h later, rest = h :: later /\ header h = true) ->
  let n := Z.to_nat (strLen - 1) in
  fst (initGetString entry (Some d) str strLen r) = Some (false, strncpy str d n)
  /\ ((length d < n)%nat -> Forall (fun c => c <> 0) d ->
      cstring (strncpy str d n) = d)
  /\ fst (initGetString entry None str strLen r) = None.
Proof.
  intros Hlen Hfile Hbody Hrest n.
  split; [| split].
  - apply (initGetString_default entry (Some d) str strLen r body rest); assumption.
  - intros Hn Hd. apply cstring_strncpy; assumption.
  - apply (initGetString_default entry None str strLen r body rest); assumption.
Qed.

End GetString.

Section OpenSection.
Import Init IniSpec.

Lemma openLoop_unfold (fuel : nat) (section : list Z) (n : nat) (r : Reader) :
  openLoop fuel section n r
  = match fgets r with
    | (None, _) => None
    | (Some lineBuffer, r) =>
        if strncmp0 lineBuffer section n then Some r
        else match fuel with
             | O => None
             | S fuel' => openLoop fuel' section n r
             end
    end.
Proof. destruct fuel; reflexivity. Qed.

Lemma openLoop_pre (section : list Z) (n : nat) (pre : list (list Z)) :
  forall (fuel : nat) (r : Reader) (rest : list (list Z)),
  ahead r = pre ++ rest ->
  Forall (fun l => strncmp0 (cstring l) section n = false) pre ->
  (length (ahead r) <= fuel)%nat ->
  exists fuel',
    openLoop fuel section n r = openLoop fuel' section n (fseek (pos r + length pre) r)
    /\ ahead (fseek (pos r + length pre) r) = rest.
Proof.
  induction pre as [| l pre IH]; intros fuel r rest Ha Hp Hfuel.
  - exists fuel. cbn [length]. rewrite Nat.add_0_r. destruct r. split; [reflexivity | exact Ha].
  - apply Forall_cons in Hp as [Hl Hp]. cbn [app] in Ha.
    destruct (fgets_ahead_cons r l _ Ha) as [Hg Hrest].
    rewrite Ha in Hfuel. cbn [length] in Hfuel.
    destruct fuel as [| fuel]; [lia |].
    destruct (IH fuel _ rest Hrest Hp) as (fuel' & E1 & E2); [rewrite Hrest; lia |].
    assert (Hshift : fseek (pos r + length (l :: pre)) r
                     = fseek (pos (fseek (S (pos r)) r) + length pre)
                         (fseek (S (pos r)) r)).
    { unfold fseek. cbn [fcb pos sectionStart length]. f_equal. lia. }
    rewrite Hshift. exists fuel'. split; [| exact E2]. rewrite <- E1.
    rewrite (openLoop_unfold (S fuel)), Hg, Hl. reflexivity.
Qed.

Lemma sectionLength_small (name : list Z) :
  (length name + 2 < 40)%nat ->
  Z.to_nat (to_u8 (Z.of_nat (length name) + 2)) = length (label name).
Proof.
  intros Hfit. unfold label. rewrite !length_app. cbn [length]. unfold to_u8, wrap.
  rewrite Z.mod_small by (change (2 ^ 8) with 256; lia). lia.
Qed.

Lemma initOpenSection_found (name : list Z) (r : Reader) (pre : list (list Z))
    (h : list Z) (post : list (list Z)) :
  (length name + 2 < 40)%nat ->
  fcb r = pre ++ h :: post -> Forall (fun l => opens name l = false) pre ->
  opens name h = true ->
  initOpenSection name r = (true, mkReader (fcb r) (S (length pre)) (S (length pre)))
  /\ drop (S (length pre)) (fcb r) = post.
Proof.
  intros Hfit Hfile Hpre Hh. unfold opens in *.
  pose proof (sectionLength_small name Hfit) as Hn.
  set (r0 := fseek O r).
  assert (Ha0 : ahead r0 = fcb r) by reflexivity.
  rewrite Hfile in Ha0.
  destruct (openLoop_pre (label name) (length (label name)) pre (length (fcb r)) r0 (h :: post)
              Ha0 Hpre) as (fuel' & E & Hahead); [apply (ahead_length r0) |].
  destruct (fgets_ahead_cons _ h post Hahead) as [Hg Hpost].
  split.
  - unfold initOpenSection. rewrite Hn. cbv zeta. fold (label name). fold r0.
    change (fcb r0) with (fcb r). rewrite E, openLoop_unfold, Hg, Hh.
    reflexivity.
  - change (drop (S (length pre)) (fcb r))
      with (ahead (fseek (S (pos (fseek (pos r0 + length pre) r0)))
                     (fseek (pos r0 + length pre) r0))).
    exact Hpost.
Qed.

Lemma initOpenSection_absent (name : list Z) (r : Reader) :
  (length name + 2 < 40)%nat ->
  Forall (fun l => opens name l = false) (fcb r) ->
  initOpenSection name r = (false, mkReader (fcb r) (length (fcb r)) (sectionStart r)).
Proof.
  intros Hfit Hall. unfold opens in *.
  pose proof (sectionLength_small name Hfit) as Hn.
  set (r0 := fseek O r).
  assert (Ha0 : ahead r0 = fcb r) by reflexivity.
  rewrite <- (app_nil_r (fcb r)) in Ha0.
  destruct (openLoop_pre (label name) (length (label name)) (fcb r) (length (fcb r)) r0 []
              Ha0 Hall) as (fuel' & E & Hahead); [apply (ahead_length r0) |].
  unfold initOpenSection. rewrite Hn. cbv zeta. fold (label name). fold r0.
  change (fcb r0) with (fcb r). rewrite E, openLoop_unfold.
  rewrite (fgets_ahead_nil _ Hahead). reflexivity.
Qed.

(** X22: [initOpenSection] searches the whole file from its beginning,
    wherever the file position was, for the first line that begins with
    the name in brackets.  When there is one, it returns TRUE and the
    section starts right after that line; when there is none, it returns
    FALSE, leaves the file at its end and keeps the section start it
    had. *)
Theorem initOpenSection_finds_first_header (name : list Z) (r : Reader) :
  (length name + 2 < 40)%nat ->
  (forall pre h post,
     fcb r = pre ++ h :: post -> Forall (fun l => opens name l = false) pre ->
     opens name h = true ->
     initOpenSection name r
     = (true, mkReader (fcb r) (S (length pre)) (S (length pre)))
     /\ drop (S (length pre)) (fcb r) = post)
  /\ (Forall (fun l => opens name l = false) (fcb r) ->
      initOpenSection name r
      = (false, mkReader (fcb r) (length (fcb r)) (sectionStart r))).
Proof.
  intros Hfit. split.
  - intros pre h post Hfile Hpre Hh.
    apply (initOpenSection_found name r pre h post); assumption.
  - intros Hall. apply initOpenSection_absent; assumption.
Qed.

End OpenSection.

Section Numbers.
Import Init IniSpec.
Context {A : Abi}.

Lemma strAt_strncpy (dst value : list Z) (n : nat) :
  (length value < n)%nat -> strAt (strncpy dst value n) 0 = strAt value 0.
Proof.
  intros Hn. unfold strAt, strncpy. cbn [Z.to_nat].
  destruct value as [| c value]; destruct n as [| n]; cbn in *; try lia; reflexivity.
Qed.

Lemma getNumber_value (base : Z) (entry more value junk : list Z) (defValue : Z)
    (r : Reader) (pre post : list (list Z)) :
  entry <> [] -> strAt entry 0 <> 91 -> (length entry < 256)%nat ->
  Forall (fun c => keyChar c = true) (entry ++ more) ->
  Forall (fun c => plain c = true) value ->
  (forall c, last value = Some c -> isspace c = false) ->
  (length value < 39)%nat ->
  drop (sectionStart r) (fcb r)
  = pre ++ (entry ++ more ++ [61] ++ value ++ [10]) :: post ->
  Forall (fun l => passedOver entry l = true) pre ->
  fst (getNumber base entry defValue junk r)
  = if (48 <=? strAt value 0) && (strAt value 0 <? 48 + base)
    then (true, Z.min (digits base value 0) LONG_MAX)
    else (false, defValue).
Proof.
  intros He He0 Hlen Hk Hv Hlast Hshort Hfile Hpre. unfold getNumber.
  rewrite (initGetString_value entry more value (Some []) junk 40 r pre post)
    by assumption.
  change (Z.to_nat (40 - 1)) with 39%nat.
  rewrite strAt_strncpy by exact Hshort.
  rewrite cstring_strncpy; [| | exact Hshort].
  2: { eapply Forall_impl; [exact Hv |]. intros c Hc. apply plain_spec, Hc. }
  cbn [negb orb fst].
  destruct (Z.leb_spec 48 (strAt value 0)), (Z.ltb_spec (strAt value 0) (48 + base)),
    (Z.ltb_spec (strAt value 0) 48), (Z.gtb_spec (strAt value 0) (48 + base - 1));
    cbn [andb orb]; try lia; reflexivity.
Qed.

Lemma getNumber_default (base : Z) (entry junk : list Z) (defValue : Z)
    (r : Reader) (body rest : list (list Z)) :
  (length entry < 256)%nat ->
  drop (sectionStart r) (fcb r) = body ++ rest ->
  Forall (fun l => passedOver entry l = true) body ->
  rest = [] \/ (exists h later, rest = h :: later /\ header h = true) ->
  fst (getNumber base entry defValue junk r) = (false, defValue).
Proof.
  intros Hlen Hfile Hbody Hrest. unfold getNumber.
  pose proof (initGetString_default entry (Some []) junk 40 r body rest
                Hlen Hfile Hbody Hrest) as H.
  destruct (initGetString entry (Some []) junk 40 r) as [[[found buffer] |] r'];
    cbn [fst option_map] in H; [| discriminate].
  injection H as -> ->. reflexivity.
Qed.

(** X23: a number is read from the characters right after the equals
    sign.  For the line [entry more = value] with a value of fewer than 39
    characters, [initGetOctal] and [initGetInteger] return TRUE and the
    number spelt by the leading digits of the value, [LONG_MAX] at most,
    when the value begins with a digit of the base; when it begins with
    anything else - a blank, a sign, the digit 8 for an octal entry - or
    is empty, they return FALSE and the default value. *)
Theorem numbers_start_after_the_equals_sign (entry more value junk : list Z)
    (defValue : Z) (r : Reader) (pre post : list (list Z)) :
  entry <> [] -> strAt entry 0 <> 91 -> (length entry < 256)%nat ->
  Forall (fun c => keyChar c = true) (entry ++ more) ->
  Forall (fun c => plain c = true) value ->
  (forall c, last value = Some c -> isspace c = false) ->
  (length value < 39)%nat ->
  drop (sectionStart r) (fcb r)
  = pre ++ (entry ++ more ++ [61] ++ value ++ [10]) :: post ->
  Forall (fun l => passedOver entry l = true) pre ->
  let first := strAt value 0 in
  fst (initGetOctal entry defValue junk r)
  = (if (48 <=? first) && (first <? 56)
     then (true, Z.min (digits 8 value 0) LONG_MAX)
     else (false, defValue))
  /\ fst (initGetInteger entry defValue junk r)
     = (if (48 <=? first) && (first <? 58)
        then (true, Z.min (digits 10 value 0) LONG_MAX)
        else (false, defValue)).
Proof.
  intros He He0 Hlen Hk Hv Hlast Hshort Hfile Hpre first.
  unfold initGetOctal, initGetInteger. split.
  - apply (getNumber_value 8 entry more value junk defValue r pre post); assumption.
  - apply (getNumber_value 10 entry more value junk defValue r pre post); assumption.
Qed.

(** X24: a number that its section does not set takes the default: when
    the search passes over every line up to the end of the file or the
    next section header, [initGetOctal] and [initGetInteger] return FALSE
    and the default value, whatever the buffer held. *)
Theorem numbers_default_when_missing (entry junk : list Z) (defValue : Z)
    (r : Reader) (body rest : list (list Z)) :
  (length entry < 256)%nat ->
  drop (sectionStart r) (fcb r) = body ++ rest ->
  Forall (fun l => passedOver entry l = true) body ->
  rest = [] \/ (exists h later, rest = h :: later /\ header h = true) ->
  fst (initGetOctal entry defValue junk r) = (false, defValue)
  /\ fst (initGetInteger entry defValue junk r) = (false, defValue).
Proof.
  intros Hlen Hfile Hbody Hrest. unfold initGetOctal, initGetInteger. split.
  - apply (getNumber_default 8 entry junk defValue r body rest); assumption.
  - apply (getNumber_default 10 entry junk defValue r body rest); assumption.
Qed.

End Numbers.

Section Deadstart.
Import Init IniSpec.
Context {A : Abi} {P : Panel}.

Lemma isoctal_spec (c : Z) : isoctal c = true -> 48 <= c <= 55.
Proof. unfold isoctal. rewrite andb_true_iff, Z.leb_le, Z.leb_le. tauto. Qed.

Lemma octal_plain (c : Z) :
  isoctal c = true -> plain c = true /\ isspace c = false /\ isDelim c = false.
Proof.
  intros Hc. apply isoctal_spec in Hc. unfold plain, isspace, isDelim.
  repeat match goal with
         | |- context [?a =? ?b] => destruct (Z.eqb_spec a b); try lia
         | |- context [?a <=? ?b] => destruct (Z.leb_spec a b); try lia
         end; cbn; auto.
Qed.

Lemma octalWord_spec (t : list Z) :
  octalWord t = true ->
  exists a b c d, t = [a; b; c; d]
    /\ isoctal a = true /\ isoctal b = true /\ isoctal c = true /\ isoctal d = true.
Proof.
  unfold octalWord. rewrite andb_true_iff. intros [Hlen Hall].
  apply Nat.eqb_eq in Hlen.
  destruct t as [| a [| b [| c [| d [| e t]]]]]; try discriminate.
  cbn [forallb] in Hall. rewrite !andb_true_iff in Hall.
  exists a, b, c, d. tauto.
Qed.

Lemma wordValue_range (t : list Z) : octalWord t = true -> 0 <= wordValue t < 4096.
Proof.
  intros Ht. destruct (octalWord_spec t Ht) as (a & b & c & d & -> & Ha & Hb & Hc & Hd).
  apply isoctal_spec in Ha, Hb, Hc, Hd. unfold wordValue. cbn [digits].
  repeat match goal with
         | |- context [?x <=? ?y] => destruct (Z.leb_spec x y); try lia
         | |- context [?x <? ?y] => destruct (Z.ltb_spec x y); try lia
         end; cbn [andb]; lia.
Qed.

Lemma tokenOf_word (t x : list Z) :
  Forall (fun c => isDelim c = false) t -> tokenOf (t ++ 32 :: x) = t.
Proof.
  induction 1 as [| c t Hc _ IH]; cbn [app tokenOf]; [reflexivity |].
  rewrite Hc, IH. reflexivity.
Qed.

(** A line that holds a switch word and its newline. *)
Lemma word_line (t : list Z) :
  octalWord t = true ->
  header (t ++ [10]) = false /\ blankLine (t ++ [10]) = false
  /\ text (t ++ [10]) = t ++ [32] /\ strtok (t ++ [32]) = Some t.
Proof.
  intros Ht. destruct (octalWord_spec t Ht) as (a & b & c & d & -> & Ha & Hb & Hc & Hd).
  destruct (octal_plain a Ha) as (Pa & Sa & Da), (octal_plain b Hb) as (Pb & Sb & Db),
    (octal_plain c Hc) as (Pc & Sc & Dc), (octal_plain d Hd) as (Pd & Sd & Dd).
  assert (Hplain : Forall (fun c => plain c = true) [a; b; c; d])
    by (repeat constructor; assumption).
  assert (Hcs : cstring ([a; b; c; d] ++ [10]) = [a; b; c; d] ++ [10]).
  { apply cstring_id. apply isoctal_spec in Ha, Hb, Hc, Hd. cbn [app].
    repeat (apply List.Forall_cons; [lia |]). apply List.Forall_nil. }
  unfold header, blankLine, text. rewrite Hcs, (scan_plain _ Hplain).
  cbn [fst snd andb forallb]. rewrite Sa. cbn [andb].
  split; [| split; [reflexivity | split; [reflexivity |]]].
  - unfold strAt. change (Z.to_nat 0) with O. cbn [app nth].
    apply isoctal_spec in Ha. apply Z.eqb_neq. lia.
  - unfold strtok. cbn [app skipDelims]. rewrite Da.
    change (a :: b :: c :: d :: [32]) with ([a; b; c; d] ++ 32 :: []).
    rewrite tokenOf_word by (repeat constructor; assumption). reflexivity.
Qed.

Lemma word_checks (t : list Z) :
  octalWord t = true ->
  negb (length t =? 4)%nat
  || negb (isoctal (strAt t 0)) || negb (isoctal (strAt t 1))
  || negb (isoctal (strAt t 2)) || negb (isoctal (strAt t 3)) = false.
Proof.
  intros Ht. destruct (octalWord_spec t Ht) as (a & b & c & d & -> & Ha & Hb & Hc & Hd).
  unfold strAt. change (Z.to_nat 0) with 0%nat. change (Z.to_nat 1) with 1%nat.
  change (Z.to_nat 2) with 2%nat. change (Z.to_nat 3) with 3%nat.
  cbn [nth length Nat.eqb negb orb]. rewrite Ha, Hb, Hc, Hd. reflexivity.
Qed.

Lemma deadstartLoop_unfold (fuel : nat) (lineNo : Z) (deadstartPanel : list Z)
    (r : Reader) :
  deadstartLoop fuel lineNo deadstartPanel r
  = match initGetNextLine r with
    | (None, r) => returns (lineNo, deadstartPanel, r)
    | (Some line, r) =>
        if negb (lineNo <? MaxDeadStart) then returns (lineNo, deadstartPanel, r)
        else
          match strtok line with
          | None => exits
          | Some token =>
              if negb (length token =? 4)%nat
                 || negb (isoctal (strAt token 0)) || negb (isoctal (strAt token 1))
                 || negb (isoctal (strAt token 2)) || negb (isoctal (strAt token 3))
              then exits
              else
                let deadstartPanel :=
                  <[Z.to_nat lineNo := to_u16 (strtol token 8)]> deadstartPanel in
                let lineNo := to_u8 (lineNo + 1) in
                match fuel with
                | O => unfinished
                | S fuel' => deadstartLoop fuel' lineNo deadstartPanel r
                end
          end
    end.
Proof. destruct fuel; reflexivity. Qed.

Lemma panel_step (panel : list Z) (n k : nat) (v : Z) (vs : list Z) :
  (n + S k <= length panel)%nat ->
  take (S n) (<[n:=v]> panel) ++ vs ++ drop (S n + k) (<[n:=v]> panel)
  = take n panel ++ (v :: vs) ++ drop (n + S k) panel.
Proof.
  intros Hlen.
  rewrite (take_S_r _ n v) by (apply list_lookup_insert_eq; lia).
  rewrite take_insert_ge by lia. rewrite drop_insert_lt by lia.
  rewrite <- app_assoc. cbn [app].
  replace (S n + k)%nat with (n + S k)%nat by lia. reflexivity.
Qed.

(** The loop stores the words of the section in order. *)
Lemma deadstart_prefix (words : list (list Z)) :
  forall (fuel : nat) (lineNo : Z) (panel : list Z) (r : Reader) (rest : list (list Z)),
  ahead r = map (fun t => t ++ [10]) words ++ rest ->
  Forall (fun t => octalWord t = true) words ->
  4095 <= LONG_MAX -> 0 <= lineNo ->
  lineNo + Z.of_nat (length words) <= MaxDeadStart ->
  lineNo + Z.of_nat (length words) < 256 ->
  (Z.to_nat lineNo + length words <= length panel)%nat ->
  (length (ahead r) <= fuel)%nat ->
  exists fuel',
    deadstartLoop fuel lineNo panel r
    = deadstartLoop fuel' (lineNo + Z.of_nat (length words))
        (take (Z.to_nat lineNo) panel ++ map wordValue words
         ++ drop (Z.to_nat lineNo + length words) panel)
        (fseek (pos r + length words) r)
    /\ ahead (fseek (pos r + length words) r) = rest.
Proof.
  induction words as [| t words IH];
    intros fuel lineNo panel r rest Ha Hw Hmax H0 Hlim Hu8 Hpanel Hfuel.
  - cbn [map app length] in *. exists fuel.
    rewrite Z.add_0_r, !Nat.add_0_r, take_drop. destruct r. split; [reflexivity | exact Ha].
  - apply Forall_cons in Hw as [Ht Hw]. cbn [map app length] in *.
    destruct (word_line t Ht) as (Hh & Hb & Htext & Htok).
    destruct (fgets_ahead_cons r _ _ Ha) as [_ Hnext].
    rewrite deadstartLoop_unfold.
    rewrite (next_text _ _ _ Ha Hh Hb), Htext.
    destruct (Z.ltb_spec lineNo MaxDeadStart) as [_ | Hge]; [| lia]. cbn [negb].
    rewrite Htok, (word_checks t Ht). cbv zeta.
    pose proof (wordValue_range t Ht) as Hv.
    assert (Hval : to_u16 (strtol t 8) = wordValue t).
    { unfold strtol. fold (wordValue t). rewrite Z.min_l by lia.
      unfold to_u16, wrap. apply Z.mod_small. change (2 ^ 16) with 65536. lia. }
    assert (Hno : to_u8 (lineNo + 1) = lineNo + 1).
    { unfold to_u8, wrap. apply Z.mod_small. change (2 ^ 8) with 256. lia. }
    rewrite Hval, Hno.
    rewrite Ha in Hfuel. cbn [length] in Hfuel.
    destruct fuel as [| fuel]; [lia |].
    destruct (IH fuel (lineNo + 1) (<[Z.to_nat lineNo := wordValue t]> panel) _ rest
                Hnext Hw Hmax) as (fuel' & E & Hrest); try lia.
    { rewrite length_insert. lia. }
    { rewrite Hnext. lia. }
    assert (Hshift : fseek (pos r + S (length words)) r
                     = fseek (pos (fseek (S (pos r)) r) + length words)
                         (fseek (S (pos r)) r)).
    { unfold fseek. cbn [fcb pos sectionStart]. f_equal. lia. }
    rewrite Hshift. exists fuel'. split; [| exact Hrest]. rewrite E.
    f_equal; [lia |].
    replace (Z.to_nat (lineNo + 1)) with (S (Z.to_nat lineNo)) by lia.
    apply panel_step. lia.
Qed.

End Deadstart.

Section DeadstartPanel.
Import Init IniSpec.
Context {A : Abi} {P : Panel}.

Lemma bad_checks (t : list Z) :
  octalWord t = false ->
  negb (length t =? 4)%nat
  || negb (isoctal (strAt t 0)) || negb (isoctal (strAt t 1))
  || negb (isoctal (strAt t 2)) || negb (isoctal (strAt t 3)) = true.
Proof.
  unfold octalWord. intros Ht.
  destruct (length t =? 4)%nat eqn:Hlen; [| reflexivity].
  apply Nat.eqb_eq in Hlen.
  destruct t as [| a [| b [| c [| d [| e t]]]]]; try discriminate.
  cbn [andb forallb] in Ht.
  unfold strAt. change (Z.to_nat 0) with 0%nat. change (Z.to_nat 1) with 1%nat.
  change (Z.to_nat 2) with 2%nat. change (Z.to_nat 3) with 3%nat.
  cbn [nth negb orb].
  destruct (isoctal a), (isoctal b), (isoctal c), (isoctal d);
    cbn in Ht |- *; congruence.
Qed.

(** X25: the deadstart panel is read from its section word by word.  When
    the section holds, up to its end, lines of four octal digits, no more
    than [MaxDeadStart] of them, [initDeadstart] returns with the words in
    the first rows of the panel in the order of the file, the other rows
    as they were, and [deadstartCount] one more than the number of words;
    every word fits twelve bits. *)
Theorem initDeadstart_reads_the_panel (name panel : list Z) (r : Reader)
    (pre : list (list Z)) (h : list Z) (words rest : list (list Z)) :
  4095 <= LONG_MAX -> (length name + 2 < 40)%nat ->
  fcb r = pre ++ h :: map (fun t => t ++ [10]) words ++ rest ->
  Forall (fun l => opens name l = false) pre -> opens name h = true ->
  Forall (fun t => octalWord t = true) words ->
  rest = [] \/ (exists h' later, rest = h' :: later /\ header h' = true) ->
  Z.of_nat (length words) <= MaxDeadStart -> Z.of_nat (length words) < 255 ->
  (length words <= length panel)%nat ->
  (exists r',
     initDeadstart name panel r
     = returns (map wordValue words ++ drop (length words) panel,
                Z.of_nat (length words) + 1, r'))
  /\ Forall (fun v => 0 <= v < 4096) (map wordValue words).
Proof.
  intros Hmax Hfit Hfile Hpre Hh Hw Hrest Hlim Hu8 Hpanel. split.
  - destruct (initOpenSection_found name r pre h _ Hfit Hfile Hpre Hh) as [Hopen Hbody].
    unfold initDeadstart. rewrite Hopen.
    set (r1 := mkReader (fcb r) (S (length pre)) (S (length pre))).
    assert (Ha : ahead r1 = map (fun t => t ++ [10]) words ++ rest) by exact Hbody.
    destruct (deadstart_prefix words (length (fcb r1)) 0 panel r1 rest Ha Hw Hmax)
      as (fuel' & E & Hahead); try lia.
    { apply (ahead_length r1). }
    rewrite E, deadstartLoop_unfold.
    assert (Hcount : to_u8 (Z.of_nat (length words) + 1) = Z.of_nat (length words) + 1).
    { unfold to_u8, wrap. apply Z.mod_small. change (2 ^ 8) with 256. lia. }
    destruct Hrest as [-> | (h' & later & -> & Hh')].
    + rewrite (next_eof _ Hahead). cbv beta iota.
      rewrite Z.add_0_l, Hcount. eexists. reflexivity.
    + rewrite (next_header _ h' later Hahead Hh'). cbv beta iota.
      rewrite Z.add_0_l, Hcount. eexists. reflexivity.
  - apply Forall_map. eapply Forall_impl; [exact Hw |].
    intros t Ht. apply wordValue_range, Ht.
Qed.

(** X26: [initDeadstart] gives up on a missing section and on a malformed
    switch word.  When no line of the file begins with the bracketed name
    it exits; when the section holds, after fewer than [MaxDeadStart] good
    words, a line whose first token is not made of four octal digits, it
    exits as well. *)
Theorem initDeadstart_rejects_bad_input (name panel : list Z) (r : Reader) :
  4095 <= LONG_MAX -> (length name + 2 < 40)%nat ->
  (Forall (fun l => opens name l = false) (fcb r) ->
   initDeadstart name panel r = exits)
  /\ (forall pre h words bad rest token,
        fcb r = pre ++ h :: map (fun t => t ++ [10]) words ++ bad :: rest ->
        Forall (fun l => opens name l = false) pre -> opens name h = true ->
        Forall (fun t => octalWord t = true) words ->
        Z.of_nat (length words) < MaxDeadStart -> Z.of_nat (length words) < 255 ->
        (length words <= length panel)%nat ->
        header bad = false -> blankLine bad = false ->
        strtok (text bad) = Some token -> octalWord token = false ->
        initDeadstart name panel r = exits).
Proof.
  intros Hmax Hfit. split.
  - intros Hall. unfold initDeadstart.
    rewrite (initOpenSection_absent name r Hfit Hall). reflexivity.
  - intros pre h words bad rest token Hfile Hpre Hh Hw Hlim Hu8 Hpanel Hbh Hbb Htok Hbad.
    destruct (initOpenSection_found name r pre h _ Hfit Hfile Hpre Hh) as [Hopen Hbody].
    unfold initDeadstart. rewrite Hopen.
    set (r1 := mkReader (fcb r) (S (length pre)) (S (length pre))).
    assert (Ha : ahead r1 = map (fun t => t ++ [10]) words ++ bad :: rest) by exact Hbody.
    destruct (deadstart_prefix words (length (fcb r1)) 0 panel r1 (bad :: rest) Ha Hw Hmax)
      as (fuel' & E & Hahead); try lia.
    { apply (ahead_length r1). }
    rewrite E, deadstartLoop_unfold.
    rewrite (next_text _ bad rest Hahead Hbh Hbb).
    destruct (Z.ltb_spec (0 + Z.of_nat (length words)) MaxDeadStart) as [_ | Hge]; [| lia].
    cbn [negb]. rewrite Htok, (bad_checks token Hbad). reflexivity.
Qed.

End DeadstartPanel.

Section KeyIn.
Import Console KeyRing ConsoleSpec ConsoleRun.
Context {F : Fonts} {C : Charset}.

Lemma func_keyIn (s : State) :
  consoleFunc Fc6612SelKeyIn s
  = (FcAccepted,
     set_fcode Fc6612SelKeyIn (set_activeChannel (set_chFull false (activeChannel s)) s)).
Proof. reflexivity. Qed.

Lemma io_keyIn (t : Tm) (typed : option Z) (s : State) :
  fcode s = Fc6612SelKeyIn ->
  consoleIo t typed s
  = let s0 := call windowGetChar s in
    let s0 := match typed with Some k => set_ppKeyIn k s0 | None => s0 end in
    let d1 := to_u16 (asciiToConsole (ppKeyIn s0)) in
    let '(d2, s0) :=
      if d1 =? 0
      then let '(key, k) := consoleGetKey (keys s0) in
           (char_to_PpWord key, set_keys k s0)
      else (d1, s0) in
    set_ppKeyIn 0
      (set_fcode 0 (set_activeChannel (mkChSlot (chId (activeChannel s0)) d2 true 0) s0)).
Proof. intros Hfc. unfold consoleIo. rewrite Hfc. reflexivity. Qed.

(** X27: a keyboard poll - the function Select Key In and the I/O cycle
    after it - is accepted in every state and fills the channel once: the
    poll clears the function code, the channel status and [ppKeyIn], so a
    further I/O cycle without a new function changes nothing.  A key typed
    at the window whose console code is not zero overtakes the keys
    waiting in the ring, which is left as it is; with nothing typed the
    channel gets what [consoleGetKey] hands out. *)
Theorem keyboard_poll_fills_the_channel_once (t t' : Tm) (typed typed' : option Z)
    (s : State) :
  let r := consoleFunc Fc6612SelKeyIn s in
  let s' := consoleIo t typed (snd r) in
  fst r = FcAccepted
  /\ chFull (activeChannel s') = true /\ chStatus (activeChannel s') = 0
  /\ fcode s' = 0 /\ ppKeyIn s' = 0 /\ auto s' = auto s
  /\ consoleIo t' typed' s' = s'
  /\ (forall k, typed = Some k -> to_u16 (asciiToConsole k) <> 0 ->
      chData (activeChannel s') = to_u16 (asciiToConsole k) /\ keys s' = keys s)
  /\ (typed = None -> to_u16 (asciiToConsole (ppKeyIn s)) = 0 ->
      chData (activeChannel s') = char_to_PpWord (fst (consoleGetKey (keys s)))
      /\ keys s' = snd (consoleGetKey (keys s))).
Proof.
  cbv zeta. rewrite func_keyIn. cbn [fst snd].
  set (s1 := set_fcode Fc6612SelKeyIn _).
  rewrite (io_keyIn t typed s1 eq_refl). cbv zeta.
  destruct typed as [k |]; cbn [ppKeyIn set_ppKeyIn call keys];
    change (keys s1) with (keys s); change (ppKeyIn s1) with (ppKeyIn s);
    match goal with
    | |- context [to_u16 (asciiToConsole ?x) =? 0] =>
        destruct (Z.eqb_spec (to_u16 (asciiToConsole x)) 0) as [E | E]
    end;
    destruct (consoleGetKey (keys s)) as [key ring] eqn:Hget;
    cbn [fst snd];
    (split; [reflexivity |]); (split; [reflexivity |]); (split; [reflexivity |]);
    (split; [reflexivity |]); (split; [reflexivity |]); (split; [reflexivity |]);
    (split; [reflexivity |]); split;
    try (intros k' Hk Hne; injection Hk as <-; first [contradiction | split; reflexivity]);
    try (intros k' Hk; discriminate Hk);
    try (intros Hk; discriminate Hk);
    try (intros _ Hz; first [contradiction | split; reflexivity]).
Qed.

End KeyIn.

Section RingWitness.
Import Console KeyRing KeyTrace.

Lemma three_gets_deliver_one_witness :
  pending (gets 3 (consoleQueueKey 5 keys0)) = [].
Proof.
  assert (Hwf : wf (consoleQueueKey 5 keys0)).
  { unfold wf, KeyBufSize. vm_compute. repeat split; discriminate. }
  destruct (three_gets_deliver_one (consoleQueueKey 5 keys0) 5 [] Hwf eq_refl)
    as [Hrest _].
  - vm_compute. reflexivity.
  - vm_compute. discriminate.
  - exact Hrest.
Defined.

End RingWitness.

Section ConsoleWitness.
Import Console KeyRing ConsoleSpec ConsoleRun.

Lemma autodate_fires_once_witness :
  auto (run (F := Scene.fonts) (C := Sample.charset)
          [opFunc Fc6612Sel32CharLeft; opChannel 66 true; opIo Sample.noon None;
           opKey 5; opFunc Fc6612SelKeyIn; opIo Sample.noon None]
          Scene.idle)
  = auto Scene.idle.
Proof.
  apply (autodate_fires_once (F := Scene.fonts) (C := Sample.charset)). reflexivity.
Defined.

Lemma displayCode_range (c : Z) : 0 <= Sample.displayCode c < 64.
Proof.
  unfold Sample.displayCode.
  destruct (Z.leb_spec 65 c), (Z.leb_spec c 90), (Z.leb_spec 48 c), (Z.leb_spec c 57);
    cbn [andb]; lia.
Qed.

Lemma autodate_pattern_is_answered_witness :
  let s' := sendAll (C := Sample.charset)
              (zip (patternWords (C := Sample.charset) Scene.enterDate)
                   (replicate 5 Sample.noon))
              (Sample.console Scene.enterDate [55; 48] 0) in
  autoDate (auto s') = false
  /\ pending (keys s')
     = map Sample.keyCode [55; 48; 49; 49; 48; 50; 10; 49; 50; 51; 52; 53; 54; 10].
Proof.
  pose proof (autodate_pattern_is_answered (C := Sample.charset) Scene.enterDate [55; 48]
                (replicate 4 Sample.noon) Sample.noon
                (Sample.console Scene.enterDate [55; 48] 0)) as H.
  cbv zeta in H. apply H; clear H.
  - exact displayCode_range.
  - discriminate.
  - discriminate.
  - repeat constructor; discriminate.
  - discriminate.
  - reflexivity.
  - reflexivity.
  - reflexivity.
  - reflexivity.
  - exact wf_keys0.
  - reflexivity.
Defined.

End ConsoleWitness.

Section PaperWitness.
Import PaperSpec.
#[local] Existing Instance Sample.dcc6681.
#[local] Existing Instance Sample.limits.
#[local] Existing Instance Sample.charset.

Lemma removePaper_archives_capture_witness :
  exists s1 s3, Sample.lp1612 false = Some s1 /\ Sample.lp501 false = Some s3
  /\ archived (Lp1612.host (Lp1612.lp1612RemovePaper (L := Sample.limits) Sample.env
                              (mkScanned 2 9 0) (Lp1612.emit [72; 73] s1)))
     = [(nameArchive EmptyString Sample.noon 0 false, [72; 73])]
  /\ archived (Lp3000.host (Lp3000.lp3000RemovePaper (L := Sample.limits) true Sample.env
                              (mkScanned 2 8 0) (Lp3000.emit [72; 73] s3)))
     = [(nameArchive EmptyString Sample.noon 0 true, [72; 73])].
Proof.
  do 2 eexists. split; [reflexivity |]. split; [reflexivity |].
  match goal with
  | |- archived (Lp1612.host (Lp1612.lp1612RemovePaper _ _ ?s1)) = _
       /\ archived (Lp3000.host (Lp3000.lp3000RemovePaper _ _ _ ?s3)) = _ =>
      pose proof (removePaper_archives_capture (L := Sample.limits) true Sample.env 0
                    (mkScanned 2 9 0) (mkScanned 2 8 0) s1 s3
                    (fputs [72; 73] fopen_w) (fputs [72; 73] fopen_w)) as H
  end.
  cbv zeta in H.
  destruct H as [(_ & H1 & _) (_ & H3 & _)].
  - unfold names1612. cbn. repeat split; lia.
  - reflexivity.
  - discriminate.
  - unfold names3000. cbn. repeat split; lia.
  - reflexivity.
  - discriminate.
  - lia.
  - split; [reflexivity | intros i Hi; lia].
  - reflexivity.
  - split; [exact H1 | exact H3].
Defined.

Lemma removePaper_discards_unrenamed_witness :
  exists s1 s3, Sample.lp1612 false = Some s1 /\ Sample.lp501 false = Some s3
  /\ (let r1 := Lp1612.lp1612RemovePaper (L := Sample.limits) Scene.stuck
                  (mkScanned 2 9 0) (Lp1612.emit [72; 73] s1) in
      Lp1612.fcb r1 = Some fopen_w /\ archived (Lp1612.host r1) = [])
  /\ (let r3 := Lp3000.lp3000RemovePaper (L := Sample.limits) true Scene.stuck
                  (mkScanned 2 8 0) (Lp3000.emit [72; 73] s3) in
      Lp3000.fcb r3 = Some fopen_w /\ archived (Lp3000.host r3) = []).
Proof.
  do 2 eexists. split; [reflexivity |]. split; [reflexivity |].
  match goal with
  | |- (let r1 := Lp1612.lp1612RemovePaper _ _ ?s1 in _)
       /\ (let r3 := Lp3000.lp3000RemovePaper _ _ _ ?s3 in _) =>
      pose proof (removePaper_discards_unrenamed (L := Sample.limits) true Scene.stuck
                    (mkScanned 2 9 0) (mkScanned 2 8 0) s1 s3
                    (fputs [72; 73] fopen_w) (fputs [72; 73] fopen_w)) as H
  end.
  cbv zeta in H |- *.
  destruct H as [(F1 & A1 & _) (F3 & A3 & _)].
  - unfold names1612. cbn. repeat split; lia.
  - reflexivity.
  - discriminate.
  - unfold names3000. cbn. repeat split; lia.
  - reflexivity.
  - discriminate.
  - intros i Hi. reflexivity.
  - reflexivity.
  - split; split; assumption.
Defined.

Lemma null_handle_is_permanent_witness :
  exists s1 s3, Sample.lp1612 false = Some s1 /\ Sample.lp501 false = Some s3
  /\ Lp1612.fcb (Lp1612Run.run (L := Sample.limits) (C := Sample.charset)
                   [Lp1612Run.opFunc Lp1612.FcPrintSelect; Lp1612Run.opChannel 66 true;
                    Lp1612Run.opIo; Lp1612Run.opDisconnect;
                    Lp1612Run.opRemovePaper Sample.env (mkScanned 2 9 0)]
                   (Lp1612.set_fcb None s1)) = None
  /\ Lp3000.fcb (Lp3000Spec.run (D := Sample.dcc6681) (L := Sample.limits)
                   (C := Sample.charset)
                   [Lp3000Spec.opFunc true Sample.env Fc6681Output;
                    Lp3000Spec.opChannel 66 true; Lp3000Spec.opIo;
                    Lp3000Spec.opDisconnect;
                    Lp3000Spec.opRemovePaper true Sample.env (mkScanned 2 8 0)]
                   (Lp3000.set_fcb None s3)) = None.
Proof.
  do 2 eexists. split; [reflexivity |]. split; [reflexivity |].
  match goal with
  | |- Lp1612.fcb (Lp1612Run.run ?o1 ?s1) = None
       /\ Lp3000.fcb (Lp3000Spec.run ?o3 ?s3) = None =>
      pose proof (null_handle_is_permanent (D := Sample.dcc6681) (L := Sample.limits)
                    (C := Sample.charset) o1 o3 s1 s3 eq_refl eq_refl) as H
  end.
  cbv zeta in H. destruct H as [(H1 & _) (H3 & _)].
  split; [exact H1 | exact H3].
Defined.

Lemma removePaper_rejects_bad_arguments_witness :
  exists s1 s3, Sample.lp1612 false = Some s1 /\ Sample.lp501 false = Some s3
  /\ Lp1612.fcb (Lp1612.lp1612RemovePaper (L := Sample.limits) Sample.env
                   (mkScanned 1 9 0) (Lp1612.emit [72; 73] s1))
     = Some (fputs [72; 73] fopen_w)
  /\ Lp3000.fcb (Lp3000.lp3000RemovePaper (L := Sample.limits) true Sample.env
                   (mkScanned 2 9 0) (Lp3000.emit [72; 73] s3))
     = Some (fputs [72; 73] fopen_w).
Proof.
  do 2 eexists. split; [reflexivity |]. split; [reflexivity |].
  match goal with
  | |- Lp1612.fcb (Lp1612.lp1612RemovePaper _ ?p1 ?s1) = _
       /\ Lp3000.fcb (Lp3000.lp3000RemovePaper _ _ ?p3 ?s3) = _ =>
      destruct (removePaper_rejects_bad_arguments (L := Sample.limits) true Sample.env
                  p1 p3 s1 s3) as [(l1 & _ & E1) (l3 & _ & E3)]
  end.
  - intros (Hn & _). discriminate Hn.
  - intros (_ & _ & _ & Hd). discriminate Hd.
  - rewrite E1, E3. split; reflexivity.
Defined.

End PaperWitness.

Section Lp1612Witness.
Import Lp1612 Lp1612Spec Lp1612Run Asa.
#[local] Existing Instance Sample.limits.
#[local] Existing Instance Sample.charset.

Lemma status_request_is_answered_witness :
  exists s0, Sample.lp1612 false = Some s0
  /\ chData (activeChannel (lp1612Io (snd (lp1612Func FcPrintStatusReq s0))))
     = StPrintReady.
Proof.
  eexists. split; [reflexivity |].
  match goal with
  | |- chData (activeChannel (lp1612Io (snd (lp1612Func _ ?s0)))) = _ =>
      pose proof (status_request_is_answered s0 fopen_w eq_refl) as H
  end.
  cbv zeta in H. destruct H as (_ & Hdata & _). exact Hdata.
Defined.


Lemma ansi_capture_1612_is_ruled_witness :
  exists s0, Sample.lp1612 true = Some s0
  /\ ruled1612 (run [opFunc FcPrintSelect; opChannel (oct 3031) true; opIo;
                     opFunc FcPrintDoubleSpace; opDisconnect;
                     opFunc FcPrintMoveTOF] s0).
Proof.
  eexists. split; [reflexivity |].
  match goal with
  | |- ruled1612 (run ?ops ?s0) =>
      pose proof (ansi_capture_1612_is_ruled ops s0) as H
  end.
  destruct H as [Hr _].
  - intros c _. cbn [extBcdToAscii Sample.charset]. unfold Sample.extBcd.
    destruct (c =? oct 30); [discriminate |]. destruct (c =? oct 31); discriminate.
  - reflexivity.
  - reflexivity.
  - exact Hr.
Defined.

End Lp1612Witness.

Section Lp3000Witness.
Import Lp3000 Lp3000Spec Lp3000Run Asa.
#[local] Existing Instance Sample.dcc6681.
#[local] Existing Instance Sample.limits.
#[local] Existing Instance Sample.charset.

Lemma printer_keeps_its_shape_witness :
  exists s0, Sample.lp501 false = Some s0
  /\ shaped (lc (run [opFunc false Sample.env Fc3555Sel8Lpi;
                      opFunc false Sample.env FcPrintDouble;
                      opFunc false Sample.env Fc6681Output;
                      opChannel 66 true; opIo; opDisconnect;
                      opFunc false Sample.env Fc3555ClearFormat] s0)).
Proof.
  eexists. split; [reflexivity |].
  match goal with
  | |- shaped (lc (run ?ops ?s0)) =>
      pose proof (printer_keeps_its_shape ops s0) as H
  end.
  cbv zeta in H. destruct H as [Hs _]; [| exact Hs].
  unfold shaped. cbn. split; [left; reflexivity |]. split; [reflexivity | left; reflexivity].
Defined.

Lemma output_transfer_prints_every_word_witness :
  exists s0, Sample.lp501 false = Some s0
  /\ paper (transfer [ConsoleRun.word2 8 9; ConsoleRun.word2 27 28]
              (snd (lp3000Func false Sample.env Fc6681Output s0)))
     = Some [72; 73; 48; 49].
Proof.
  eexists. split; [reflexivity |].
  match goal with
  | |- paper (transfer ?ws ?s1) = _ =>
      pose proof (output_transfer_prints_every_word ws s1 fopen_w eq_refl eq_refl) as H
  end.
  cbv zeta in H. destruct H as (Hpaper & _).
  rewrite Hpaper. reflexivity.
Defined.

Lemma fill_memory_output_is_not_printed_witness :
  exists s0, Sample.lp501 false = Some s0
  /\ fcb (lp3000Disconnect
            (transfer [ConsoleRun.word2 8 9; ConsoleRun.word2 27 28]
               (snd (lp3000Func false Sample.env Fc6681Output
                       (snd (lp3000Func false Sample.env Fc3555FillMemory s0))))))
     = Some fopen_w.
Proof.
  eexists. split; [reflexivity |].
  match goal with
  | |- fcb (lp3000Disconnect (transfer ?ws (snd (lp3000Func _ _ _
              (snd (lp3000Func _ _ _ ?s0)))))) = _ =>
      pose proof (fill_memory_output_is_not_printed false Sample.env ws s0 fopen_w
                    eq_refl) as H
  end.
  cbv zeta in H. destruct H as (_ & Hf & _).
  - reflexivity.
  - reflexivity.
  - reflexivity.
  - exact Hf.
Defined.


Lemma ansi_capture_501_is_ruled_witness :
  exists s0, Sample.lp501 true = Some s0
  /\ ruled3000 (run [opFunc false Sample.env Fc6681MasterClear;
                     opFunc false Sample.env Fc6681Output;
                     opChannel (ConsoleRun.word2 8 9) true; opIo; opDisconnect;
                     opFunc false Sample.env FcPrintEject] s0).
Proof.
  eexists. split; [reflexivity |].
  match goal with
  | |- ruled3000 (run ?ops ?s0) =>
      pose proof (ansi_capture_501_is_ruled ops s0) as H
  end.
  apply H.
  - intros c _. cbn [bcdToAscii Sample.charset]. unfold Sample.toAscii, to_u8, wrap.
    destruct (Z.leb_spec 1 c), (Z.leb_spec c 26), (Z.leb_spec 27 c), (Z.leb_spec c 36);
      cbn [andb]; try discriminate;
      rewrite Z.mod_small by (change (2 ^ 8) with 256; lia); lia.
  - reflexivity.
  - reflexivity.
  - reflexivity.
Defined.

Lemma release_twice_is_release_once_witness :
  exists s0, Sample.lp501 false = Some s0
  /\ let s1 := snd (lp3000Func false Sample.env FcPrintRelease
                      (lp3000Disconnect
                         (transfer [ConsoleRun.word2 8 9]
                            (snd (lp3000Func false Sample.env Fc6681Output s0))))) in
     snd (lp3000Func false Scene.stuck FcPrintRelease s1) = s1.
Proof.
  eexists. split; [reflexivity |]. cbv zeta.
  match goal with
  | |- snd (lp3000Func _ _ _ (snd (lp3000Func _ _ _ ?s))) = _ =>
      pose proof (release_twice_is_release_once false Sample.env Scene.stuck s
                    (fputs [10] (fputs [73] (fputs [72] fopen_w))) eq_refl eq_refl) as H
  end.
  cbv zeta in H. apply H. discriminate.
Defined.

End Lp3000Witness.

Section InitWitness.
Import Init.

Lemma initConvertEndian_reverses_bytes_witness :
  initConvertEndian 305419896 = 2018915346
  /\ initConvertEndian (initConvertEndian 305419896) = 305419896.
Proof.
  destruct (initConvertEndian_reverses_bytes 305419896) as (_ & _ & Hinv).
  - lia.
  - split; [reflexivity | exact Hinv].
Defined.

End InitWitness.

Section StartupWitness.
Import Init IniSpec.
#[local] Existing Instance Scene.abi.
#[local] Existing Instance Scene.panel.

Lemma initGetNextLine_skips_blank_lines_witness :
  initGetNextLine (mkReader Scene.ini 2 0)
  = (Some (Scene.chars "model=6400 "), mkReader Scene.ini 4 0).
Proof.
  destruct (initGetNextLine_skips_blank_lines (mkReader Scene.ini 2 0) [[10]]) as [_ H].
  - repeat constructor.
  - destruct (H (Scene.line "model=6400") (drop 4 Scene.ini) eq_refl eq_refl) as [E _].
    exact E.
Defined.

Lemma initGetString_reads_value_witness :
  initGetString (Scene.chars "mod") None (replicate 40 0) 40 (mkReader Scene.ini 0 2)
  = (Some (true, Scene.chars "6400" ++ replicate 36 0), mkReader Scene.ini 4 2).
Proof.
  destruct (initGetString_reads_value (Scene.chars "mod") (Scene.chars "el")
              (Scene.chars "6400") None (replicate 40 0) 40 (mkReader Scene.ini 0 2)
              [[10]] (drop 4 Scene.ini)) as [E _].
  - discriminate.
  - discriminate.
  - cbn. lia.
  - repeat constructor.
  - repeat constructor.
  - intros c Hc. injection Hc as <-. reflexivity.
  - reflexivity.
  - repeat constructor.
  - exact E.
Defined.

Lemma initGetString_missing_entry_witness :
  fst (initGetString (Scene.chars "autodate") (Some (Scene.chars "never"))
         (replicate 40 0) 39 (mkReader Scene.ini 0 2))
  = Some (false, Scene.chars "never" ++ replicate 35 0).
Proof.
  destruct (initGetString_missing_entry (Scene.chars "autodate") (Scene.chars "never")
              (replicate 40 0) 39 (mkReader Scene.ini 0 2)
              (take 4 (drop 2 Scene.ini)) (drop 6 Scene.ini)) as [E _].
  - cbn. lia.
  - reflexivity.
  - repeat constructor.
  - right. do 2 eexists. split; reflexivity.
  - exact E.
Defined.

Lemma initOpenSection_finds_first_header_witness :
  initOpenSection (Scene.chars "cyber") (mkReader Scene.ini 7 0)
  = (true, mkReader Scene.ini 2 2).
Proof.
  destruct (initOpenSection_finds_first_header (Scene.chars "cyber")
              (mkReader Scene.ini 7 0)) as [H _].
  - cbn. lia.
  - destruct (H (take 1 Scene.ini) (Scene.line "[cyber]") (drop 2 Scene.ini))
      as [E _].
    + reflexivity.
    + repeat constructor.
    + reflexivity.
    + exact E.
Defined.

Lemma numbers_start_after_the_equals_sign_witness :
  fst (initGetOctal (Scene.chars "ecsbanks") 0 (replicate 40 7) (mkReader Scene.ini 0 2))
  = (true, 14)
  /\ fst (initGetInteger (Scene.chars "memory") 5 (replicate 40 7)
            (mkReader Scene.ini 0 2))
     = (false, 5).
Proof.
  split.
  - destruct (numbers_start_after_the_equals_sign (Scene.chars "ecsbanks") []
                (Scene.chars "16") (replicate 40 7) 0 (mkReader Scene.ini 0 2)
                (take 3 (drop 2 Scene.ini)) (drop 6 Scene.ini)) as [E _].
    + discriminate.
    + discriminate.
    + cbn. lia.
    + repeat constructor.
    + repeat constructor.
    + intros c Hc. injection Hc as <-. reflexivity.
    + cbn. lia.
    + reflexivity.
    + repeat constructor.
    + exact E.
  - destruct (numbers_start_after_the_equals_sign (Scene.chars "memory") [32]
                (Scene.chars " 1000000") (replicate 40 7) 5 (mkReader Scene.ini 0 2)
                (take 2 (drop 2 Scene.ini)) (drop 5 Scene.ini)) as [_ E].
    + discriminate.
    + discriminate.
    + cbn. lia.
    + repeat constructor.
    + repeat constructor.
    + intros c Hc. injection Hc as <-. reflexivity.
    + cbn. lia.
    + reflexivity.
    + repeat constructor.
    + exact E.
Defined.

Lemma numbers_default_when_missing_witness :
  fst (initGetOctal (Scene.chars "pps") 10 (replicate 40 7) (mkReader Scene.ini 0 2))
  = (false, 10).
Proof.
  destruct (numbers_default_when_missing (Scene.chars "pps") (replicate 40 7) 10
              (mkReader Scene.ini 0 2) (take 4 (drop 2 Scene.ini)) (drop 6 Scene.ini))
    as [E _].
  - cbn. lia.
  - reflexivity.
  - repeat constructor.
  - right. do 2 eexists. split; reflexivity.
  - exact E.
Defined.

Lemma initDeadstart_reads_the_panel_witness :
  exists r',
    initDeadstart (Scene.chars "deadstart") (replicate 16 7) (mkReader Scene.boot 0 0)
    = returns ([0; 3947] ++ replicate 14 7, 3, r').
Proof.
  destruct (initDeadstart_reads_the_panel (Scene.chars "deadstart") (replicate 16 7)
              (mkReader Scene.boot 0 0) (take 2 Scene.boot) (Scene.line "[deadstart]")
              [Scene.chars "0000"; Scene.chars "7553"] (drop 5 Scene.boot))
    as [[r' E] _].
  - cbn. lia.
  - cbn. lia.
  - reflexivity.
  - repeat constructor.
  - reflexivity.
  - repeat constructor.
  - right. do 2 eexists. split; reflexivity.
  - cbn. lia.
  - cbn. lia.
  - cbn. lia.
  - exists r'. rewrite E. reflexivity.
Defined.

Lemma initDeadstart_rejects_bad_input_witness :
  initDeadstart (Scene.chars "deadstart") (replicate 16 7) (mkReader Scene.badBoot 0 0)
  = exits
  /\ initDeadstart (Scene.chars "deadstart") (replicate 16 7) (mkReader Scene.ini 0 0)
     = exits.
Proof.
  split.
  - destruct (initDeadstart_rejects_bad_input (Scene.chars "deadstart") (replicate 16 7)
                (mkReader Scene.badBoot 0 0)) as [_ H].
    + cbn. lia.
    + cbn. lia.
    + apply (H [] (Scene.line "[deadstart]") [Scene.chars "0000"] (Scene.line "75530") []
               (Scene.chars "75530")).
      * reflexivity.
      * constructor.
      * reflexivity.
      * repeat constructor.
      * cbn. lia.
      * cbn. lia.
      * cbn. lia.
      * reflexivity.
      * reflexivity.
      * reflexivity.
      * reflexivity.
  - destruct (initDeadstart_rejects_bad_input (Scene.chars "deadstart") (replicate 16 7)
                (mkReader Scene.ini 0 0)) as [H _].
    + cbn. lia.
    + cbn. lia.
    + apply H. repeat constructor.
Defined.

End StartupWitness.
